(** * Exam_Tester_Backend

    A shallow embedding of the request handlers of the exam backend
    (routes/examAttempts.js, routes/exams.js, routes/submissions.js) over
    an explicit document store, and the properties of the attempt timer,
    the submission gate, the file endpoint and the exam listing. *)

From Stdlib Require Import String ZArith Bool Arith Lia List Permutation
  Sorted.
Import ListNotations.

Local Open Scope string_scope.
Local Open Scope nat_scope.

(** ** Basic types

    An ObjectId is an opaque value the store hands out; it is modelled by
    a counter.  A JavaScript [Date] is its number of milliseconds. *)

Definition ObjectId := nat.
Definition Date := Z.
Bind Scope Z_scope with Date.

(** What a handler sends: [res.status(c).json({success: true, data})] is
    [Ok c data] ([res.json] alone sends 200), and
    [res.status(c).json({success: false, message})] is [Fail c message]. *)
Inductive Result (A : Type) : Type :=
| Ok (code : nat) (data : A)
| Fail (code : nat) (message : string).
Arguments Ok {A} code data.
Arguments Fail {A} code message.

Definition succeeded {A} (r : Result A) : bool :=
  match r with Ok _ _ => true | Fail _ _ => false end.

(** ** Collections (the schemas under models/)

    The [createdAt] and [updatedAt] time stamps are kept only where a
    handler reads them. *)

Module User.
Record t := mk { _id : ObjectId; name : string; email : string }.
End User.

Module Exam.
(** A document of the exams collection: the paths of models/Exam.js, and
    [examPdfUrl], the field that documents written before the schema
    changed still hold in the collection.  The schema declares no such
    path. *)
Record t := mk {
  _id : ObjectId;
  title : string;
  examFileId : option ObjectId;
  examPdfUrl : option string;
  duration : Z;
  createdBy : ObjectId;
  isActive : bool;
  createdAt : Date
}.

Definition set_isActive (b : bool) (e : t) : t :=
  mk (_id e) (title e) (examFileId e) (examPdfUrl e) (duration e)
     (createdBy e) b (createdAt e).

(** The read [exam.examPdfUrl] on a loaded document.  A Mongoose document
    has properties for the paths of its schema only (the schema is
    strict, the default): what the collection holds under a name the
    schema does not declare stays in the raw data, and the read gives
    undefined whatever is stored. *)
Definition read_examPdfUrl (e : t) : option string := None.
End Exam.

Module ExamAttempt.
Inductive Status := started | paused | completed | expired.

Definition status_eqb (s1 s2 : Status) : bool :=
  match s1, s2 with
  | started, started | paused, paused
  | completed, completed | expired, expired => true
  | _, _ => false
  end.

Record t := mk {
  _id : ObjectId;
  studentId : ObjectId;
  examId : ObjectId;
  startedAt : Date;
  lastAccessedAt : Date;
  timeRemaining : Z;
  status : Status;
  isCompleted : bool
}.

Definition set_lastAccessedAt (d : Date) (a : t) : t :=
  mk (_id a) (studentId a) (examId a) (startedAt a) d (timeRemaining a)
     (status a) (isCompleted a).
Definition set_timeRemaining (n : Z) (a : t) : t :=
  mk (_id a) (studentId a) (examId a) (startedAt a) (lastAccessedAt a) n
     (status a) (isCompleted a).
Definition set_status (s : Status) (a : t) : t :=
  mk (_id a) (studentId a) (examId a) (startedAt a) (lastAccessedAt a)
     (timeRemaining a) s (isCompleted a).
Definition set_isCompleted (b : bool) (a : t) : t :=
  mk (_id a) (studentId a) (examId a) (startedAt a) (lastAccessedAt a)
     (timeRemaining a) (status a) b.
End ExamAttempt.

Module Submission.
Inductive Status := submitted | graded | late.

Record t := mk {
  _id : ObjectId;
  studentId : ObjectId;
  examId : ObjectId;
  answerUrl : string;
  submittedAt : Date;
  status : Status
}.
End Submission.

(** The database: one list per collection in insertion order, and the
    next ObjectId the driver will generate. *)
Record DB := mkDB {
  exams : list Exam.t;
  attempts : list ExamAttempt.t;
  submissions : list Submission.t;
  students : list User.t;
  teachers : list User.t;
  nextId : ObjectId
}.

Definition with_exams (l : list Exam.t) (db : DB) : DB :=
  mkDB l (attempts db) (submissions db) (students db) (teachers db) (nextId db).
Definition with_attempts (l : list ExamAttempt.t) (db : DB) : DB :=
  mkDB (exams db) l (submissions db) (students db) (teachers db) (nextId db).

(** ** Queries and writes (the part of Mongoose the handlers use) *)

(** [Model.findOne(filter)]: the first document that matches. *)
Definition findOne {A} (filter : A -> bool) (coll : list A) : option A :=
  find filter coll.

(** [doc.save()] on a loaded document and [findByIdAndUpdate]: the first
    document with that [_id] is rewritten. *)
Fixpoint updateOne {A} (key : A -> ObjectId) (i : ObjectId) (f : A -> A)
    (coll : list A) : list A :=
  match coll with
  | [] => []
  | x :: rest =>
      if key x =? i then f x :: rest else x :: updateOne key i f rest
  end.

Definition saveAttempt (a : ExamAttempt.t) (db : DB) : DB :=
  with_attempts
    (updateOne ExamAttempt._id (ExamAttempt._id a) (fun _ => a) (attempts db))
    db.

(** [new ExamAttempt({...}).save()]: a new document gets a fresh [_id] and
    the schema defaults ([startedAt], [lastAccessedAt]: [Date.now];
    [isCompleted]: false). *)
Definition insertAttempt (now : Date) (studentId examId : ObjectId)
    (timeRemaining : Z) (status : ExamAttempt.Status) (db : DB)
  : ExamAttempt.t * DB :=
  let a := ExamAttempt.mk (nextId db) studentId examId now now timeRemaining
                          status false in
  (a, mkDB (exams db) (attempts db ++ [a]) (submissions db) (students db)
           (teachers db) (S (nextId db))).

(** The filters the handlers pass to [findOne]. *)
Definition attemptOf (studentId examId : ObjectId) (a : ExamAttempt.t) : bool :=
  (ExamAttempt.studentId a =? studentId) && (ExamAttempt.examId a =? examId).
Definition attemptOwnedBy (attemptId studentId : ObjectId) (a : ExamAttempt.t)
  : bool :=
  (ExamAttempt._id a =? attemptId) && (ExamAttempt.studentId a =? studentId).
Definition submissionOf (studentId examId : ObjectId) (s : Submission.t) : bool :=
  (Submission.studentId s =? studentId) && (Submission.examId s =? examId).
Definition examById (examId : ObjectId) (e : Exam.t) : bool :=
  Exam._id e =? examId.
Definition examOwnedBy (examId teacherId : ObjectId) (e : Exam.t) : bool :=
  (Exam._id e =? examId) && (Exam.createdBy e =? teacherId).

(** ** routes/examAttempts.js *)

Module Json.
(** The [data.attempt] objects of the three attempt responses. *)
Record Started := mkStarted {
  s_id : ObjectId; s_examId : ObjectId; s_timeRemaining : Z;
  s_status : ExamAttempt.Status; s_startedAt : Date; s_lastAccessedAt : Date
}.
Record Current := mkCurrent {
  c_id : ObjectId; c_examId : ObjectId; c_timeRemaining : Z;
  c_status : ExamAttempt.Status; c_startedAt : Date; c_lastAccessedAt : Date;
  c_isCompleted : bool
}.
Record Timed := mkTimed {
  t_id : ObjectId; t_timeRemaining : Z; t_status : ExamAttempt.Status
}.
End Json.

Definition startedJson (a : ExamAttempt.t) : Json.Started :=
  Json.mkStarted (ExamAttempt._id a) (ExamAttempt.examId a)
    (ExamAttempt.timeRemaining a) (ExamAttempt.status a)
    (ExamAttempt.startedAt a) (ExamAttempt.lastAccessedAt a).

(** POST /api/exam-attempts/start.  [examId] is [None] when the body field
    fails [isMongoId]. *)
Definition start (now : Date) (studentId : ObjectId) (examId : option ObjectId)
    (db : DB) : DB * Result Json.Started :=
  match examId with
  | None => (db, Fail 400 "Validation failed")
  | Some examId =>
    match findOne (examById examId) (exams db) with
    | None => (db, Fail 404 "Exam not found")
    | Some exam =>
      match findOne (submissionOf studentId examId) (submissions db) with
      | Some _ =>
          (db, Fail 400 "You have already attempted this exam. You cannot attempt it twice.")
      | None =>
        match findOne (attemptOf studentId examId) (attempts db) with
        | Some attempt =>
            if ExamAttempt.isCompleted attempt
            then (db, Fail 400 "You have already completed this exam.")
            else
              let attempt := ExamAttempt.set_lastAccessedAt now attempt in
              let attempt := ExamAttempt.set_status ExamAttempt.started attempt in
              (saveAttempt attempt db, Ok 200 (startedJson attempt))
        | None =>
            let '(attempt, db') :=
              insertAttempt now studentId examId (Exam.duration exam * 60)%Z
                            ExamAttempt.started db in
            (db', Ok 200 (startedJson attempt))
        end
      end
    end
  end.

(** GET /api/exam-attempts/:examId.  Path parameters are taken as the
    ObjectIds they denote. *)
Definition getStatus (now : Date) (studentId examId : ObjectId) (db : DB)
  : DB * Result (option Json.Current) :=
  match findOne (attemptOf studentId examId) (attempts db) with
  | None => (db, Ok 200 None)
  | Some attempt =>
      let timeElapsed := ((now - ExamAttempt.startedAt attempt) / 1000)%Z in
      let remainingTime :=
        Z.max 0 (ExamAttempt.timeRemaining attempt - timeElapsed) in
      let expire :=
        (remainingTime <=? 0)%Z
        && negb (ExamAttempt.status_eqb (ExamAttempt.status attempt)
                                        ExamAttempt.completed) in
      let attempt' :=
        if expire
        then ExamAttempt.set_timeRemaining 0
               (ExamAttempt.set_status ExamAttempt.expired attempt)
        else attempt in
      let db' := if expire then saveAttempt attempt' db else db in
      (db', Ok 200 (Some (Json.mkCurrent
                        (ExamAttempt._id attempt') (ExamAttempt.examId attempt')
                        remainingTime (ExamAttempt.status attempt')
                        (ExamAttempt.startedAt attempt')
                        (ExamAttempt.lastAccessedAt attempt')
                        (ExamAttempt.isCompleted attempt'))))
  end.

(** PUT /api/exam-attempts/:attemptId/time.  The handler never reads the
    outcome of its [isNumeric] validator; the body field is taken here as
    a whole number of seconds. *)
Definition updateTime (now : Date) (studentId attemptId : ObjectId)
    (timeRemaining : Z) (db : DB) : DB * Result Json.Timed :=
  match findOne (attemptOwnedBy attemptId studentId) (attempts db) with
  | None => (db, Fail 404 "Exam attempt not found")
  | Some attempt =>
      let attempt := ExamAttempt.set_timeRemaining (Z.max 0 timeRemaining) attempt in
      let attempt := ExamAttempt.set_lastAccessedAt now attempt in
      let attempt :=
        if (ExamAttempt.timeRemaining attempt <=? 0)%Z
        then ExamAttempt.set_status ExamAttempt.expired attempt
        else attempt in
      (saveAttempt attempt db,
       Ok 200 (Json.mkTimed (ExamAttempt._id attempt)
                        (ExamAttempt.timeRemaining attempt)
                        (ExamAttempt.status attempt)))
  end.

(** PUT /api/exam-attempts/:attemptId/complete.  The success response
    carries only its message. *)
Definition complete (studentId attemptId : ObjectId) (db : DB)
  : DB * Result string :=
  match findOne (attemptOwnedBy attemptId studentId) (attempts db) with
  | None => (db, Fail 404 "Exam attempt not found")
  | Some attempt =>
      let attempt := ExamAttempt.set_status ExamAttempt.completed attempt in
      let attempt := ExamAttempt.set_isCompleted true attempt in
      (saveAttempt attempt db, Ok 200 "Exam attempt marked as completed")
  end.

(** ** routes/submissions.js *)

(** [String.prototype.trim] on the ASCII white space and line terminators
    (tab, line feed, vertical tab, form feed, carriage return, space);
    the schema applies it to [answerUrl].  Strings are taken to be ASCII
    text: the other characters [trim] strips (U+00A0, U+FEFF and the
    Unicode spaces) are not ASCII and are left out. *)
Definition isWhiteSpace (c : Ascii.ascii) : bool :=
  let n := Ascii.nat_of_ascii c in
  (n =? 32) || ((9 <=? n) && (n <=? 13)).

Fixpoint trimStart (s : string) : string :=
  match s with
  | EmptyString => EmptyString
  | String c rest => if isWhiteSpace c then trimStart rest else s
  end.

Definition reverse (s : string) : string :=
  string_of_list_ascii (rev (list_ascii_of_string s)).

Definition trim (s : string) : string :=
  reverse (trimStart (reverse (trimStart s))).

(** [cloudinary.uploader.upload] for the file at a path: the [secure_url]
    of the upload, or [None] when the upload throws. *)
Definition Cloudinary := string -> option string.

Module SubmissionJson.
Record t := mk {
  id : ObjectId;
  student : User.t;
  exam_id : ObjectId; exam_title : string; exam_duration : Z;
  answerUrl : string;
  submittedAt : Date
}.
End SubmissionJson.

(** [new Submission({...}).save()]. *)
Definition insertSubmission (now : Date) (studentId examId : ObjectId)
    (answerUrl : string) (db : DB) : Submission.t * DB :=
  let s := Submission.mk (nextId db) studentId examId answerUrl now
                         Submission.submitted in
  (s, mkDB (exams db) (attempts db) (submissions db ++ [s]) (students db)
           (teachers db) (S (nextId db))).

Definition userById (i : ObjectId) (u : User.t) : bool := User._id u =? i.

(** POST /api/submissions.  [file] is [req.file], the path multer stored the
    upload at.  A thrown error (a failed upload, a document that fails
    schema validation, a populated reference that is null) reaches the
    [catch] and answers 500. *)
Definition submit (cloud : Cloudinary) (now : Date) (studentId : ObjectId)
    (examId : option ObjectId) (file : option string) (db : DB)
  : DB * Result SubmissionJson.t :=
  let serverError := Fail 500 "Server error during answer submission" in
  match examId with
  | None => (db, Fail 400 "Validation failed")
  | Some examId =>
    match file with
    | None => (db, Fail 400 "Answer file is required")
    | Some path =>
      match findOne (examById examId) (exams db) with
      | None => (db, Fail 404 "Exam not found")
      | Some exam =>
        match findOne (submissionOf studentId examId) (submissions db) with
        | Some _ =>
            (db, Fail 400 "You have already submitted answers for this exam")
        | None =>
          match cloud path with
          | None => (db, serverError)
          | Some answerUrl =>
            match trim answerUrl with
            | EmptyString => (db, serverError)
            | answerUrl =>
              let '(submission, db') :=
                insertSubmission now studentId examId answerUrl db in
              match findOne (userById studentId) (students db') with
              | None => (db', serverError)
              | Some student =>
                  (db', Ok 201 (SubmissionJson.mk
                                  (Submission._id submission) student
                                  (Exam._id exam) (Exam.title exam)
                                  (Exam.duration exam)
                                  (Submission.answerUrl submission)
                                  (Submission.submittedAt submission)))
              end
            end
          end
        end
      end
    end
  end.

(** ** routes/exams.js *)

Module GridFile.
(** A file document of the GridFS bucket (config/gridfs.js): the stored
    [filename] is [exam_<time>_<originalname>], the name the file was
    uploaded under is kept in [metadata.originalName]. *)
Record t := mk {
  _id : ObjectId;
  filename : option string;
  contentType : option string;
  originalName : string
}.
End GridFile.

(** What the file handler answers: [res.redirect(location)]; the headers
    it hands to [res.set] with the file whose download stream it pipes; or
    a status with a JSON message. *)
Inductive FileResponse :=
| Redirect (location : string)
| Piped (contentType contentDisposition cacheControl : string) (file : ObjectId)
| Refused (code : nat) (message : string).

(** The collaborators the file handler calls, in call order. *)
Inductive Event :=
| ExamFindOne
| GetBucket
| BucketFind (file : ObjectId)
| OpenDownloadStream (file : ObjectId).

(** [x || d] on a string that may be undefined. *)
Definition orDefault (x : option string) (d : string) : string :=
  match x with
  | Some (String c rest) => String c rest
  | _ => d
  end.

Definition doubleQuote : string := String (Ascii.ascii_of_nat 34) EmptyString.


(** The filter of [Exam.findOne], matched against the stored documents. *)
Definition examByFile (oid : ObjectId) (fileId : string) (e : Exam.t) : bool :=
  match Exam.examFileId e with Some i => i =? oid | None => false end
  || match Exam.examPdfUrl e with Some u => String.eqb u fileId | None => false end.

(** [exam.examPdfUrl && exam.examPdfUrl.startsWith('http')] on the loaded
    document: the URL the handler would redirect to.  The read is
    undefined, so there never is one. *)
Definition legacyUrl (e : Exam.t) : option string :=
  match Exam.read_examPdfUrl e with
  | Some url => if String.prefix "http" url then Some url else None
  | None => None
  end.

Definition gridFileById (i : ObjectId) (f : GridFile.t) : bool :=
  GridFile._id f =? i.

Section FileEndpoint.

(** [mongoose.Types.ObjectId]: the ObjectId a string denotes, if any.
    [ObjectId.isValid] holds of the strings the constructor accepts. *)
Variable castObjectId : string -> option ObjectId.

(** GET /api/exams/file/:id.  [bucket] is [getBucket()], undefined until
    GridFS is initialised. *)
Definition serveFile (bucket : option (list GridFile.t)) (fileId : string)
    (db : DB) : FileResponse * list Event :=
  if String.prefix "http" fileId then (Redirect fileId, [])
  else
    match castObjectId fileId with
    | None => (Refused 400 "Invalid file ID format", [])
    | Some oid =>
      match findOne (examByFile oid fileId) (exams db) with
      | None => (Refused 404 "Exam file not found", [ExamFindOne])
      | Some exam =>
        match legacyUrl exam with
        | Some url => (Redirect url, [ExamFindOne])
        | None =>
          if negb (Exam.isActive exam)
          then (Refused 403 "Access denied: This exam is not currently active",
                [ExamFindOne])
          else
            match bucket with
            | None => (Refused 500 "GridFS not initialized",
                       [ExamFindOne; GetBucket])
            | Some bucket =>
              match filter (gridFileById oid) bucket with
              | [] => (Refused 404 "File not found in GridFS",
                       [ExamFindOne; GetBucket; BucketFind oid])
              | fileMetadata :: _ =>
                  let contentType :=
                    orDefault (GridFile.contentType fileMetadata)
                              "application/pdf" in
                  let originalFilename :=
                    orDefault (GridFile.filename fileMetadata)
                              (Exam.title exam ++ ".pdf") in
                  (Piped contentType
                         ("inline; filename=" ++ doubleQuote
                            ++ originalFilename ++ doubleQuote)
                         "public, max-age=3600" oid,
                   [ExamFindOne; GetBucket; BucketFind oid;
                    OpenDownloadStream oid])
              end
            end
        end
      end
    end.

End FileEndpoint.

(** [req.user], as the token carries it. *)
Record Principal := mkPrincipal { id : ObjectId; role : string }.

Module ExamJson.
Record t := mk {
  id : ObjectId;
  title : string;
  examFileId : option (ObjectId + string);
  duration : Z;
  createdBy : User.t;
  createdAt : Date;
  isActive : bool
}.
End ExamJson.

(** The filter object of the listing. *)
Record ExamQuery := mkQuery {
  q_isActive : option bool;
  q_createdBy : option ObjectId
}.

Definition matchesQuery (q : ExamQuery) (e : Exam.t) : bool :=
  match q_isActive q with
  | Some b => Bool.eqb (Exam.isActive e) b
  | None => true
  end
  && match q_createdBy q with
     | Some i => Exam.createdBy e =? i
     | None => true
     end.

Definition listQuery (user : Principal) : ExamQuery :=
  if String.eqb (role user) "student" then mkQuery (Some true) None
  else if String.eqb (role user) "teacher"
       then mkQuery (Some true) (Some (id user))
       else mkQuery None None.

(** [.sort({createdAt: -1})]. *)
Fixpoint insertNewestFirst (e : Exam.t) (l : list Exam.t) : list Exam.t :=
  match l with
  | [] => [e]
  | x :: rest =>
      if (Exam.createdAt x <? Exam.createdAt e)%Z then e :: x :: rest
      else x :: insertNewestFirst e rest
  end.

Definition sortNewestFirst (l : list Exam.t) : list Exam.t :=
  fold_right insertNewestFirst [] l.

(** [exam.examFileId || exam.examPdfUrl] on the loaded document: a
    document without [examFileId] gives undefined, and the JSON carries no
    [examFileId]. *)
Definition fileIdOrUrl (e : Exam.t) : option (ObjectId + string) :=
  match Exam.examFileId e with
  | Some i => Some (inl i)
  | None => option_map inr (Exam.read_examPdfUrl e)
  end.

(** One element of [exams.map(...)] after [populate('createdBy')]; [None]
    when the populated creator is null and reading its [_id] throws. *)
Definition examJson (db : DB) (e : Exam.t) : option ExamJson.t :=
  match findOne (userById (Exam.createdBy e)) (teachers db) with
  | None => None
  | Some creator =>
      Some (ExamJson.mk (Exam._id e) (Exam.title e) (fileIdOrUrl e)
                        (Exam.duration e) creator (Exam.createdAt e)
                        (Exam.isActive e))
  end.

Fixpoint mapThrowing {A B} (f : A -> option B) (l : list A) : option (list B) :=
  match l with
  | [] => Some []
  | x :: rest =>
      match f x with
      | None => None
      | Some y =>
          match mapThrowing f rest with
          | None => None
          | Some ys => Some (y :: ys)
          end
      end
  end.

(** GET /api/exams. *)
Definition listExams (user : Principal) (db : DB) : Result (list ExamJson.t) :=
  let query := listQuery user in
  let found := sortNewestFirst (filter (matchesQuery query) (exams db)) in
  match mapThrowing (examJson db) found with
  | None => Fail 500 "Server error while fetching exams"
  | Some json => Ok 200 json
  end.

Module ToggleJson.
Record t := mk { id : ObjectId; title : string; status : string }.
End ToggleJson.

(** PUT /api/exams/:id/cancel. *)
Definition cancel (teacherId examId : ObjectId) (db : DB)
  : DB * Result ToggleJson.t :=
  match findOne (examOwnedBy examId teacherId) (exams db) with
  | None =>
      (db, Fail 404 "Exam not found or you do not have permission to cancel it")
  | Some exam =>
      if negb (Exam.isActive exam)
      then (db, Fail 400 "Exam is already cancelled")
      else
        (with_exams (updateOne Exam._id examId (Exam.set_isActive false)
                               (exams db)) db,
         Ok 200 (ToggleJson.mk (Exam._id exam) (Exam.title exam) "inactive"))
  end.

(** PUT /api/exams/:id/activate. *)
Definition activate (teacherId examId : ObjectId) (db : DB)
  : DB * Result ToggleJson.t :=
  match findOne (examOwnedBy examId teacherId) (exams db) with
  | None =>
      (db, Fail 404 "Exam not found or you do not have permission to activate it")
  | Some exam =>
      if Exam.isActive exam
      then (db, Fail 400 "Exam is already active")
      else
        (with_exams (updateOne Exam._id examId (Exam.set_isActive true)
                               (exams db)) db,
         Ok 200 (ToggleJson.mk (Exam._id exam) (Exam.title exam) "active"))
  end.

(** ** middleware/auth.js

    [Ok] stands for the call of [next()], with the user document the
    middleware attaches to the request. *)

Definition isTeacher (user : Principal) (db : DB) : Result User.t :=
  if negb (String.eqb (role user) "teacher")
  then Fail 403 "Access denied. Teacher role required."
  else match findOne (userById (id user)) (teachers db) with
       | None => Fail 404 "Teacher not found."
       | Some teacher => Ok 200 teacher
       end.

Definition isStudent (user : Principal) (db : DB) : Result User.t :=
  if negb (String.eqb (role user) "student")
  then Fail 403 "Access denied. Student role required."
  else match findOne (userById (id user)) (students db) with
       | None => Fail 404 "Student not found."
       | Some student => Ok 200 student
       end.

(** A route: the handler runs when the middleware calls [next()]. *)
Definition guarded {A B} (check : Result A) (handler : DB -> DB * Result B)
    (db : DB) : DB * Result B :=
  match check with
  | Ok _ _ => handler db
  | Fail code message => (db, Fail code message)
  end.

Definition cancelRoute (user : Principal) (examId : ObjectId) (db : DB) :=
  guarded (isTeacher user db) (cancel (id user) examId) db.
Definition activateRoute (user : Principal) (examId : ObjectId) (db : DB) :=
  guarded (isTeacher user db) (activate (id user) examId) db.
Definition startRoute (user : Principal) now examId (db : DB) :=
  guarded (isStudent user db) (start now (id user) examId) db.
Definition getStatusRoute (user : Principal) now examId (db : DB) :=
  guarded (isStudent user db) (getStatus now (id user) examId) db.
Definition updateTimeRoute (user : Principal) now attemptId t (db : DB) :=
  guarded (isStudent user db) (updateTime now (id user) attemptId t) db.
Definition completeRoute (user : Principal) attemptId (db : DB) :=
  guarded (isStudent user db) (complete (id user) attemptId) db.
(** The submission route from the role check on, with [file] the path
    multer left in [req.file]; [postSubmission] below puts the upload in
    front. *)
Definition submitRoute cloud (user : Principal) now examId file (db : DB) :=
  guarded (isStudent user db) (submit cloud now (id user) examId file) db.

(** ** Runs of the server

    The requests that write to the store, and the store after a sequence
    of them. *)
Inductive Request :=
| PostStart (user : Principal) (now : Date) (examId : option ObjectId)
| GetAttempt (user : Principal) (now : Date) (examId : ObjectId)
| PutTime (user : Principal) (now : Date) (attemptId : ObjectId)
          (timeRemaining : Z)
| PutComplete (user : Principal) (attemptId : ObjectId)
| PostSubmission (cloud : Cloudinary) (user : Principal) (now : Date)
                 (examId : option ObjectId) (file : option string)
| PutCancel (user : Principal) (examId : ObjectId)
| PutActivate (user : Principal) (examId : ObjectId).

Definition serve (r : Request) (db : DB) : DB :=
  match r with
  | PostStart user now examId => fst (startRoute user now examId db)
  | GetAttempt user now examId => fst (getStatusRoute user now examId db)
  | PutTime user now attemptId t => fst (updateTimeRoute user now attemptId t db)
  | PutComplete user attemptId => fst (completeRoute user attemptId db)
  | PostSubmission cloud user now examId file =>
      fst (submitRoute cloud user now examId file db)
  | PutCancel user examId => fst (cancelRoute user examId db)
  | PutActivate user examId => fst (activateRoute user examId db)
  end.

Definition serveAll (rs : list Request) (db : DB) : DB :=
  fold_left (fun db r => serve r db) rs db.

(** ** Well-formed stores *)

Definition attemptPair (a : ExamAttempt.t) : ObjectId * ObjectId :=
  (ExamAttempt.studentId a, ExamAttempt.examId a).

Definition submissionPair (s : Submission.t) : ObjectId * ObjectId :=
  (Submission.studentId s, Submission.examId s).

Definition examExists (examId : ObjectId) (db : DB) : Prop :=
  findOne (examById examId) (exams db) <> None.

(** What the store and the schemas guarantee: [_id] is unique in a
    collection, the ids in use are below the next one to be generated, the
    attempt collection and the submission collection have at most one
    document per (studentId, examId),
    an exam lasts 1 to 300 minutes and its creator is a stored teacher, no
    attempt has negative time left, and the exam of every attempt and of
    every submission exists (exams and teachers are never deleted). *)
Record wellFormed (db : DB) : Prop := {
  wf_attempt_ids : NoDup (map ExamAttempt._id (attempts db));
  wf_attempt_fresh :
    forall a, In a (attempts db) -> ExamAttempt._id a < nextId db;
  wf_attempt_pairs : NoDup (map attemptPair (attempts db));
  wf_exam_ids : NoDup (map Exam._id (exams db));
  wf_durations :
    forall e, In e (exams db) -> (1 <= Exam.duration e <= 300)%Z;
  wf_creators :
    forall e, In e (exams db) ->
      findOne (userById (Exam.createdBy e)) (teachers db) <> None;
  wf_time_left :
    forall a, In a (attempts db) -> (0 <= ExamAttempt.timeRemaining a)%Z;
  wf_attempt_exam :
    forall a, In a (attempts db) -> examExists (ExamAttempt.examId a) db;
  wf_submission_exam :
    forall s, In s (submissions db) -> examExists (Submission.examId s) db;
  wf_submission_pairs : NoDup (map submissionPair (submissions db))
}.

Definition attemptsOf (studentId examId : ObjectId) (db : DB) :=
  filter (attemptOf studentId examId) (attempts db).
Definition submissionsOf (studentId examId : ObjectId) (db : DB) :=
  filter (submissionOf studentId examId) (submissions db).


(** An attempt document keeps its identity, owner and exam, stays completed
    once it is, and does not get negative time left. *)
Definition persists (a a' : ExamAttempt.t) : Prop :=
  ExamAttempt._id a' = ExamAttempt._id a
  /\ ExamAttempt.studentId a' = ExamAttempt.studentId a
  /\ ExamAttempt.examId a' = ExamAttempt.examId a
  /\ (ExamAttempt.isCompleted a = true -> ExamAttempt.isCompleted a' = true)
  /\ ((0 <= ExamAttempt.timeRemaining a)%Z ->
      (0 <= ExamAttempt.timeRemaining a')%Z).

(** What one request may do to the store: it stays well formed, every
    attempt persists, and a pair that has submissions keeps exactly
    those. *)
Definition evolves (db db' : DB) : Prop :=
  wellFormed db ->
  wellFormed db'
  /\ (forall a, In a (attempts db) ->
        exists a', In a' (attempts db') /\ persists a a')
  /\ (forall studentId examId,
        submissionsOf studentId examId db <> [] ->
        submissionsOf studentId examId db' = submissionsOf studentId examId db).

(** The [isActive] flag of the exam with a given id. *)
Definition activeFlag (examId : ObjectId) (db : DB) : option bool :=
  option_map Exam.isActive (findOne (examById examId) (exams db)).

(** ** Sample data *)

Module Sample.
Definition teacherA := User.mk 1 "Asha" "asha@school.test".
Definition teacherB := User.mk 2 "Bram" "bram@school.test".
Definition studentS := User.mk 3 "Sam" "sam@school.test".

Definition asTeacherA := mkPrincipal 1 "teacher".
Definition asTeacherB := mkPrincipal 2 "teacher".
Definition asStudentS := mkPrincipal 3 "student".

(** Exam E of teacher A: 60 minutes, file 20 in the bucket. *)
Definition examE := Exam.mk 10 "Algebra" (Some 20) None 60 1 true 1000%Z.
Definition fileKey := "507f1f77bcf86cd799439011".
Definition cast (s : string) : option ObjectId :=
  if String.eqb s fileKey then Some 20 else None.
Definition bucket :=
  [GridFile.mk 20 (Some "exam_1000_algebra.pdf") (Some "application/pdf")
               "algebra.pdf"].

Definition db0 : DB :=
  mkDB [examE] [] [] [studentS] [teacherA; teacherB] 100.

(** The same exam after its creator cancelled it. *)
Definition cancelled : DB := fst (cancelRoute asTeacherA 10 db0).


(** Student S started exam E at time 0 and completed it. *)
Definition started : DB := fst (startRoute asStudentS 0%Z (Some 10) db0).
Definition finished : DB := fst (completeRoute asStudentS 100 started).

(** Student S started exam E at time 0 and reported 500 seconds left at
    time 30000. *)
Definition ticking : DB :=
  fst (updateTimeRoute asStudentS 30000%Z 100 500%Z started).

Definition cloud : Cloudinary :=
  fun path => Some ("https://res.cloudinary.com/demo/" ++ path).
Definition handedIn : DB :=
  fst (submitRoute cloud asStudentS 5000%Z (Some 10) (Some "answer_1.pdf") db0).

End Sample.

(** ** The other routes and the upload plumbing *)

(** The principal a request comes from. *)
Definition requester (r : Request) : Principal :=
  match r with
  | PostStart user _ _ | GetAttempt user _ _ | PutTime user _ _ _
  | PutComplete user _ | PostSubmission _ user _ _ _
  | PutCancel user _ | PutActivate user _ => user
  end.

Module ExamDetailJson.
Record t := mk {
  id : ObjectId;
  title : string;
  examFileId : option (ObjectId + string);
  duration : Z;
  createdBy : User.t;
  createdAt : Date
}.
End ExamDetailJson.

(** GET /api/exams/:id.  A populated creator that is null makes the read
    of its [_id] throw, which the [catch] answers with 500. *)
Definition getExam (examId : ObjectId) (db : DB) : Result ExamDetailJson.t :=
  match findOne (examById examId) (exams db) with
  | None => Fail 404 "Exam not found"
  | Some exam =>
      match findOne (userById (Exam.createdBy exam)) (teachers db) with
      | None => Fail 500 "Server error while fetching exam"
      | Some creator =>
          Ok 200 (ExamDetailJson.mk (Exam._id exam) (Exam.title exam)
                    (fileIdOrUrl exam) (Exam.duration exam) creator
                    (Exam.createdAt exam))
      end
  end.

Module ExamCreatedJson.
Record t := mk {
  id : ObjectId;
  title : string;
  examFileId : option ObjectId;
  duration : Z;
  createdBy : ObjectId;
  createdAt : Date
}.
End ExamCreatedJson.

(** [new Exam({...}).save()]: a fresh [_id], [isActive] true by default,
    [createdAt] from the time stamps. *)
Definition insertExam (now : Date) (title : string) (examFileId : ObjectId)
    (duration : Z) (createdBy : ObjectId) (db : DB) : Exam.t * DB :=
  let e := Exam.mk (nextId db) title (Some examFileId) None duration createdBy
                   true now in
  (e, mkDB (exams db ++ [e]) (attempts db) (submissions db) (students db)
           (teachers db) (S (nextId db))).

(** POST /api/exams.  [title] is the body field as sent, which the
    validator chain trims and measures (1 to 100 characters); [duration]
    is the integer the body field spells, [None] when it spells none, and
    must be within 1 to 300; [file] is [req.file.id], the id GridFS gave
    the upload. *)
Definition createExam (now : Date) (teacherId : ObjectId) (title : string)
    (duration : option Z) (file : option ObjectId) (db : DB)
  : DB * Result ExamCreatedJson.t :=
  let title := trim title in
  let titleOk := (1 <=? String.length title) && (String.length title <=? 100) in
  match duration with
  | None => (db, Fail 400 "Validation failed")
  | Some duration =>
    if negb (titleOk && (1 <=? duration)%Z && (duration <=? 300)%Z)
    then (db, Fail 400 "Validation failed")
    else
      match file with
      | None => (db, Fail 400 "Exam file is required (PDF, JPG, or PNG)")
      | Some examFileId =>
          let '(exam, db') :=
            insertExam now title examFileId duration teacherId db in
          (db', Ok 201 (ExamCreatedJson.mk (Exam._id exam) (Exam.title exam)
                          (Exam.examFileId exam) (Exam.duration exam)
                          (Exam.createdBy exam) (Exam.createdAt exam)))
      end
  end.

(** The route from the role check on, with [file] as multer left it in
    [req.file]; [postExam] below puts the upload in front. *)
Definition createExamRoute (user : Principal) now title duration file
    (db : DB) :=
  guarded (isTeacher user db) (createExam now (id user) title duration file) db.

Module SubmissionRowJson.
Record t := mk {
  id : ObjectId;
  student : User.t;
  answerUrl : string;
  submittedAt : Date;
  status : Submission.Status
}.
End SubmissionRowJson.

Module SubmissionListJson.
Record t := mk {
  exam_id : ObjectId; exam_title : string; exam_duration : Z;
  exam_createdAt : Date;
  submissions : list SubmissionRowJson.t
}.
End SubmissionListJson.

(** [.sort({submittedAt: -1})]. *)
Fixpoint insertLatestFirst (s : Submission.t) (l : list Submission.t)
  : list Submission.t :=
  match l with
  | [] => [s]
  | x :: rest =>
      if (Submission.submittedAt x <? Submission.submittedAt s)%Z
      then s :: x :: rest
      else x :: insertLatestFirst s rest
  end.

Definition sortLatestFirst (l : list Submission.t) : list Submission.t :=
  fold_right insertLatestFirst [] l.

Definition submissionForExam (examId : ObjectId) (s : Submission.t) : bool :=
  Submission.examId s =? examId.

(** One element of [submissions.map(...)] after [populate('studentId')]. *)
Definition submissionRowJson (db : DB) (s : Submission.t)
  : option SubmissionRowJson.t :=
  match findOne (userById (Submission.studentId s)) (students db) with
  | None => None
  | Some student =>
      Some (SubmissionRowJson.mk (Submission._id s) student
              (Submission.answerUrl s) (Submission.submittedAt s)
              (Submission.status s))
  end.

(** GET /api/submissions/:examId. *)
Definition listSubmissionsForExam (teacherId examId : ObjectId) (db : DB)
  : Result SubmissionListJson.t :=
  match findOne (examOwnedBy examId teacherId) (exams db) with
  | None =>
      Fail 404 "Exam not found or you do not have permission to view its submissions"
  | Some exam =>
      let found :=
        sortLatestFirst (filter (submissionForExam examId) (submissions db)) in
      match mapThrowing (submissionRowJson db) found with
      | None => Fail 500 "Server error while fetching submissions"
      | Some rows =>
          Ok 200 (SubmissionListJson.mk (Exam._id exam) (Exam.title exam)
                    (Exam.duration exam) (Exam.createdAt exam) rows)
      end
  end.

Definition listSubmissionsRoute (user : Principal) (examId : ObjectId)
    (db : DB) : Result SubmissionListJson.t :=
  match isTeacher user db with
  | Ok _ _ => listSubmissionsForExam (id user) examId db
  | Fail code message => Fail code message
  end.

(** The [fileFilter] of both multer uploads (routes/submissions.js,
    config/gridfs.js): [None] accepts the file, [Some] is the error handed
    to the callback. *)
Record JsError := mkError { code : option string; message : string }.

Definition allowedTypes : list string :=
  ["application/pdf"; "image/jpeg"; "image/jpg"; "image/png"].

Definition answerFileFilter (mimetype : string) : option JsError :=
  if existsb (String.eqb mimetype) allowedTypes then None
  else Some (mkError None
               "Only PDF, JPG, and PNG files are allowed for answers").

Definition examFileFilter (mimetype : string) : option JsError :=
  if existsb (String.eqb mimetype) allowedTypes then None
  else Some (mkError None
               "Only PDF, JPG, and PNG files are allowed for exam uploads").

(** [String.prototype.includes]. *)
Fixpoint includes (needle hay : string) : bool :=
  String.prefix needle hay
  || match hay with
     | EmptyString => false
     | String _ rest => includes needle rest
     end.

(** The error-handling middleware of server.js: status and message. *)
Definition errorHandler (err : JsError) : nat * string :=
  if match code err with
     | Some c => String.eqb c "LIMIT_FILE_SIZE"
     | None => false
     end
  then (400, "File too large. Maximum size is 10MB.")
  else if includes "Only PDF files are allowed" (message err)
  then (400, "Only PDF files are allowed for exam uploads.")
  else if includes "Only PDF, JPG, and PNG files are allowed" (message err)
  then (400, "Only PDF, JPG, and PNG files are allowed for answer uploads.")
  else (500, "Internal server error").

(** ** The uploads in front of the two POST routes

    POST /api/exams runs [uploadExamFile.single('examPdf')] and POST
    /api/submissions runs [upload.single('answerFile')] between the role
    check and the validators: by the time the handler validates, multer
    has stored the file. *)

(** The file a multipart request sends under the field the route names:
    its declared type, and whether it is larger than the 10MB the uploads
    allow. *)
Record FilePart := mkPart { part_mimetype : string; part_tooLarge : bool }.

(** What is written outside the collections: the ids of the files the
    GridFS storage holds, and the paths of the files under uploads/. *)
Record Files := mkFiles { gridFiles : list ObjectId; uploads : list string }.

(** What multer leaves: nothing of a request without the file, [req.file]
    of a file it stored, or the error it passes to the error handler. *)
Inductive Upload (A : Type) : Type :=
| NoPart
| Stored (file : A)
| Failed (err : JsError).
Arguments NoPart {A}.
Arguments Stored {A} file.
Arguments Failed {A} err.

(** [multer({storage, fileFilter, limits}).single(field)].  The filter
    decides first and its error is passed on before anything is written;
    a file over the size limit is removed again and LIMIT_FILE_SIZE passed
    on; any other file is in the storage, at [place], when the next
    middleware runs. *)
Definition single {A} (fileFilter : string -> option JsError) (place : A)
    (part : option FilePart) : Upload A :=
  match part with
  | None => NoPart
  | Some file =>
      match fileFilter (part_mimetype file) with
      | Some err => Failed err
      | None =>
          if part_tooLarge file
          then Failed (mkError (Some "LIMIT_FILE_SIZE") "File too large")
          else Stored place
      end
  end.

(** A middleware error, as the error handler of server.js answers it. *)
Definition answered {A} (err : JsError) : Result A :=
  Fail (fst (errorHandler err)) (snd (errorHandler err)).

(** POST /api/exams with its upload: [isTeacher], then multer with the
    GridFS storage, which gives the file the id [fileId], then the
    validators and the handler. *)
Definition postExam (user : Principal) (now : Date) (part : option FilePart)
    (fileId : ObjectId) (title : string) (duration : option Z)
    (db : DB) (files : Files) : DB * Files * Result ExamCreatedJson.t :=
  match isTeacher user db with
  | Fail code message => (db, files, Fail code message)
  | Ok _ _ =>
      match single examFileFilter fileId part with
      | Failed err => (db, files, answered err)
      | NoPart =>
          let '(db', r) := createExam now (id user) title duration None db in
          (db', files, r)
      | Stored file =>
          let '(db', r) :=
            createExam now (id user) title duration (Some file) db in
          (db', mkFiles (gridFiles files ++ [file]) (uploads files), r)
      end
  end.

(** POST /api/submissions with its upload: [isStudent], then multer with
    the disk storage, which writes the file at [path] under uploads/, then
    the validator and the handler.  Nothing removes the file afterwards. *)
Definition postSubmission (cloud : Cloudinary) (user : Principal) (now : Date)
    (part : option FilePart) (path : string) (examId : option ObjectId)
    (db : DB) (files : Files) : DB * Files * Result SubmissionJson.t :=
  match isStudent user db with
  | Fail code message => (db, files, Fail code message)
  | Ok _ _ =>
      match single answerFileFilter path part with
      | Failed err => (db, files, answered err)
      | NoPart =>
          let '(db', r) := submit cloud now (id user) examId None db in
          (db', files, r)
      | Stored file =>
          let '(db', r) := submit cloud now (id user) examId (Some file) db in
          (db', mkFiles (gridFiles files) (uploads files ++ [file]), r)
      end
  end.

(** ** Stores built through the API *)

(** Any request that writes, exam creation included. *)
Inductive Action :=
| Write (r : Request)
| PostExam (user : Principal) (now : Date) (title : string)
           (duration : option Z) (file : option ObjectId).

Definition perform (a : Action) (db : DB) : DB :=
  match a with
  | Write r => serve r db
  | PostExam user now title duration file =>
      fst (createExamRoute user now title duration file db)
  end.

(** The principal an action comes from. *)
Definition actor (a : Action) : Principal :=
  match a with
  | Write r => requester r
  | PostExam user _ _ _ _ => user
  end.

Definition performAll (acts : list Action) (db : DB) : DB :=
  fold_left (fun db a => perform a db) acts db.

(** Whether the route answers an action with [success: true]. *)
Definition accepted (a : Action) (db : DB) : bool :=
  match a with
  | Write (PostStart user now examId) =>
      succeeded (snd (startRoute user now examId db))
  | Write (GetAttempt user now examId) =>
      succeeded (snd (getStatusRoute user now examId db))
  | Write (PutTime user now attemptId t) =>
      succeeded (snd (updateTimeRoute user now attemptId t db))
  | Write (PutComplete user attemptId) =>
      succeeded (snd (completeRoute user attemptId db))
  | Write (PostSubmission cloud user now examId file) =>
      succeeded (snd (submitRoute cloud user now examId file db))
  | Write (PutCancel user examId) =>
      succeeded (snd (cancelRoute user examId db))
  | Write (PutActivate user examId) =>
      succeeded (snd (activateRoute user examId db))
  | PostExam user now title duration file =>
      succeeded (snd (createExamRoute user now title duration file db))
  end.

(** The store before any exam, attempt or submission exists. *)
Definition emptyStore (ss ts : list User.t) (n : ObjectId) : DB :=
  mkDB [] [] [] ss ts n.

(** A store whose exams all came through [createExam]: their ids are below
    the next one, and none carries a legacy URL. *)
Record apiBuilt (db : DB) : Prop := {
  built_wellFormed : wellFormed db;
  built_exam_fresh : forall e, In e (exams db) -> Exam._id e < nextId db;
  built_no_legacy : forall e, In e (exams db) -> Exam.examPdfUrl e = None;
  built_students :
    forall s, In s (submissions db) ->
      findOne (userById (Submission.studentId s)) (students db) <> None
}.

Module Scenario.
(** Teacher A creates an exam, student S starts it, hands in an answer
    and completes the attempt. *)
Definition users : DB :=
  emptyStore [Sample.studentS] [Sample.teacherA; Sample.teacherB] 1000.
Definition created : DB :=
  performAll [PostExam Sample.asTeacherA 0 "  Geometry " (Some 45%Z) (Some 7)]
             users.
Definition sat : DB :=
  performAll
    [Write (PostStart Sample.asStudentS 1000 (Some 1000));
     Write (PostSubmission Sample.cloud Sample.asStudentS 2000 (Some 1000)
                           (Some "geo.pdf"));
     Write (PutComplete Sample.asStudentS 1001)]
    created.

(** Three exams created at times 0, 50 and 20, in that order. *)
Definition library : DB :=
  performAll
    [PostExam Sample.asTeacherA 0 "Geometry" (Some 45%Z) (Some 7);
     PostExam Sample.asTeacherB 50 "Sets" (Some 30%Z) (Some 8);
     PostExam Sample.asTeacherA 20 "Logic" (Some 60%Z) (Some 9)]
    users.
End Scenario.

(** * Properties *)

Local Open Scope list_scope.

(** Case analysis on the next [match] or [if] a handler goes through. *)
Ltac branch :=
  match goal with
  | |- context [match ?x with _ => _ end] =>
      lazymatch x with
      | context [match _ with _ => _ end] => fail
      | _ => destruct x eqn:?
      end
  end.

(** A handler that only reads the exams, or inserts elsewhere. *)
Ltac keeps_exams :=
  repeat branch; simpl; try reflexivity;
  match goal with
  | H : insertAttempt _ _ _ _ _ _ = _ |- _ => inversion H; reflexivity
  | H : insertSubmission _ _ _ _ _ = _ |- _ => inversion H; reflexivity
  end.

(** Unfolding a route down to its handler. *)
Ltac through_routes :=
  unfold startRoute, getStatusRoute, updateTimeRoute, completeRoute,
    submitRoute, cancelRoute, activateRoute, guarded;
  unfold start, getStatus, updateTime, complete, submit, cancel, activate.

Ltac keeps_field :=
  repeat branch; simpl; try reflexivity; try lia;
  match goal with
  | H : insertAttempt _ _ _ _ _ _ = _ |- _ => inversion H; simpl; auto; lia
  | H : insertSubmission _ _ _ _ _ = _ |- _ => inversion H; simpl; auto; lia
  end.

(** ** Finding and rewriting documents *)

Section Collections.
Context {A : Type} (key : A -> ObjectId).

Lemma updateOne_length i f (l : list A) :
  length (updateOne key i f l) = length l.
Proof.
  induction l as [|x l IH]; simpl; [reflexivity|].
  destruct (key x =? i); simpl; congruence.
Qed.

Lemma updateOne_keys i f (l : list A) :
  (forall x, key (f x) = key x) ->
  map key (updateOne key i f l) = map key l.
Proof.
  intros Hf. induction l as [|x l IH]; simpl; [reflexivity|].
  destruct (key x =? i); simpl; [rewrite Hf|rewrite IH]; reflexivity.
Qed.

Lemma updateOne_In i f (l : list A) x :
  In x (updateOne key i f l) -> In x l \/ exists y, In y l /\ x = f y.
Proof.
  induction l as [|z l IH]; simpl; [tauto|].
  destruct (key z =? i); simpl.
  - intros [<-|Hx]; [right; exists z|]; auto.
  - intros [<-|Hx]; auto.
    destruct (IH Hx) as [H|(y & Hy & ->)]; auto.
    right. exists y. auto.
Qed.

Lemma updateOne_at i f (l1 l2 : list A) a :
  key a = i ->
  NoDup (map key (l1 ++ a :: l2)) ->
  updateOne key i f (l1 ++ a :: l2) = l1 ++ f a :: l2.
Proof.
  intros Ha. induction l1 as [|x l1 IH]; simpl; intros ND.
  - rewrite Ha, Nat.eqb_refl. reflexivity.
  - inversion ND as [|? ? Hx ND']; subst.
    destruct (Nat.eqb_spec (key x) (key a)) as [E|_].
    + exfalso. apply Hx. rewrite E, map_app. simpl.
      apply in_or_app. right. left. reflexivity.
    + rewrite IH; auto.
Qed.

Lemma find_decompose (p : A -> bool) (l : list A) a :
  find p l = Some a ->
  exists l1 l2, l = l1 ++ a :: l2 /\ p a = true
                /\ forall x, In x l1 -> p x = false.
Proof.
  induction l as [|x l IH]; simpl; [discriminate|].
  destruct (p x) eqn:Px; intros H.
  - inversion H; subst. exists [], l. repeat split; auto.
    intros y [].
  - destruct (IH H) as (l1 & l2 & -> & Pa & Hl1).
    exists (x :: l1), l2. repeat split; auto.
    intros y [<-|Hy]; auto.
Qed.

Lemma find_compose (p : A -> bool) (l1 l2 : list A) a :
  p a = true -> (forall x, In x l1 -> p x = false) ->
  find p (l1 ++ a :: l2) = Some a.
Proof.
  intros Pa. induction l1 as [|x l1 IH]; simpl; intros H.
  - rewrite Pa. reflexivity.
  - rewrite (H x) by auto. apply IH. auto.
Qed.

Lemma find_absent (p : A -> bool) (l : list A) :
  find p l = None <-> forall x, In x l -> p x = false.
Proof.
  split.
  - intros H x Hx. exact (find_none p l H x Hx).
  - induction l as [|x l IH]; simpl; intros H; [reflexivity|].
    rewrite (H x) by auto. apply IH. auto.
Qed.
End Collections.

(** ** Saving and inserting keep the store well formed *)

Lemma saveAttempt_at p db a a' :
  NoDup (map ExamAttempt._id (attempts db)) ->
  findOne p (attempts db) = Some a ->
  ExamAttempt._id a' = ExamAttempt._id a ->
  exists l1 l2,
    attempts db = l1 ++ a :: l2
    /\ attempts (saveAttempt a' db) = l1 ++ a' :: l2
    /\ p a = true
    /\ forall x, In x l1 -> p x = false.
Proof.
  intros ND Hfind Hid.
  destruct (find_decompose p _ _ Hfind) as (l1 & l2 & Hl & Pa & Hl1).
  exists l1, l2. repeat split; auto.
  unfold saveAttempt. simpl. rewrite Hl in *.
  apply (updateOne_at ExamAttempt._id); auto.
Qed.

Lemma persists_refl a : persists a a.
Proof. repeat split; auto. Qed.

Lemma persists_trans a b c : persists a b -> persists b c -> persists a c.
Proof.
  intros (H1 & H2 & H3 & H4 & H5) (K1 & K2 & K3 & K4 & K5).
  repeat split; try congruence; auto.
Qed.

Lemma persists_pair a a' : persists a a' -> attemptPair a' = attemptPair a.
Proof. intros (_ & H2 & H3 & _ & _). unfold attemptPair. congruence. Qed.

Lemma evolves_refl db : evolves db db.
Proof.
  intros WF. split; [exact WF|]. split; [|reflexivity].
  intros a Ha. exists a. split; [assumption | apply persists_refl].
Qed.

Lemma evolves_trans db1 db2 db3 :
  evolves db1 db2 -> evolves db2 db3 -> evolves db1 db3.
Proof.
  intros H12 H23 WF1.
  destruct (H12 WF1) as (WF2 & A12 & S12).
  destruct (H23 WF2) as (WF3 & A23 & S23).
  split; [exact WF3|]. split.
  - intros a Ha. destruct (A12 a Ha) as (b & Hb & Pab).
    destruct (A23 b Hb) as (c & Hc & Pbc).
    exists c. split; [assumption | eapply persists_trans; eauto].
  - intros s e Hne. rewrite S23; rewrite S12; auto.
Qed.

Lemma saveAttempt_evolves p db a a' :
  findOne p (attempts db) = Some a -> persists a a' ->
  evolves db (saveAttempt a' db).
Proof.
  intros Hfind Hp WF.
  destruct (saveAttempt_at p db a a' (wf_attempt_ids _ WF) Hfind)
    as (l1 & l2 & Hl & Hl' & _ & _); [apply Hp|].
  pose proof (persists_pair _ _ Hp) as Hpair.
  destruct Hp as (Hid & Hp').
  assert (Hina : In a (attempts db))
    by (rewrite Hl; apply in_or_app; right; left; reflexivity).
  assert (Hin : forall x, In x (attempts (saveAttempt a' db)) ->
                          x = a' \/ In x (attempts db)).
  { intros x. rewrite Hl', Hl, !in_app_iff. simpl. intuition. }
  split; [constructor|split; [|reflexivity]].
  - rewrite Hl', map_app. simpl. rewrite Hid.
    pose proof (wf_attempt_ids _ WF) as ND.
    rewrite Hl, map_app in ND. exact ND.
  - intros x Hx. simpl. destruct (Hin x Hx) as [->|Hx'].
    + rewrite Hid. apply (wf_attempt_fresh _ WF). rewrite Hl.
      apply in_or_app. right. left. reflexivity.
    + apply (wf_attempt_fresh _ WF). assumption.
  - rewrite Hl', map_app. simpl. rewrite Hpair.
    pose proof (wf_attempt_pairs _ WF) as ND.
    rewrite Hl, map_app in ND. exact ND.
  - exact (wf_exam_ids _ WF).
  - exact (wf_durations _ WF).
  - exact (wf_creators _ WF).
  - intros x Hx. destruct (Hin x Hx) as [->|Hx'].
    + apply Hp'. apply (wf_time_left _ WF). exact Hina.
    + apply (wf_time_left _ WF). assumption.
  - intros x Hx. destruct (Hin x Hx) as [->|Hx'].
    + destruct Hp' as (_ & -> & _). apply (wf_attempt_exam _ WF a Hina).
    + apply (wf_attempt_exam _ WF x Hx').
  - exact (wf_submission_exam _ WF).
  - exact (wf_submission_pairs _ WF).
  - intros x Hx. rewrite Hl, in_app_iff in Hx. simpl in Hx.
    destruct Hx as [Hx|[<-|Hx]].
    + exists x. split; [|apply persists_refl].
      rewrite Hl'. apply in_or_app. left. assumption.
    + exists a'. split; [|repeat split; tauto].
      rewrite Hl'. apply in_or_app. right. left. reflexivity.
    + exists x. split; [|apply persists_refl].
      rewrite Hl'. apply in_or_app. right. right. assumption.
Qed.

Lemma NoDup_snoc {A} (l : list A) x :
  NoDup l -> ~ In x l -> NoDup (l ++ [x]).
Proof.
  intros ND Hx. apply NoDup_app; auto.
  - constructor; [intros [] | constructor].
  - intros y Hy [<-|[]]. contradiction.
Qed.

Lemma submissionOf_pair s e x :
  submissionOf s e x = true <-> submissionPair x = (s, e).
Proof.
  unfold submissionOf, submissionPair. rewrite andb_true_iff, !Nat.eqb_eq.
  split; [intros [-> ->]; reflexivity | intros H; inversion H; auto].
Qed.

Lemma attemptOf_pair s e a :
  attemptOf s e a = true <-> attemptPair a = (s, e).
Proof.
  unfold attemptOf, attemptPair. rewrite andb_true_iff, !Nat.eqb_eq.
  split; [intros [-> ->]; reflexivity | intros H; inversion H; auto].
Qed.

Lemma insertAttempt_evolves now s e t st db :
  findOne (attemptOf s e) (attempts db) = None ->
  examExists e db ->
  (wellFormed db -> (0 <= t)%Z) ->
  evolves db (snd (insertAttempt now s e t st db)).
Proof.
  intros Hnone Hexam Ht WF. specialize (Ht WF). simpl.
  pose proof (proj1 (find_absent _ _) Hnone) as Habs.
  split; [constructor|split; [|reflexivity]]; simpl.
  - rewrite map_app. simpl. apply NoDup_snoc; [exact (wf_attempt_ids _ WF)|].
    intros Hi. apply in_map_iff in Hi. destruct Hi as (x & Hx & Hin).
    pose proof (wf_attempt_fresh _ WF x Hin). lia.
  - intros x Hx. apply in_app_iff in Hx. destruct Hx as [Hx|[<-|[]]].
    + pose proof (wf_attempt_fresh _ WF x Hx). lia.
    + simpl. lia.
  - rewrite map_app. simpl. apply NoDup_snoc; [exact (wf_attempt_pairs _ WF)|].
    intros Hq. apply in_map_iff in Hq. destruct Hq as (x & Hx & Hin).
    assert (Hm : attemptOf s e x = true) by (apply attemptOf_pair; exact Hx).
    rewrite (Habs x Hin) in Hm. discriminate.
  - exact (wf_exam_ids _ WF).
  - exact (wf_durations _ WF).
  - exact (wf_creators _ WF).
  - intros x Hx. apply in_app_iff in Hx. destruct Hx as [Hx|[<-|[]]].
    + apply (wf_time_left _ WF). assumption.
    + simpl. exact Ht.
  - intros x Hx. apply in_app_iff in Hx. destruct Hx as [Hx|[<-|[]]].
    + apply (wf_attempt_exam _ WF x Hx).
    + exact Hexam.
  - exact (wf_submission_exam _ WF).
  - exact (wf_submission_pairs _ WF).
  - intros a Ha. exists a. split; [|apply persists_refl].
    apply in_or_app. left. assumption.
Qed.

Lemma insertSubmission_evolves now s e url db :
  findOne (submissionOf s e) (submissions db) = None ->
  examExists e db ->
  evolves db (snd (insertSubmission now s e url db)).
Proof.
  intros Hnone Hexam WF. simpl.
  pose proof (proj1 (find_absent _ _) Hnone) as Habs.
  split; [constructor|split]; simpl;
    try solve [apply WF].
  - intros x Hx. pose proof (wf_attempt_fresh _ WF x Hx). lia.
  - intros x Hx. apply in_app_iff in Hx. destruct Hx as [Hx|[<-|[]]].
    + apply (wf_submission_exam _ WF x Hx).
    + exact Hexam.
  - rewrite map_app. simpl.
    apply NoDup_snoc; [exact (wf_submission_pairs _ WF)|].
    intros Hq. apply in_map_iff in Hq. destruct Hq as (x & Hx & Hin).
    assert (Hm : submissionOf s e x = true)
      by (apply submissionOf_pair; exact Hx).
    rewrite (Habs x Hin) in Hm. discriminate.
  - intros a Ha. exists a. split; [assumption | apply persists_refl].
  - intros s' e' Hne. unfold submissionsOf in *. simpl.
    rewrite filter_app. simpl.
    destruct (submissionOf s' e' _) eqn:Hnew; [|apply app_nil_r].
    exfalso. apply Hne.
    unfold submissionOf in Hnew. simpl in Hnew.
    apply andb_true_iff in Hnew. rewrite !Nat.eqb_eq in Hnew.
    destruct Hnew as [<- <-].
    destruct (filter _ (submissions db)) as [|x l] eqn:F; [reflexivity|].
    assert (Hx : In x (filter (submissionOf s e) (submissions db)))
      by (rewrite F; left; reflexivity).
    apply filter_In in Hx. destruct Hx as [Hin Px].
    rewrite (Habs x Hin) in Px. discriminate.
Qed.

(** ** Every request keeps the store well formed *)

Lemma start_evolves now s examId db :
  evolves db (fst (start now s examId db)).
Proof.
  unfold start. repeat branch; simpl; try apply evolves_refl.
  - eapply saveAttempt_evolves; [eassumption|].
    repeat split; auto.
  - match goal with H : insertAttempt _ _ _ _ _ _ = _ |- _ =>
      apply (f_equal snd) in H; simpl snd in H; rewrite <- H end.
    apply insertAttempt_evolves; [assumption|unfold examExists; congruence|].
    intros WF.
    match goal with H : findOne (examById _) _ = Some ?x |- _ =>
      apply find_some in H; destruct H as [H _];
      pose proof (wf_durations _ WF x H) end.
    lia.
Qed.

Lemma getStatus_evolves now s e db :
  evolves db (fst (getStatus now s e db)).
Proof.
  unfold getStatus. branch; simpl; [|apply evolves_refl].
  branch; [|apply evolves_refl].
  eapply saveAttempt_evolves; [eassumption|].
  repeat split; auto. simpl. lia.
Qed.

Lemma updateTime_evolves now s i t db :
  evolves db (fst (updateTime now s i t db)).
Proof.
  unfold updateTime. branch; simpl; [|apply evolves_refl].
  eapply saveAttempt_evolves; [eassumption|].
  branch; repeat split; auto; simpl; lia.
Qed.

Lemma complete_evolves s i db :
  evolves db (fst (complete s i db)).
Proof.
  unfold complete. branch; simpl; [|apply evolves_refl].
  eapply saveAttempt_evolves; [eassumption|].
  repeat split; auto.
Qed.

Lemma submit_evolves cloud now s examId file db :
  evolves db (fst (submit cloud now s examId file db)).
Proof.
  unfold submit. repeat branch; simpl; try apply evolves_refl;
    match goal with H : insertSubmission _ _ _ _ _ = _ |- _ =>
      apply (f_equal snd) in H; simpl snd in H; rewrite <- H end;
    apply insertSubmission_evolves;
      solve [assumption | unfold examExists; congruence].
Qed.

Lemma find_examById_updateOne i j b l :
  find (examById i) (updateOne Exam._id j (Exam.set_isActive b) l)
  = if j =? i then option_map (Exam.set_isActive b) (find (examById i) l)
    else find (examById i) l.
Proof.
  induction l as [|x l IH]; simpl.
  - destruct (j =? i); reflexivity.
  - unfold examById in *.
    destruct (Nat.eqb_spec (Exam._id x) j) as [Exj|Nxj]; simpl;
      destruct (Nat.eqb_spec (Exam._id x) i) as [Exi|Nxi];
      destruct (Nat.eqb_spec j i) as [Eji|Nji];
      try reflexivity; try congruence; exact IH.
Qed.

Lemma examExists_setActive e i b db :
  examExists e db ->
  examExists e
    (with_exams (updateOne Exam._id i (Exam.set_isActive b) (exams db)) db).
Proof.
  unfold examExists, findOne. simpl. rewrite find_examById_updateOne.
  destruct (i =? e), (find _ _); simpl; congruence.
Qed.

Lemma setActive_evolves i b db :
  evolves db
    (with_exams (updateOne Exam._id i (Exam.set_isActive b) (exams db)) db).
Proof.
  intros WF. split; [constructor|split]; simpl; try solve [apply WF].
  - rewrite updateOne_keys; [apply WF | reflexivity].
  - intros e He. apply updateOne_In in He.
    destruct He as [He|(y & Hy & ->)]; [|simpl];
      apply (wf_durations _ WF); assumption.
  - intros e He. apply updateOne_In in He.
    destruct He as [He|(y & Hy & ->)]; [|simpl];
      apply (wf_creators _ WF); assumption.
  - intros a Ha. apply examExists_setActive, (wf_attempt_exam _ WF a Ha).
  - intros x Hx. apply examExists_setActive, (wf_submission_exam _ WF x Hx).
  - intros a Ha. exists a. split; [assumption | apply persists_refl].
  - reflexivity.
Qed.

Lemma cancel_evolves t i db : evolves db (fst (cancel t i db)).
Proof.
  unfold cancel. repeat branch; simpl; try apply evolves_refl.
  apply setActive_evolves.
Qed.

Lemma activate_evolves t i db : evolves db (fst (activate t i db)).
Proof.
  unfold activate. repeat branch; simpl; try apply evolves_refl.
  apply setActive_evolves.
Qed.

Lemma guarded_evolves {A B} (check : Result A) (h : DB -> DB * Result B) db :
  evolves db (fst (h db)) -> evolves db (fst (guarded check h db)).
Proof. destruct check; simpl; auto using evolves_refl. Qed.

Lemma serve_evolves r db : evolves db (serve r db).
Proof.
  destruct r; simpl; apply guarded_evolves;
    auto using start_evolves, getStatus_evolves, updateTime_evolves,
      complete_evolves, submit_evolves, cancel_evolves, activate_evolves.
Qed.

Lemma serveAll_evolves rs db : evolves db (serveAll rs db).
Proof.
  revert db. induction rs as [|r rs IH]; intros db; simpl.
  - apply evolves_refl.
  - eapply evolves_trans; [apply serve_evolves | apply IH].
Qed.

(** A store that holds schema-valid exams and no attempt or submission yet
    is well formed, and so is every store the server reaches from it. *)
Lemma fresh_store_wellFormed es ss ts n :
  NoDup (map Exam._id es) ->
  (forall e, In e es -> (1 <= Exam.duration e <= 300)%Z) ->
  (forall e, In e es -> findOne (userById (Exam.createdBy e)) ts <> None) ->
  wellFormed (mkDB es [] [] ss ts n).
Proof.
  intros ND Hd Hc. constructor; simpl; auto; try constructor; intros ? [].
Qed.

Lemma reachable_wellFormed es ss ts n rs :
  NoDup (map Exam._id es) ->
  (forall e, In e es -> (1 <= Exam.duration e <= 300)%Z) ->
  (forall e, In e es -> findOne (userById (Exam.createdBy e)) ts <> None) ->
  wellFormed (serveAll rs (mkDB es [] [] ss ts n)).
Proof.
  intros ND Hd Hc.
  apply serveAll_evolves, fresh_store_wellFormed; assumption.
Qed.

Lemma sample_wellFormed : wellFormed Sample.db0.
Proof.
  apply fresh_store_wellFormed.
  - constructor; [intros [] | constructor].
  - intros e [<-|[]]. simpl. lia.
  - intros e [<-|[]]. simpl. discriminate.
Qed.

(** ** The attempt found for a pair *)

Lemma findOne_saved p db a a' :
  wellFormed db ->
  findOne p (attempts db) = Some a ->
  ExamAttempt._id a' = ExamAttempt._id a ->
  p a' = true ->
  findOne p (attempts (saveAttempt a' db)) = Some a'.
Proof.
  intros WF Hfind Hid Pa'.
  destruct (saveAttempt_at p db a a' (wf_attempt_ids _ WF) Hfind Hid)
    as (l1 & l2 & _ & -> & _ & Hl1).
  apply find_compose; assumption.
Qed.

Lemma saveAttempt_others p db found a' a :
  wellFormed db ->
  findOne p (attempts db) = Some found ->
  ExamAttempt._id a' = ExamAttempt._id found ->
  In a (attempts db) -> a <> found ->
  In a (attempts (saveAttempt a' db)).
Proof.
  intros WF Hfind Hid Hin Hne.
  destruct (saveAttempt_at p db found a' (wf_attempt_ids _ WF) Hfind Hid)
    as (l1 & l2 & Hl & Hl' & _).
  rewrite Hl' . rewrite Hl in Hin.
  apply in_app_iff in Hin. apply in_app_iff.
  destruct Hin as [Hin|[E|Hin]]; [left; assumption | congruence |].
  right. right. assumption.
Qed.

Lemma saveAttempt_length a db :
  length (attempts (saveAttempt a db)) = length (attempts db).
Proof. apply updateOne_length. Qed.

Lemma findOne_inserted now s e t st db :
  findOne (attemptOf s e) (attempts db) = None ->
  findOne (attemptOf s e) (attempts (snd (insertAttempt now s e t st db)))
  = Some (fst (insertAttempt now s e t st db)).
Proof.
  intros Hnone. simpl.
  rewrite <- (app_nil_r [_]).
  apply find_compose.
  - unfold attemptOf. simpl. rewrite !Nat.eqb_refl. reflexivity.
  - apply find_absent. exact Hnone.
Qed.

(** Under a unique index the documents of a pair are the one found. *)
Lemma filter_found {A B} (f : A -> B) (p : A -> bool) (b : B) l a :
  (forall x, p x = true <-> f x = b) ->
  NoDup (map f l) ->
  find p l = Some a ->
  filter p l = [a].
Proof.
  intros Hp ND Hfind.
  destruct (find_decompose _ _ _ Hfind) as (l1 & l2 & Hl & Pa & Hl1).
  rewrite Hl in *.
  rewrite filter_app. simpl. rewrite Pa.
  assert (F1 : filter p l1 = []).
  { clear -Hl1. induction l1 as [|x l1 IH]; simpl; [reflexivity|].
    rewrite (Hl1 x) by (left; reflexivity). apply IH.
    intros y Hy. apply Hl1. right. assumption. }
  assert (F2 : filter p l2 = []).
  { rewrite map_app in ND. simpl in ND.
    apply NoDup_remove_2 in ND.
    assert (H2 : forall x, In x l2 -> p x = false).
    { intros x Hx. destruct (p x) eqn:Px; [|reflexivity].
      exfalso. apply ND. apply in_or_app. right.
      apply Hp in Px. apply Hp in Pa.
      rewrite Pa, <- Px. apply in_map. assumption. }
    clear -H2. induction l2 as [|x l2 IH]; simpl; [reflexivity|].
    rewrite (H2 x) by (left; reflexivity). apply IH.
    intros y Hy. apply H2. right. assumption. }
  rewrite F1, F2. reflexivity.
Qed.

Lemma attemptsOf_found s e db a :
  wellFormed db ->
  findOne (attemptOf s e) (attempts db) = Some a ->
  attemptsOf s e db = [a].
Proof.
  intros WF Hfind.
  apply (filter_found attemptPair (attemptOf s e) (s, e)); auto.
  - intros x. apply attemptOf_pair.
  - apply WF.
Qed.

Lemma submissionsOf_found s e db x :
  wellFormed db ->
  findOne (submissionOf s e) (submissions db) = Some x ->
  submissionsOf s e db = [x].
Proof.
  intros WF Hfind.
  apply (filter_found submissionPair (submissionOf s e) (s, e)); auto.
  - intros y. apply submissionOf_pair.
  - apply WF.
Qed.

(** A second [start] on an open attempt resumes it in place. *)
Lemma start_resume now s e db exam a :
  wellFormed db ->
  findOne (examById e) (exams db) = Some exam ->
  findOne (submissionOf s e) (submissions db) = None ->
  findOne (attemptOf s e) (attempts db) = Some a ->
  ExamAttempt.isCompleted a = false ->
  let a' := ExamAttempt.set_status ExamAttempt.started
              (ExamAttempt.set_lastAccessedAt now a) in
  start now s (Some e) db = (saveAttempt a' db, Ok 200 (startedJson a'))
  /\ findOne (attemptOf s e) (attempts (saveAttempt a' db)) = Some a'.
Proof.
  intros WF He Hs Ha Hc a'. split.
  - unfold start. rewrite He, Hs, Ha, Hc. reflexivity.
  - apply (findOne_saved _ db a); auto.
    destruct (find_decompose _ _ _ Ha) as (_ & _ & _ & Pa & _).
    exact Pa.
Qed.

(** ** C1: starting twice *)

(** C1, as stated, fails: student S has completed the attempt on exam E and
    has handed nothing in; two [start] calls in a row are both refused,
    no attempt id is returned, and the stored status stays [completed]. *)
Lemma start_twice_on_completed_is_refused :
  findOne (examById 10) (exams Sample.finished) = Some Sample.examE
  /\ findOne (submissionOf 3 10) (submissions Sample.finished) = None
  /\ start 7000 3 (Some 10) Sample.finished
     = (Sample.finished, Fail 400 "You have already completed this exam.")
  /\ start 8000 3 (Some 10) (fst (start 7000 3 (Some 10) Sample.finished))
     = (Sample.finished, Fail 400 "You have already completed this exam.")
  /\ findOne (attemptOf 3 10) (attempts Sample.finished)
     = Some (ExamAttempt.mk 100 3 10 0 0 3600 ExamAttempt.completed true).
Proof. repeat split. Qed.

(** C1, amended.  On a well-formed store, for a pair whose exam exists and
    that has no submission, two [start] calls in a row leave exactly one
    attempt document for the pair and the second call inserts nothing.
    When the pair has no completed attempt, the first call succeeds and
    the second answers with the same attempt id, [lastAccessedAt] set to
    its own time, status [started], and the remaining time and start time
    the first call reported.  These are the ones the store held before:
    an attempt the pair already had keeps its id, its remaining time and
    its start time through both calls and no document is inserted; a pair
    without one gets a single new document, with the exam's duration in
    seconds, started at the first call.  When the attempt of the pair is
    completed, both calls are refused and the store is untouched. *)
Theorem start_twice_resumes db now1 now2 s e :
  wellFormed db ->
  examExists e db ->
  findOne (submissionOf s e) (submissions db) = None ->
  let '(db1, r1) := start now1 s (Some e) db in
  let '(db2, r2) := start now2 s (Some e) db1 in
  length (attempts db2) = length (attempts db1)
  /\ length (attemptsOf s e db2) = 1
  /\ ((forall a, findOne (attemptOf s e) (attempts db) = Some a ->
                 ExamAttempt.isCompleted a = false) ->
      exists first a2,
        r1 = Ok 200 first
        /\ findOne (attemptOf s e) (attempts db2) = Some a2
        /\ r2 = Ok 200 (startedJson a2)
        /\ ExamAttempt._id a2 = Json.s_id first
        /\ ExamAttempt.lastAccessedAt a2 = now2
        /\ ExamAttempt.status a2 = ExamAttempt.started
        /\ ExamAttempt.timeRemaining a2 = Json.s_timeRemaining first
        /\ ExamAttempt.startedAt a2 = Json.s_startedAt first
        /\ ExamAttempt.isCompleted a2 = false
        /\ (forall a0,
              findOne (attemptOf s e) (attempts db) = Some a0 ->
              ExamAttempt._id a2 = ExamAttempt._id a0
              /\ ExamAttempt.timeRemaining a2 = ExamAttempt.timeRemaining a0
              /\ ExamAttempt.startedAt a2 = ExamAttempt.startedAt a0
              /\ length (attempts db2) = length (attempts db))
        /\ (findOne (attemptOf s e) (attempts db) = None ->
            forall exam,
              findOne (examById e) (exams db) = Some exam ->
              ExamAttempt._id a2 = nextId db
              /\ ExamAttempt.timeRemaining a2 = (Exam.duration exam * 60)%Z
              /\ ExamAttempt.startedAt a2 = now1
              /\ length (attempts db2) = S (length (attempts db))))
  /\ (forall a, findOne (attemptOf s e) (attempts db) = Some a ->
                ExamAttempt.isCompleted a = true ->
      r1 = Fail 400 "You have already completed this exam."
      /\ r2 = r1 /\ db2 = db).
Proof.
  intros WF Hexam Hs.
  destruct (findOne (examById e) (exams db)) as [exam|] eqn:He;
    [|contradiction Hexam; exact He].
  assert (Resume : forall db1 a1,
    wellFormed db1 -> exams db1 = exams db ->
    submissions db1 = submissions db ->
    findOne (attemptOf s e) (attempts db1) = Some a1 ->
    ExamAttempt.isCompleted a1 = false ->
    let '(db2, r2) := start now2 s (Some e) db1 in
    length (attempts db2) = length (attempts db1)
    /\ length (attemptsOf s e db2) = 1
    /\ exists a2,
         findOne (attemptOf s e) (attempts db2) = Some a2
         /\ r2 = Ok 200 (startedJson a2)
         /\ ExamAttempt._id a2 = ExamAttempt._id a1
         /\ ExamAttempt.lastAccessedAt a2 = now2
         /\ ExamAttempt.status a2 = ExamAttempt.started
         /\ ExamAttempt.timeRemaining a2 = ExamAttempt.timeRemaining a1
         /\ ExamAttempt.startedAt a2 = ExamAttempt.startedAt a1
         /\ ExamAttempt.isCompleted a2 = false).
  { intros db1 a1 WF1 E1 S1 Ha1 Hc1.
    rewrite <- E1 in He. rewrite <- S1 in Hs.
    destruct (start_resume now2 s e db1 exam a1 WF1 He Hs Ha1 Hc1)
      as [Hstart Hfound].
    rewrite Hstart. split; [apply saveAttempt_length|]. split.
    - erewrite attemptsOf_found; [reflexivity| |exact Hfound].
      pose proof (start_evolves now2 s (Some e) db1 WF1) as H.
      rewrite Hstart in H. apply H.
    - eexists. split; [exact Hfound|]. repeat split; auto. }
  destruct (findOne (attemptOf s e) (attempts db)) as [a|] eqn:Ha.
  - destruct (ExamAttempt.isCompleted a) eqn:Hc.
    + assert (Hfail : forall now, start now s (Some e) db
                      = (db, Fail 400 "You have already completed this exam.")).
      { intros now. unfold start. rewrite He, Hs, Ha, Hc. reflexivity. }
      rewrite (Hfail now1), (Hfail now2).
      split; [reflexivity|]. split; [rewrite (attemptsOf_found s e db a); auto|].
      split; [|auto].
      intros Hopen. specialize (Hopen a eq_refl). congruence.
    + destruct (start_resume now1 s e db exam a WF He Hs Ha Hc)
        as [Hstart Hfound].
      rewrite Hstart.
      pose proof (start_evolves now1 s (Some e) db WF) as H1.
      rewrite Hstart in H1. destruct H1 as (WF1 & _).
      specialize (Resume _ _ WF1 eq_refl eq_refl Hfound Hc).
      pose proof (saveAttempt_length
                    (ExamAttempt.set_status ExamAttempt.started
                       (ExamAttempt.set_lastAccessedAt now1 a)) db) as Hlen.
      destruct (start now2 s (Some e) _) as [db2 r2].
      destruct Resume
        as (R1 & R2 & a2 & Rf & Rr & Rid & Rla & Rst & Rtr & Rsa & Rc).
      split; [exact R1|]. split; [exact R2|]. split.
      * intros _. eexists. exists a2. split; [reflexivity|].
        repeat (split; [assumption|]). split.
        -- intros a0 E0. inversion E0; subst a0.
           split; [exact Rid|]. split; [exact Rtr|]. split; [exact Rsa|].
           rewrite R1. exact Hlen.
        -- intros E0. discriminate E0.
      * intros a0 E0 Hc0. inversion E0; subst a0. congruence.
  - assert (Hstart : start now1 s (Some e) db
             = (snd (insertAttempt now1 s e (Exam.duration exam * 60)%Z
                                   ExamAttempt.started db),
                Ok 200 (startedJson
                  (fst (insertAttempt now1 s e (Exam.duration exam * 60)%Z
                                      ExamAttempt.started db))))).
    { unfold start. rewrite He, Hs, Ha. reflexivity. }
    rewrite Hstart.
    pose proof (start_evolves now1 s (Some e) db WF) as H1.
    rewrite Hstart in H1. destruct H1 as (WF1 & _).
    pose proof (findOne_inserted now1 s e (Exam.duration exam * 60)%Z
                  ExamAttempt.started db Ha) as Hfound.
    specialize (Resume _ _ WF1 eq_refl eq_refl Hfound eq_refl).
    assert (Hlen : length (attempts
                     (snd (insertAttempt now1 s e (Exam.duration exam * 60)%Z
                                         ExamAttempt.started db)))
                   = S (length (attempts db))).
    { simpl. rewrite length_app. simpl. lia. }
    destruct (start now2 s (Some e) _) as [db2 r2].
    destruct Resume
      as (R1 & R2 & a2 & Rf & Rr & Rid & Rla & Rst & Rtr & Rsa & Rc).
    split; [exact R1|]. split; [exact R2|]. split.
    + intros _. eexists. exists a2. split; [reflexivity|].
      repeat (split; [assumption|]). split.
      * intros a0 E0. discriminate E0.
      * intros _ exam' E'. inversion E'; subst exam'.
        split; [exact Rid|]. split; [exact Rtr|]. split; [exact Rsa|].
        rewrite R1. exact Hlen.
    + intros a0 E0. discriminate.
Qed.

Lemma start_twice_resumes_witness :
  wellFormed Sample.ticking
  /\ examExists 10 Sample.ticking
  /\ findOne (submissionOf 3 10) (submissions Sample.ticking) = None
  /\ findOne (attemptOf 3 10) (attempts Sample.ticking)
     = Some (ExamAttempt.mk 100 3 10 0 30000 500 ExamAttempt.started false)
  /\ Exam.duration Sample.examE = 60%Z
  /\ start 40000 3 (Some 10) Sample.ticking
     = (mkDB [Sample.examE]
             [ExamAttempt.mk 100 3 10 0 40000 500 ExamAttempt.started false]
             [] [Sample.studentS] [Sample.teacherA; Sample.teacherB] 101,
        Ok 200 (Json.mkStarted 100 10 500 ExamAttempt.started 0 40000))
  /\ start 50000 3 (Some 10) (fst (start 40000 3 (Some 10) Sample.ticking))
     = (mkDB [Sample.examE]
             [ExamAttempt.mk 100 3 10 0 50000 500 ExamAttempt.started false]
             [] [Sample.studentS] [Sample.teacherA; Sample.teacherB] 101,
        Ok 200 (Json.mkStarted 100 10 500 ExamAttempt.started 0 50000))
  /\ let '(db1, r1) := start 40000 3 (Some 10) Sample.ticking in
     let '(db2, r2) := start 50000 3 (Some 10) db1 in
     length (attempts db2) = length (attempts db1)
     /\ length (attemptsOf 3 10 db2) = 1
     /\ ((forall a, findOne (attemptOf 3 10) (attempts Sample.ticking)
                    = Some a ->
                    ExamAttempt.isCompleted a = false) ->
         exists first a2,
           r1 = Ok 200 first
           /\ findOne (attemptOf 3 10) (attempts db2) = Some a2
           /\ r2 = Ok 200 (startedJson a2)
           /\ ExamAttempt._id a2 = Json.s_id first
           /\ ExamAttempt.lastAccessedAt a2 = 50000%Z
           /\ ExamAttempt.status a2 = ExamAttempt.started
           /\ ExamAttempt.timeRemaining a2 = Json.s_timeRemaining first
           /\ ExamAttempt.startedAt a2 = Json.s_startedAt first
           /\ ExamAttempt.isCompleted a2 = false
           /\ (forall a0,
                 findOne (attemptOf 3 10) (attempts Sample.ticking)
                 = Some a0 ->
                 ExamAttempt._id a2 = ExamAttempt._id a0
                 /\ ExamAttempt.timeRemaining a2
                    = ExamAttempt.timeRemaining a0
                 /\ ExamAttempt.startedAt a2 = ExamAttempt.startedAt a0
                 /\ length (attempts db2) = length (attempts Sample.ticking))
           /\ (findOne (attemptOf 3 10) (attempts Sample.ticking) = None ->
               forall exam,
                 findOne (examById 10) (exams Sample.ticking) = Some exam ->
                 ExamAttempt._id a2 = nextId Sample.ticking
                 /\ ExamAttempt.timeRemaining a2
                    = (Exam.duration exam * 60)%Z
                 /\ ExamAttempt.startedAt a2 = 40000%Z
                 /\ length (attempts db2)
                    = S (length (attempts Sample.ticking))))
     /\ (forall a, findOne (attemptOf 3 10) (attempts Sample.ticking)
                   = Some a ->
                   ExamAttempt.isCompleted a = true ->
         r1 = Fail 400 "You have already completed this exam."
         /\ r2 = r1 /\ db2 = Sample.ticking).
Proof.
  assert (WF : wellFormed Sample.ticking).
  { apply (serve_evolves (PutTime Sample.asStudentS 30000 100 500)).
    apply (serve_evolves (PostStart Sample.asStudentS 0 (Some 10))).
    exact sample_wellFormed. }
  assert (Hexam : examExists 10 Sample.ticking) by (simpl; discriminate).
  split; [exact WF|]. split; [exact Hexam|].
  split; [reflexivity|]. split; [reflexivity|]. split; [reflexivity|].
  split; [reflexivity|]. split; [reflexivity|].
  exact (start_twice_resumes Sample.ticking 40000 50000 3 10
           WF Hexam eq_refl).
Defined.

(** ** C2: reading the timer *)

Lemma with_attempts_same db : with_attempts (attempts db) db = db.
Proof. destruct db; reflexivity. Qed.

(** Saving a document that is already stored as it is changes nothing. *)
Lemma saveAttempt_same p db a :
  wellFormed db ->
  findOne p (attempts db) = Some a ->
  saveAttempt a db = db.
Proof.
  intros WF Hfind.
  destruct (saveAttempt_at p db a a (wf_attempt_ids _ WF) Hfind eq_refl)
    as (l1 & l2 & Hl & Hl' & _).
  rewrite <- Hl in Hl'.
  unfold saveAttempt in *. simpl in Hl'. rewrite Hl'.
  apply with_attempts_same.
Qed.

Lemma getStatus_found now s e db a :
  findOne (attemptOf s e) (attempts db) = Some a ->
  getStatus now s e db =
  let remainingTime :=
    Z.max 0 (ExamAttempt.timeRemaining a
             - (now - ExamAttempt.startedAt a) / 1000) in
  let expire :=
    (remainingTime <=? 0)%Z
    && negb (ExamAttempt.status_eqb (ExamAttempt.status a)
                                    ExamAttempt.completed) in
  let a' := if expire
            then ExamAttempt.set_timeRemaining 0
                   (ExamAttempt.set_status ExamAttempt.expired a)
            else a in
  (if expire then saveAttempt a' db else db,
   Ok 200 (Some (Json.mkCurrent
                   (ExamAttempt._id a') (ExamAttempt.examId a') remainingTime
                   (ExamAttempt.status a') (ExamAttempt.startedAt a')
                   (ExamAttempt.lastAccessedAt a')
                   (ExamAttempt.isCompleted a')))).
Proof. intros Ha. unfold getStatus. rewrite Ha. reflexivity. Qed.

Lemma status_eqb_eq s1 s2 : ExamAttempt.status_eqb s1 s2 = true <-> s1 = s2.
Proof. destruct s1, s2; simpl; split; congruence. Qed.

(** Whole seconds elapsed are not negative once the clock has reached
    the start of the attempt. *)
Lemma elapsed_nonneg (now startedAt : Z) :
  (0 <= (now - startedAt) / 1000)%Z <-> (startedAt <= now)%Z.
Proof.
  split; intros H.
  - destruct (Z.lt_ge_cases now startedAt) as [Hlt|]; [|assumption].
    assert ((now - startedAt) / 1000 < 0)%Z
      by (apply Z.div_lt_upper_bound; lia).
    lia.
  - apply Z.div_pos; lia.
Qed.

(** C2.  For the attempt [a] of a pair, with [elapsed] the whole seconds
    since [startedAt] and [effectiveRemaining = max 0 (timeRemaining -
    elapsed)]: when [effectiveRemaining <= 0] and the status is not
    [completed], [getStatus] stores status [expired] and remaining time 0
    on the attempt, whose other fields and all other attempts stay as
    they are, and reports them, and any later call reports the same and
    leaves the store as it is; when [effectiveRemaining > 0] it reports
    the computed time and the store is unchanged; on a completed attempt
    out of time the store is unchanged too. *)
Theorem getStatus_expiry db now s e a :
  wellFormed db ->
  findOne (attemptOf s e) (attempts db) = Some a ->
  let elapsed := ((now - ExamAttempt.startedAt a) / 1000)%Z in
  let effectiveRemaining := Z.max 0 (ExamAttempt.timeRemaining a - elapsed) in
  let report t st :=
    Ok 200 (Some (Json.mkCurrent (ExamAttempt._id a) (ExamAttempt.examId a)
                    t st (ExamAttempt.startedAt a)
                    (ExamAttempt.lastAccessedAt a)
                    (ExamAttempt.isCompleted a))) in
  let '(db', r) := getStatus now s e db in
  ((effectiveRemaining <= 0)%Z ->
   ExamAttempt.status a <> ExamAttempt.completed ->
   let a' := ExamAttempt.mk (ExamAttempt._id a) (ExamAttempt.studentId a)
               (ExamAttempt.examId a) (ExamAttempt.startedAt a)
               (ExamAttempt.lastAccessedAt a) 0 ExamAttempt.expired
               (ExamAttempt.isCompleted a) in
   db' = saveAttempt a' db
   /\ findOne (attemptOf s e) (attempts db') = Some a'
   /\ length (attempts db') = length (attempts db)
   /\ (forall x, In x (attempts db) -> x <> a -> In x (attempts db'))
   /\ r = report 0%Z ExamAttempt.expired
   /\ forall now', (now <= now')%Z -> getStatus now' s e db' = (db', r))
  /\ ((0 < effectiveRemaining)%Z ->
      db' = db /\ r = report effectiveRemaining (ExamAttempt.status a))
  /\ ((effectiveRemaining <= 0)%Z ->
      ExamAttempt.status a = ExamAttempt.completed ->
      db' = db /\ r = report 0%Z ExamAttempt.completed).
Proof.
  intros WF Ha elapsed rem report.
  destruct (find_decompose _ _ _ Ha) as (_ & _ & _ & Pa & _).
  rewrite (getStatus_found _ _ _ _ _ Ha). fold elapsed. fold rem. cbv zeta.
  destruct (Z.leb_spec rem 0) as [Hrem|Hrem].
  - destruct (ExamAttempt.status_eqb (ExamAttempt.status a)
                                     ExamAttempt.completed) eqn:Hst; simpl.
    + apply status_eqb_eq in Hst.
      split; [intros _ Hn; contradiction|]. split; [intros; lia|].
      intros _ _. split; [reflexivity|].
      unfold report. rewrite Hst. replace rem with 0%Z by lia. reflexivity.
    + assert (Hn : ExamAttempt.status a <> ExamAttempt.completed)
        by (intros E; apply status_eqb_eq in E; congruence).
      split; [|split; [intros; lia | intros _ E; contradiction]].
      intros _ _.
      change (ExamAttempt.set_timeRemaining 0
                (ExamAttempt.set_status ExamAttempt.expired a))
        with (ExamAttempt.mk (ExamAttempt._id a) (ExamAttempt.studentId a)
                (ExamAttempt.examId a) (ExamAttempt.startedAt a)
                (ExamAttempt.lastAccessedAt a) 0 ExamAttempt.expired
                (ExamAttempt.isCompleted a)).
      set (a' := ExamAttempt.mk _ _ _ _ _ 0 ExamAttempt.expired _).
      assert (Hfound : findOne (attemptOf s e)
                         (attempts (saveAttempt a' db)) = Some a')
        by (apply (findOne_saved _ db a); auto).
      assert (WF' : wellFormed (saveAttempt a' db)).
      { apply (saveAttempt_evolves (attemptOf s e) db a a'); auto.
        repeat split; auto. simpl. lia. }
      assert (Hr : rem = 0%Z) by lia.
      split; [reflexivity|]. split; [exact Hfound|].
      split; [exact (saveAttempt_length a' db)|].
      split; [intros x Hx Hxa;
              apply (saveAttempt_others (attemptOf s e) db a a' x); auto|].
      split; [unfold report; rewrite Hr; reflexivity|].
      intros now' Hnow.
      assert (Htr : (0 <= ExamAttempt.timeRemaining a)%Z).
      { apply (wf_time_left _ WF). apply find_some in Ha. apply Ha. }
      rewrite (getStatus_found _ _ _ _ _ Hfound). cbv zeta.
      assert (Hel : (0 <= (now' - ExamAttempt.startedAt a) / 1000)%Z).
      { apply elapsed_nonneg.
        assert (0 <= elapsed)%Z by (unfold rem in Hrem; lia).
        unfold elapsed in H. apply (proj1 (elapsed_nonneg _ _)) in H. lia. }
      replace (Z.max 0 (ExamAttempt.timeRemaining a'
                         - (now' - ExamAttempt.startedAt a') / 1000))
        with 0%Z by (simpl; lia).
      simpl.
      change (ExamAttempt.set_timeRemaining 0
                (ExamAttempt.set_status ExamAttempt.expired a')) with a'.
      rewrite (saveAttempt_same _ _ _ WF' Hfound).
      unfold report. rewrite Hr. reflexivity.
  - simpl. split; [intros; lia|]. split; [|intros; lia].
    intros _. split; reflexivity.
Qed.

Lemma sample_started_wellFormed : wellFormed Sample.started.
Proof. apply (serve_evolves (PostStart _ _ _)), sample_wellFormed. Qed.

Lemma getStatus_expiry_witness :
  wellFormed Sample.started
  /\ findOne (attemptOf 3 10) (attempts Sample.started)
     = Some (ExamAttempt.mk 100 3 10 0 0 3600%Z ExamAttempt.started false)
  /\ snd (getStatus 3700000%Z 3 10 Sample.started)
     = Ok 200 (Some (Json.mkCurrent 100 10 0%Z ExamAttempt.expired 0 0 false))
  /\ attempts (fst (getStatus 3700000%Z 3 10 Sample.started))
     = [ExamAttempt.mk 100 3 10 0 0 0%Z ExamAttempt.expired false]
  /\ findOne (attemptOf 3 10)
             (attempts (fst (getStatus 3700000%Z 3 10 Sample.started)))
     = Some (ExamAttempt.mk 100 3 10 0 0 0%Z ExamAttempt.expired false)
  /\ getStatus 3800000%Z 3 10 (fst (getStatus 3700000%Z 3 10 Sample.started))
     = getStatus 3700000%Z 3 10 Sample.started.
Proof.
  split; [exact sample_started_wellFormed|]. split; [reflexivity|].
  pose proof (getStatus_expiry Sample.started 3700000%Z 3 10 _
                sample_started_wellFormed eq_refl) as H.
  cbv zeta in H.
  destruct (getStatus 3700000%Z 3 10 Sample.started) as [db' r] eqn:E.
  destruct H as [H _].
  destruct H as (Hdb & Hfound & _ & _ & Hr & Hagain);
    [vm_compute; discriminate | discriminate |].
  split; [exact Hr|].
  split; [rewrite Hdb; reflexivity|].
  split; [exact Hfound|].
  apply Hagain. vm_compute. discriminate.
Defined.

(** ** C5 and C4: reporting the remaining time *)

Lemma attemptOwnedBy_spec i s a :
  attemptOwnedBy i s a = true
  <-> ExamAttempt._id a = i /\ ExamAttempt.studentId a = s.
Proof. unfold attemptOwnedBy. rewrite andb_true_iff, !Nat.eqb_eq. tauto. Qed.

(** C5.  [updateTime] answers 404 and writes nothing when no attempt with
    the given id belongs to the calling student.  Otherwise the reported
    seconds are clamped to be at least 0 (a negative report gives 0), the
    clamped value and the time of the call are stored on the attempt, and
    the status becomes [expired] exactly when the clamped value is 0. *)
Theorem updateTime_clamps db now s i t :
  wellFormed db ->
  ((forall a, In a (attempts db) -> ExamAttempt._id a = i ->
              ExamAttempt.studentId a <> s) ->
   updateTime now s i t db = (db, Fail 404 "Exam attempt not found"))
  /\ forall a,
       findOne (attemptOwnedBy i s) (attempts db) = Some a ->
       let clamped := Z.max 0 t in
       let a' :=
         ExamAttempt.mk (ExamAttempt._id a) (ExamAttempt.studentId a)
           (ExamAttempt.examId a) (ExamAttempt.startedAt a) now clamped
           (if (clamped =? 0)%Z then ExamAttempt.expired
            else ExamAttempt.status a)
           (ExamAttempt.isCompleted a) in
       (0 <= clamped)%Z
       /\ ((t < 0)%Z -> clamped = 0%Z)
       /\ updateTime now s i t db
          = (saveAttempt a' db,
             Ok 200 (Json.mkTimed i clamped (ExamAttempt.status a')))
       /\ findOne (attemptOwnedBy i s) (attempts (saveAttempt a' db))
          = Some a'.
Proof.
  intros WF. split.
  - intros Hnot. unfold updateTime.
    destruct (findOne _ _) as [a|] eqn:Ha; [|reflexivity].
    exfalso. destruct (find_decompose _ _ _ Ha) as (l1 & l2 & Hl & Pa & _).
    apply attemptOwnedBy_spec in Pa. destruct Pa as [Hi Hs].
    apply (Hnot a); auto. rewrite Hl. apply in_or_app. right. left. reflexivity.
  - intros a Ha clamped a'.
    destruct (find_decompose _ _ _ Ha) as (_ & _ & _ & Pa & _).
    pose proof Pa as Pa0. apply attemptOwnedBy_spec in Pa0.
    destruct Pa0 as [Hi Hs].
    split; [apply Z.le_max_l|]. split; [unfold clamped; lia|].
    assert (Ha' : (if (ExamAttempt.timeRemaining
                         (ExamAttempt.set_lastAccessedAt now
                            (ExamAttempt.set_timeRemaining clamped a)) <=? 0)%Z
                   then ExamAttempt.set_status ExamAttempt.expired
                          (ExamAttempt.set_lastAccessedAt now
                             (ExamAttempt.set_timeRemaining clamped a))
                   else ExamAttempt.set_lastAccessedAt now
                          (ExamAttempt.set_timeRemaining clamped a)) = a').
    { unfold a'. simpl.
      destruct (Z.leb_spec clamped 0), (Z.eqb_spec clamped 0);
        try reflexivity; unfold clamped in *; lia. }
    split.
    + unfold updateTime. rewrite Ha. fold clamped. cbv zeta.
      rewrite Ha'. simpl. rewrite Hi. reflexivity.
    + apply (findOne_saved _ db a); auto;
        apply attemptOwnedBy_spec; simpl; auto.
Qed.

Lemma updateTime_clamps_witness :
  wellFormed Sample.started
  /\ updateTime 60000 3 100 (-5) Sample.started
     = (saveAttempt
          (ExamAttempt.mk 100 3 10 0 60000 0 ExamAttempt.expired false)
          Sample.started,
        Ok 200 (Json.mkTimed 100 0 ExamAttempt.expired))
  /\ updateTime 60000 4 100 (-5) Sample.started
     = (Sample.started, Fail 404 "Exam attempt not found").
Proof.
  split; [exact sample_started_wellFormed|].
  destruct (updateTime_clamps Sample.started 60000 3 100 (-5)
              sample_started_wellFormed) as [_ H].
  destruct (updateTime_clamps Sample.started 60000 4 100 (-5)
              sample_started_wellFormed) as [H404 _].
  split.
  - exact (proj1 (proj2 (proj2 (H _ eq_refl)))).
  - apply H404. intros a [<-|[]] _. simpl. discriminate.
Defined.

(** C4.  A completed attempt is not closed to time reports: on the
    attempt student S completed, a report of [0] seconds by its owner
    succeeds, and the stored document then has no time left and status
    [expired], while [isCompleted] is still set. *)
Example updateTime_rewrites_completed :
  findOne (attemptOwnedBy 100 3) (attempts Sample.finished)
  = Some (ExamAttempt.mk 100 3 10 0 0 3600 ExamAttempt.completed true)
  /\ snd (updateTime 60000 3 100 0 Sample.finished)
     = Ok 200 (Json.mkTimed 100 0 ExamAttempt.expired)
  /\ findOne (attemptOwnedBy 100 3)
       (attempts (fst (updateTime 60000 3 100 0 Sample.finished)))
     = Some (ExamAttempt.mk 100 3 10 0 60000 0 ExamAttempt.expired true).
Proof. repeat split. Qed.

(** ** C3: completion is final *)

Lemma NoDup_map_eq {A B} (f : A -> B) (l : list A) x y :
  NoDup (map f l) -> In x l -> In y l -> f x = f y -> x = y.
Proof.
  induction l as [|z l IH]; simpl; intros ND Hx Hy E; [contradiction|].
  inversion ND as [|? ? Hz ND']; subst.
  destruct Hx as [->|Hx], Hy as [->|Hy]; auto.
  - exfalso. apply Hz. rewrite E. apply in_map. assumption.
  - exfalso. apply Hz. rewrite <- E. apply in_map. assumption.
Qed.

Lemma findOne_member s e db a :
  wellFormed db ->
  In a (attempts db) ->
  attemptOf s e a = true ->
  findOne (attemptOf s e) (attempts db) = Some a.
Proof.
  intros WF Hin Pa.
  destruct (findOne _ _) as [x|] eqn:Hx.
  - f_equal. apply find_some in Hx. destruct Hx as [Hxin Px].
    apply (NoDup_map_eq attemptPair (attempts db)); auto.
    + apply WF.
    + apply attemptOf_pair in Px. apply attemptOf_pair in Pa. congruence.
  - pose proof (proj1 (find_absent _ _) Hx a Hin). congruence.
Qed.








(** ** C6: one submission per student and exam *)

Lemma find_filter {A} (p : A -> bool) (l : list A) :
  find p l = hd_error (filter p l).
Proof.
  induction l as [|x l IH]; simpl; [reflexivity|].
  destruct (p x); [reflexivity | exact IH].
Qed.

Lemma submissionOf_spec s e x :
  submissionOf s e x = true
  <-> Submission.studentId x = s /\ Submission.examId x = e.
Proof. unfold submissionOf. rewrite andb_true_iff, !Nat.eqb_eq. tauto. Qed.

(** C6.  Once a submission [first] exists for a pair, a further [submit]
    for the pair (with a valid exam id and a file) fails with the
    duplicate message and leaves the store as it is; and after any further
    requests [first], as it was, is still the one submission of the pair:
    it keeps its [answerUrl] and no second one appears. *)
Theorem submit_once db s e first :
  wellFormed db ->
  findOne (submissionOf s e) (submissions db) = Some first ->
  (forall cloud now path,
     submit cloud now s (Some e) (Some path) db
     = (db, Fail 400 "You have already submitted answers for this exam"))
  /\ forall rs,
       submissionsOf s e (serveAll rs db) = [first]
       /\ findOne (submissionOf s e) (submissions (serveAll rs db))
          = Some first.
Proof.
  intros WF Hs.
  pose proof (submissionsOf_found s e db first WF Hs) as Hone.
  split.
  - intros cloud now path.
    assert (Hexam : examExists e db).
    { apply find_some in Hs. destruct Hs as [Hin Hp].
      apply submissionOf_spec in Hp. destruct Hp as [_ <-].
      apply (wf_submission_exam _ WF first Hin). }
    unfold submit. rewrite Hs.
    destruct (findOne (examById e) _) eqn:He; [reflexivity|].
    contradiction Hexam.
  - intros rs.
    destruct (serveAll_evolves rs db WF) as (_ & _ & Hsub).
    assert (Hne : submissionsOf s e db <> []).
    { unfold submissionsOf. unfold findOne in Hs. rewrite find_filter in Hs.
      intros E. rewrite E in Hs. discriminate. }
    specialize (Hsub s e Hne). split; [rewrite Hsub; exact Hone|].
    unfold findOne in *. rewrite find_filter in *.
    unfold submissionsOf in Hsub. rewrite Hsub. exact Hs.
Qed.

Lemma submit_once_witness :
  wellFormed Sample.handedIn
  /\ findOne (submissionOf 3 10) (submissions Sample.handedIn)
     = Some (Submission.mk 100 3 10
               "https://res.cloudinary.com/demo/answer_1.pdf" 5000
               Submission.submitted)
  /\ submit (fun _ => Some "https://res.cloudinary.com/demo/other.pdf")
            6000 3 (Some 10) (Some "answer_2.pdf") Sample.handedIn
     = (Sample.handedIn,
        Fail 400 "You have already submitted answers for this exam").
Proof.
  assert (WF : wellFormed Sample.handedIn)
    by apply (serve_evolves (PostSubmission _ _ _ _ _)), sample_wellFormed.
  split; [exact WF|]. split; [reflexivity|].
  apply (submit_once Sample.handedIn 3 10 _ WF eq_refl).
Defined.

(** ** C10 and C7: the file endpoint *)

(** C10.  A reference that begins with [http] is answered by a redirect to
    that very string, with no collaborator called before it: no exam
    lookup, no validation of the reference, no check of the active flag.
    So no refusal of any code is possible for it, whatever follows the
    prefix and whatever the store and the bucket hold. *)
Theorem serveFile_http_redirects cast bucket fileId db :
  String.prefix "http" fileId = true ->
  serveFile cast bucket fileId db = (Redirect fileId, [])
  /\ forall code message,
       fst (serveFile cast bucket fileId db) <> Refused code message.
Proof.
  intros Hp. unfold serveFile. rewrite Hp. split; [reflexivity|].
  simpl. discriminate.
Qed.

Lemma serveFile_http_redirects_witness :
  String.prefix "http" "httpnot-a-url" = true
  /\ serveFile (fun _ => None) None "httpnot-a-url" Sample.cancelled
     = (Redirect "httpnot-a-url", []).
Proof.
  split; [reflexivity|].
  apply (serveFile_http_redirects (fun _ => None) None "httpnot-a-url"
           Sample.cancelled eq_refl).
Defined.




(** ** C8: the exam listing *)

Lemma insertNewestFirst_perm e l : Permutation (insertNewestFirst e l) (e :: l).
Proof.
  induction l as [|x l IH]; simpl; [reflexivity|].
  destruct (Exam.createdAt x <? Exam.createdAt e)%Z; [reflexivity|].
  rewrite IH. apply perm_swap.
Qed.

Lemma sortNewestFirst_perm l : Permutation (sortNewestFirst l) l.
Proof.
  induction l as [|x l IH]; simpl; [reflexivity|].
  rewrite insertNewestFirst_perm. constructor. exact IH.
Qed.

Lemma mapThrowing_total {A B} (f : A -> option B) (l : list A) :
  (forall x, In x l -> exists y, f x = Some y) ->
  exists ys, mapThrowing f l = Some ys
             /\ Forall2 (fun x y => f x = Some y) l ys.
Proof.
  induction l as [|x l IH]; simpl; intros H.
  - exists []. split; [reflexivity | constructor].
  - destruct (H x (or_introl eq_refl)) as [y Hy].
    destruct IH as (ys & Hys & HF); [intros z Hz; apply H; right; exact Hz|].
    exists (y :: ys). rewrite Hy, Hys. split; [reflexivity|].
    constructor; assumption.
Qed.

Lemma examJson_ids db l json :
  Forall2 (fun e j => examJson db e = Some j) l json ->
  map ExamJson.id json = map Exam._id l.
Proof.
  induction 1 as [|e j l json Hj _ IH]; simpl; [reflexivity|].
  rewrite IH. f_equal.
  unfold examJson in Hj. destruct (findOne _ _); [|discriminate].
  inversion Hj. reflexivity.
Qed.




(** ** C9: toggling the active flag *)

Lemma activeFlag_setActive i j b db :
  activeFlag i
    (with_exams (updateOne Exam._id j (Exam.set_isActive b) (exams db)) db)
  = if j =? i then option_map (fun _ => b) (activeFlag i db)
    else activeFlag i db.
Proof.
  unfold activeFlag, findOne. simpl. rewrite find_examById_updateOne.
  destruct (j =? i); [|reflexivity].
  destruct (find _ _); reflexivity.
Qed.

Lemma examOwnedBy_spec i t e :
  examOwnedBy i t e = true <-> Exam._id e = i /\ Exam.createdBy e = t.
Proof. unfold examOwnedBy. rewrite andb_true_iff, !Nat.eqb_eq. tauto. Qed.

(** On a well-formed store the exam a teacher owns under an id is the exam
    of that id. *)
Lemma owned_exam_is_the_exam db i t exam owned :
  wellFormed db ->
  findOne (examById i) (exams db) = Some exam ->
  findOne (examOwnedBy i t) (exams db) = Some owned ->
  owned = exam.
Proof.
  intros WF He Ho. apply find_some in He, Ho.
  destruct He as [Hin He], Ho as [Hino Ho].
  apply examOwnedBy_spec in Ho. unfold examById in He.
  apply Nat.eqb_eq in He.
  apply (NoDup_map_eq Exam._id (exams db)); auto; [apply WF | lia].
Qed.

Lemma isTeacher_role user db :
  succeeded (isTeacher user db) = true -> role user = "teacher".
Proof.
  unfold isTeacher. destruct (String.eqb_spec (role user) "teacher"); simpl.
  - auto.
  - discriminate.
Qed.

Lemma start_exams now s examId db :
  exams (fst (start now s examId db)) = exams db.
Proof. unfold start. keeps_exams. Qed.

Lemma getStatus_exams now s e db :
  exams (fst (getStatus now s e db)) = exams db.
Proof. unfold getStatus. keeps_exams. Qed.

Lemma updateTime_exams now s i t db :
  exams (fst (updateTime now s i t db)) = exams db.
Proof. unfold updateTime. keeps_exams. Qed.

Lemma complete_exams s i db :
  exams (fst (complete s i db)) = exams db.
Proof. unfold complete. keeps_exams. Qed.

Lemma submit_exams cloud now s examId file db :
  exams (fst (submit cloud now s examId file db)) = exams db.
Proof. unfold submit. keeps_exams. Qed.

Lemma guarded_exams {A B} (check : Result A) (h : DB -> DB * Result B) db :
  exams (fst (h db)) = exams db ->
  exams (fst (guarded check h db)) = exams db.
Proof. destruct check; simpl; auto. Qed.

(** C9, as stated, fails: teacher B, authenticated, asks to cancel exam E
    of teacher A and is answered 404, not 403. *)
Lemma cancel_by_other_teacher_is_not_found :
  isTeacher Sample.asTeacherB Sample.db0 = Ok 200 Sample.teacherB
  /\ findOne (examById 10) (exams Sample.db0) = Some Sample.examE
  /\ Exam.createdBy Sample.examE <> id Sample.asTeacherB
  /\ cancelRoute Sample.asTeacherB 10 Sample.db0
     = (Sample.db0,
        Fail 404 "Exam not found or you do not have permission to cancel it")
  /\ ~ exists message,
         snd (cancelRoute Sample.asTeacherB 10 Sample.db0)
         = Fail 403 message.
Proof.
  repeat split; try discriminate. intros [message H]. discriminate.
Qed.

(** C9, amended.  For an existing exam and a teacher who passes the
    teacher check and is not its creator, cancel and activate both answer
    404 and leave the store, and with it the exam's [isActive], as it is.
    The creator's cancel leaves the flag off and the creator's activate
    leaves it on.  No request changes the flag unless it is a cancel or
    an activate of that exam by a principal with the teacher role whose
    id is the creator's. *)
Theorem toggle_only_by_creator db user i exam :
  wellFormed db ->
  findOne (examById i) (exams db) = Some exam ->
  (succeeded (isTeacher user db) = true ->
   Exam.createdBy exam <> id user ->
   cancelRoute user i db
   = (db, Fail 404 "Exam not found or you do not have permission to cancel it")
   /\ activateRoute user i db
      = (db, Fail 404
               "Exam not found or you do not have permission to activate it"))
  /\ (succeeded (isTeacher user db) = true ->
      Exam.createdBy exam = id user ->
      activeFlag i (fst (cancelRoute user i db)) = Some false
      /\ activeFlag i (fst (activateRoute user i db)) = Some true)
  /\ forall r,
       activeFlag i (serve r db) <> Some (Exam.isActive exam) ->
       exists u, (r = PutCancel u i \/ r = PutActivate u i)
                 /\ id u = Exam.createdBy exam
                 /\ role u = "teacher".
Proof.
  intros WF He.
  assert (Hflag : activeFlag i db = Some (Exam.isActive exam))
    by (unfold activeFlag; rewrite He; reflexivity).
  split; [|split].
  - intros Hteacher Hother.
    assert (Hnone : findOne (examOwnedBy i (id user)) (exams db) = None).
    { destruct (findOne (examOwnedBy i (id user)) _) as [owned|] eqn:Ho;
        [|reflexivity].
      exfalso. apply Hother.
      rewrite <- (owned_exam_is_the_exam db i (id user) exam owned WF He Ho).
      apply find_some in Ho. destruct Ho as [_ Ho].
      apply examOwnedBy_spec in Ho. apply Ho. }
    unfold cancelRoute, activateRoute, guarded.
    destruct (isTeacher user db); [|discriminate].
    unfold cancel, activate. rewrite Hnone. split; reflexivity.
  - intros Hteacher Hmine.
    assert (Hown : findOne (examOwnedBy i (id user)) (exams db) = Some exam).
    { unfold findOne in *.
      destruct (find_decompose _ _ _ He) as (l1 & l2 & Hl & Pe & Hl1).
      rewrite Hl. apply find_compose.
      - apply examOwnedBy_spec. unfold examById in Pe.
        apply Nat.eqb_eq in Pe. auto.
      - intros x Hx. unfold examOwnedBy. specialize (Hl1 x Hx).
        unfold examById in Hl1. rewrite Hl1. reflexivity. }
    unfold cancelRoute, activateRoute, guarded.
    destruct (isTeacher user db); [|discriminate].
    unfold cancel, activate. rewrite Hown.
    destruct (Exam.isActive exam) eqn:Hact; simpl;
      rewrite ?activeFlag_setActive, ?Nat.eqb_refl, ?Hflag; auto.
  - intros r Hchanged.
    destruct r; simpl in Hchanged;
      try solve [exfalso; apply Hchanged; rewrite <- Hflag;
                 unfold activeFlag; f_equal; f_equal;
                 apply guarded_exams;
                 auto using start_exams, getStatus_exams, updateTime_exams,
                   complete_exams, submit_exams].
    + unfold cancelRoute, guarded in Hchanged.
      destruct (isTeacher user0 db) eqn:Ht; [|contradiction].
      assert (Hrole : role user0 = "teacher")
        by (apply (isTeacher_role user0 db); rewrite Ht; reflexivity).
      unfold cancel in Hchanged.
      destruct (findOne (examOwnedBy examId (id user0)) _) as [owned|] eqn:Ho;
        [|contradiction].
      destruct (negb (Exam.isActive owned)); [contradiction|].
      simpl in Hchanged. rewrite activeFlag_setActive in Hchanged.
      destruct (Nat.eqb_spec examId i) as [->|_]; [|contradiction].
      exists user0. split; [left; reflexivity|]. split; [|exact Hrole].
      rewrite <- (owned_exam_is_the_exam db i (id user0) exam owned WF He Ho).
      apply find_some in Ho. destruct Ho as [_ Ho].
      apply examOwnedBy_spec in Ho. symmetry. apply Ho.
    + unfold activateRoute, guarded in Hchanged.
      destruct (isTeacher user0 db) eqn:Ht; [|contradiction].
      assert (Hrole : role user0 = "teacher")
        by (apply (isTeacher_role user0 db); rewrite Ht; reflexivity).
      unfold activate in Hchanged.
      destruct (findOne (examOwnedBy examId (id user0)) _) as [owned|] eqn:Ho;
        [|contradiction].
      destruct (Exam.isActive owned); [contradiction|].
      simpl in Hchanged. rewrite activeFlag_setActive in Hchanged.
      destruct (Nat.eqb_spec examId i) as [->|_]; [|contradiction].
      exists user0. split; [right; reflexivity|]. split; [|exact Hrole].
      rewrite <- (owned_exam_is_the_exam db i (id user0) exam owned WF He Ho).
      apply find_some in Ho. destruct Ho as [_ Ho].
      apply examOwnedBy_spec in Ho. symmetry. apply Ho.
Qed.

Lemma toggle_only_by_creator_witness :
  wellFormed Sample.db0
  /\ findOne (examById 10) (exams Sample.db0) = Some Sample.examE
  /\ activateRoute Sample.asTeacherB 10 Sample.cancelled
     = (Sample.cancelled,
        Fail 404 "Exam not found or you do not have permission to activate it")
  /\ activeFlag 10 (fst (cancelRoute Sample.asTeacherA 10 Sample.db0))
     = Some false.
Proof.
  split; [exact sample_wellFormed|]. split; [reflexivity|].
  assert (WF : wellFormed Sample.cancelled)
    by apply (serve_evolves (PutCancel _ _)), sample_wellFormed.
  split.
  - destruct (toggle_only_by_creator Sample.cancelled Sample.asTeacherB 10 _
                WF eq_refl) as [H _].
    apply H; [reflexivity | simpl; discriminate].
  - destruct (toggle_only_by_creator Sample.db0 Sample.asTeacherA 10 _
                sample_wellFormed eq_refl) as (_ & H & _).
    apply H; reflexivity.
Defined.

(** * Further properties *)

(** ** Stores built through the API *)

Lemma serve_exams r db :
  exams (serve r db) = exams db
  \/ exists i b,
       exams (serve r db)
       = updateOne Exam._id i (Exam.set_isActive b) (exams db).
Proof.
  destruct r; simpl;
    try solve [left; apply guarded_exams;
               auto using start_exams, getStatus_exams, updateTime_exams,
                 complete_exams, submit_exams].
  - unfold cancelRoute, guarded, cancel. repeat branch; simpl; auto.
    right. eauto.
  - unfold activateRoute, guarded, activate. repeat branch; simpl; auto.
    right. eauto.
Qed.

Lemma serve_nextId r db : nextId db <= nextId (serve r db).
Proof. destruct r; simpl; through_routes; keeps_field. Qed.

Lemma serve_students r db : students (serve r db) = students db.
Proof. destruct r; simpl; through_routes; keeps_field. Qed.

(** What a request may add to the submissions: one document, for the
    requester, who passed the student check. *)
Lemma serve_submissions r db :
  submissions (serve r db) = submissions db
  \/ exists s,
       submissions (serve r db) = submissions db ++ [s]
       /\ Submission.studentId s = id (requester r)
       /\ succeeded (isStudent (requester r) db) = true.
Proof.
  destruct r; simpl; through_routes; repeat branch; simpl;
    try solve [left; reflexivity];
    match goal with
    | H : insertAttempt _ _ _ _ _ _ = _ |- _ =>
        inversion H; simpl; left; reflexivity
    | H : insertSubmission _ _ _ _ _ = _ |- _ =>
        inversion H; simpl; right; eexists; repeat split
    end.
Qed.

Lemma isStudent_known user db :
  succeeded (isStudent user db) = true ->
  findOne (userById (id user)) (students db) <> None.
Proof.
  unfold isStudent. destruct (negb _); [discriminate|].
  destruct (findOne _ _); [discriminate | discriminate].
Qed.

Lemma isTeacher_known user db :
  succeeded (isTeacher user db) = true ->
  findOne (userById (id user)) (teachers db) <> None.
Proof.
  unfold isTeacher. destruct (negb _); [discriminate|].
  destruct (findOne _ _); [discriminate | discriminate].
Qed.

Lemma serve_apiBuilt r db : apiBuilt db -> apiBuilt (serve r db).
Proof.
  intros [WF Hfresh Hlegacy Hknown].
  pose proof (serve_nextId r db) as Hn.
  constructor.
  - apply serve_evolves. exact WF.
  - intros e He. destruct (serve_exams r db) as [E|(i & b & E)];
      rewrite E in He.
    + specialize (Hfresh e He). lia.
    + apply updateOne_In in He. destruct He as [He|(y & Hy & ->)].
      * specialize (Hfresh e He). lia.
      * specialize (Hfresh y Hy). simpl. lia.
  - intros e He. destruct (serve_exams r db) as [E|(i & b & E)];
      rewrite E in He; auto.
    apply updateOne_In in He. destruct He as [He|(y & Hy & ->)]; auto.
    simpl. auto.
  - intros s Hs. rewrite serve_students.
    destruct (serve_submissions r db) as [E|(x & E & Hx & Hok)];
      rewrite E in Hs; auto.
    apply in_app_iff in Hs. destruct Hs as [Hs|[<-|[]]]; auto.
    rewrite Hx. apply isStudent_known. exact Hok.
Qed.

Lemma find_app_some {A} (p : A -> bool) (l l' : list A) :
  find p l <> None -> find p (l ++ l') <> None.
Proof.
  induction l as [|x l IH]; simpl; [congruence|].
  destruct (p x); auto.
Qed.

Lemma createExam_apiBuilt user now title duration file db :
  apiBuilt db ->
  apiBuilt (fst (createExamRoute user now title duration file db)).
Proof.
  intros B. unfold createExamRoute, guarded.
  destruct (isTeacher user db) eqn:Ht; [|exact B].
  assert (Hteacher : findOne (userById (id user)) (teachers db) <> None)
    by (apply isTeacher_known; rewrite Ht; reflexivity).
  unfold createExam.
  destruct duration as [d|]; [|exact B].
  destruct (negb _) eqn:Hvalid; [exact B|].
  destruct file as [f|]; [|exact B].
  apply negb_false_iff in Hvalid.
  apply andb_true_iff in Hvalid. destruct Hvalid as [Hvalid Hmax].
  apply andb_true_iff in Hvalid. destruct Hvalid as [_ Hmin].
  apply Z.leb_le in Hmin, Hmax.
  destruct B as [WF Hfresh Hlegacy Hknown]. simpl.
  constructor; [constructor|..]; simpl.
  - apply WF.
  - intros a Ha. pose proof (wf_attempt_fresh _ WF a Ha). lia.
  - apply WF.
  - rewrite map_app. simpl. apply NoDup_snoc; [apply WF|].
    intros Hin. apply in_map_iff in Hin. destruct Hin as (e & He & Hin).
    specialize (Hfresh e Hin). lia.
  - intros e He. apply in_app_iff in He. destruct He as [He|[<-|[]]].
    + apply (wf_durations _ WF e He).
    + simpl. lia.
  - intros e He. apply in_app_iff in He. destruct He as [He|[<-|[]]].
    + apply (wf_creators _ WF e He).
    + exact Hteacher.
  - apply WF.
  - intros a Ha. unfold examExists, findOne. simpl.
    apply find_app_some. apply (wf_attempt_exam _ WF a Ha).
  - intros s Hs. unfold examExists, findOne. simpl.
    apply find_app_some. apply (wf_submission_exam _ WF s Hs).
  - apply WF.
  - intros e He. apply in_app_iff in He. destruct He as [He|[<-|[]]].
    + specialize (Hfresh e He). lia.
    + simpl. lia.
  - intros e He. apply in_app_iff in He. destruct He as [He|[<-|[]]]; auto.
  - exact Hknown.
Qed.

Lemma perform_apiBuilt a db : apiBuilt db -> apiBuilt (perform a db).
Proof.
  destruct a; simpl; auto using serve_apiBuilt, createExam_apiBuilt.
Qed.

Lemma performAll_apiBuilt acts db :
  apiBuilt db -> apiBuilt (performAll acts db).
Proof.
  revert db. induction acts as [|a acts IH]; intros db B; simpl; auto.
  apply IH, perform_apiBuilt, B.
Qed.

Lemma emptyStore_apiBuilt ss ts n : apiBuilt (emptyStore ss ts n).
Proof.
  constructor; simpl; try (intros ? []).
  apply fresh_store_wellFormed; [constructor | intros ? [] | intros ? []].
Qed.

Lemma filter_at_most_one {A B} (f : A -> B) (p : A -> bool) (b : B) l :
  (forall x, p x = true <-> f x = b) ->
  NoDup (map f l) ->
  length (filter p l) <= 1.
Proof.
  intros Hp ND. destruct (find p l) as [a|] eqn:Hfind.
  - rewrite (filter_found f p b l a Hp ND Hfind). simpl. lia.
  - assert (E : filter p l = []).
    { pose proof (proj1 (find_absent p l) Hfind) as Habs. clear -Habs.
      induction l as [|x l IH]; simpl; [reflexivity|].
      rewrite (Habs x) by (left; reflexivity). apply IH.
      intros y Hy. apply Habs. right. exact Hy. }
    rewrite E. simpl. lia.
Qed.

(** X1.  In every store the routes build from an empty one (exam creation
    included; any principals, inputs and order): a pair of student and
    exam has at most one attempt and at most one submission; no attempt
    has negative time left; the exam of every attempt and submission
    exists and the student of every submission is stored; every exam
    lasts 1 to 300 minutes, carries no legacy URL and was created by a
    stored teacher; and ids are unique among exams and among attempts. *)
Theorem api_store_invariants ss ts n acts :
  let db := performAll acts (emptyStore ss ts n) in
  (forall s e, length (attemptsOf s e db) <= 1)
  /\ (forall s e, length (submissionsOf s e db) <= 1)
  /\ (forall a, In a (attempts db) ->
        (0 <= ExamAttempt.timeRemaining a)%Z
        /\ examExists (ExamAttempt.examId a) db)
  /\ (forall x, In x (submissions db) ->
        examExists (Submission.examId x) db
        /\ findOne (userById (Submission.studentId x)) (students db) <> None)
  /\ (forall e, In e (exams db) ->
        (1 <= Exam.duration e <= 300)%Z
        /\ Exam.examPdfUrl e = None
        /\ findOne (userById (Exam.createdBy e)) (teachers db) <> None)
  /\ NoDup (map Exam._id (exams db))
  /\ NoDup (map ExamAttempt._id (attempts db)).
Proof.
  intros db.
  pose proof (performAll_apiBuilt acts _ (emptyStore_apiBuilt ss ts n)) as B.
  fold db in B. destruct B as [WF Hfresh Hlegacy Hknown].
  split; [|split; [|split; [|split; [|split; [|split]]]]].
  - intros s e. apply (filter_at_most_one attemptPair _ (s, e)).
    + intros x. apply attemptOf_pair.
    + apply WF.
  - intros s e. apply (filter_at_most_one submissionPair _ (s, e)).
    + intros x. apply submissionOf_pair.
    + apply WF.
  - intros a Ha. split; [apply (wf_time_left _ WF a Ha)|].
    apply (wf_attempt_exam _ WF a Ha).
  - intros x Hx. split; [apply (wf_submission_exam _ WF x Hx)|]. auto.
  - intros e He. split; [apply (wf_durations _ WF e He)|]. split; auto.
    apply (wf_creators _ WF e He).
  - apply WF.
  - apply WF.
Qed.

(** ** What requests leave alone *)

Lemma updateOne_keys_at {A} (key : A -> ObjectId) i f (l : list A) :
  (forall x, key x = i -> key (f x) = i) ->
  map key (updateOne key i f l) = map key l.
Proof.
  intros Hf. induction l as [|x l IH]; simpl; [reflexivity|].
  destruct (Nat.eqb_spec (key x) i) as [E|_]; simpl.
  - rewrite (Hf x E), E. reflexivity.
  - rewrite IH. reflexivity.
Qed.

Lemma saveAttempt_ids a db :
  map ExamAttempt._id (attempts (saveAttempt a db))
  = map ExamAttempt._id (attempts db).
Proof. apply updateOne_keys_at. reflexivity. Qed.

Lemma serve_attempt_ids r db :
  exists more,
    map ExamAttempt._id (attempts (serve r db))
    = map ExamAttempt._id (attempts db) ++ more.
Proof.
  destruct r; simpl; through_routes; repeat branch; cbn [fst];
    try solve [exists []; rewrite app_nil_r;
               rewrite ?saveAttempt_ids; reflexivity];
    match goal with
    | H : insertAttempt _ _ _ _ _ _ = _ |- _ =>
        inversion H; simpl; rewrite map_app; eexists; reflexivity
    | H : insertSubmission _ _ _ _ _ = _ |- _ =>
        inversion H; simpl; exists []; rewrite app_nil_r; reflexivity
    end.
Qed.

Lemma serve_exam_ids r db :
  map Exam._id (exams (serve r db)) = map Exam._id (exams db).
Proof.
  destruct (serve_exams r db) as [E|(i & b & E)]; rewrite E;
    [reflexivity|].
  apply updateOne_keys. reflexivity.
Qed.

Lemma createExam_others user now title duration file db :
  let db' := fst (createExamRoute user now title duration file db) in
  attempts db' = attempts db
  /\ submissions db' = submissions db
  /\ exists more, exams db' = exams db ++ more.
Proof.
  unfold createExamRoute, guarded, createExam.
  repeat branch; simpl; repeat split;
    try solve [exists []; rewrite app_nil_r; reflexivity];
    match goal with
    | H : insertExam _ _ _ _ _ _ = _ |- _ =>
        inversion H; simpl; try reflexivity; eexists; reflexivity
    end.
Qed.

(** X2.  No route deletes or reorders anything: after any actions the
    submissions present before are still there, unchanged and in place,
    followed by the new ones; and the same holds of the ids of the exams
    and of the attempts. *)
Theorem nothing_is_deleted acts db :
  let later := performAll acts db in
  exists newSubmissions newExams newAttempts,
    submissions later = submissions db ++ newSubmissions
    /\ map Exam._id (exams later) = map Exam._id (exams db) ++ newExams
    /\ map ExamAttempt._id (attempts later)
       = map ExamAttempt._id (attempts db) ++ newAttempts.
Proof.
  revert db. induction acts as [|a acts IH]; intros db; simpl.
  - exists [], [], []. rewrite !app_nil_r. auto.
  - destruct (IH (perform a db)) as (ns & ne & na & Hs & He & Ha).
    assert (Step : exists ns0 ne0 na0,
              submissions (perform a db) = submissions db ++ ns0
              /\ map Exam._id (exams (perform a db))
                 = map Exam._id (exams db) ++ ne0
              /\ map ExamAttempt._id (attempts (perform a db))
                 = map ExamAttempt._id (attempts db) ++ na0).
    { destruct a as [r|user now title duration file]; simpl.
      - destruct (serve_attempt_ids r db) as [na0 Hna].
        destruct (serve_submissions r db) as [E|(x & E & _)].
        + exists [], [], na0. rewrite E, serve_exam_ids, !app_nil_r. auto.
        + exists [x], [], na0. rewrite E, serve_exam_ids, !app_nil_r. auto.
      - destruct (createExam_others user now title duration file db)
          as (Ea & Es & more & Ee).
        exists [], (map Exam._id more), [].
        rewrite Ea, Es, Ee, map_app, !app_nil_r. auto. }
    destruct Step as (ns0 & ne0 & na0 & Hs0 & He0 & Ha0).
    exists (ns0 ++ ns), (ne0 ++ ne), (na0 ++ na).
    rewrite Hs, He, Ha, Hs0, He0, Ha0, !app_assoc. auto.
Qed.

Lemma isStudent_role user db :
  succeeded (isStudent user db) = true -> role user = "student".
Proof.
  unfold isStudent. destruct (String.eqb_spec (role user) "student"); simpl.
  - auto.
  - discriminate.
Qed.

(** The attempts of other students survive a handler that acts for
    student [s]. *)
Ltac others_survive :=
  repeat branch; cbn [fst]; try assumption;
  match goal with
  | H : insertAttempt _ _ _ _ _ _ = _ |- _ =>
      inversion H; simpl; apply in_or_app; left; assumption
  | H : insertSubmission _ _ _ _ _ = _ |- _ =>
      inversion H; simpl; assumption
  | H : findOne ?p (attempts _) = Some ?found |- In _ (attempts (saveAttempt _ _)) =>
      apply (saveAttempt_others p _ found); auto;
      let E := fresh in
      intros E; subst;
      apply find_some in H; destruct H as [_ H];
      first [ apply attemptOf_pair in H; inversion H; congruence
            | apply attemptOwnedBy_spec in H; destruct H; congruence ]
  end.

(** X3.  A request changes no attempt of anybody else: an attempt stays in
    the store exactly as it is unless the request comes from a principal
    with the student role whose id is the attempt's [studentId]. *)
Theorem attempts_change_only_by_owner act db a :
  wellFormed db ->
  In a (attempts db) ->
  id (actor act) <> ExamAttempt.studentId a \/ role (actor act) <> "student" ->
  In a (attempts (perform act db)).
Proof.
  intros WF Hin Hother.
  destruct act as [r|user now title duration file]; simpl.
  - assert (Hid : succeeded (isStudent (requester r) db) = true ->
                  ExamAttempt.studentId a <> id (requester r)).
    { intros Hs. apply isStudent_role in Hs. simpl in Hother.
      destruct Hother as [H|H]; [congruence | contradiction]. }
    destruct r; simpl in *; unfold startRoute, getStatusRoute,
      updateTimeRoute, completeRoute, submitRoute, cancelRoute,
      activateRoute, guarded.
    1-5: destruct (isStudent user db) eqn:Hs; [|assumption];
         specialize (Hid eq_refl).
    6-7: destruct (isTeacher user db); [|assumption].
    all: unfold start, getStatus, updateTime, complete, submit, cancel,
           activate; others_survive.
  - destruct (createExam_others user now title duration file db)
      as (Ea & _). rewrite Ea. exact Hin.
Qed.

Lemma scenario_apiBuilt : apiBuilt Scenario.sat.
Proof.
  apply performAll_apiBuilt, performAll_apiBuilt, emptyStore_apiBuilt.
Qed.

Lemma attempts_change_only_by_owner_witness :
  wellFormed Scenario.sat
  /\ In (ExamAttempt.mk 1001 3 1000 1000 1000 2700 ExamAttempt.completed true)
        (attempts Scenario.sat)
  /\ In (ExamAttempt.mk 1001 3 1000 1000 1000 2700 ExamAttempt.completed true)
        (attempts (perform (Write (PutTime (mkPrincipal 4 "student") 9000
                                           1001 0))
                           Scenario.sat)).
Proof.
  assert (WF : wellFormed Scenario.sat)
    by apply (built_wellFormed _ scenario_apiBuilt).
  assert (Hin : In (ExamAttempt.mk 1001 3 1000 1000 1000 2700
                                   ExamAttempt.completed true)
                   (attempts Scenario.sat)) by (left; reflexivity).
  split; [exact WF|]. split; [exact Hin|].
  apply (attempts_change_only_by_owner _ _ _ WF Hin).
  left. simpl. discriminate.
Defined.

Lemma allowed_type_spec mimetype :
  existsb (String.eqb mimetype) allowedTypes = true
  <-> In mimetype allowedTypes.
Proof.
  rewrite existsb_exists. split.
  - intros (x & Hx & E). apply String.eqb_eq in E. subst. exact Hx.
  - intros H. exists mimetype. split; [exact H | apply String.eqb_refl].
Qed.

Lemma createExam_refused now t title duration file db :
  succeeded (snd (createExam now t title duration file db)) = false ->
  fst (createExam now t title duration file db) = db.
Proof.
  unfold createExam. repeat branch; simpl; intros Hf;
    try reflexivity; discriminate.
Qed.

Lemma submit_refused cloud now s examId file db :
  findOne (userById s) (students db) <> None ->
  succeeded (snd (submit cloud now s examId file db)) = false ->
  fst (submit cloud now s examId file db) = db.
Proof.
  intros Hknown. unfold submit, insertSubmission. cbv zeta.
  repeat branch; simpl; intros Hf; try reflexivity; try discriminate.
  exfalso. apply Hknown. assumption.
Qed.

Lemma single_stored {A} fileFilter (place : A) file :
  fileFilter (part_mimetype file) = None ->
  part_tooLarge file = false ->
  single fileFilter place (Some file) = Stored place.
Proof. intros Hf Hs. unfold single. rewrite Hf, Hs. reflexivity. Qed.

(** X4.  A request that is refused changes no document: whenever a route
    answers with [success: false], whatever the reason, the collections
    are exactly as before, also for the two POST routes taken with their
    upload in front.  For submissions this rests on the student check in
    front of the handler: the one failure after the insert, a submitter
    who cannot be populated, cannot happen behind it.  The files are
    another matter: once the role check has let the request through, a
    file of an allowed type within the size limit is stored before the
    handler validates, in GridFS or under uploads/, and is still there
    whatever the answer; only a request the role check turns away leaves
    the files as they were. *)
Theorem refused_requests_change_no_document :
  (forall act db, accepted act db = false -> perform act db = db)
  /\ (forall user now part fileId title duration db files,
        let '(db', files', r) :=
          postExam user now part fileId title duration db files in
        (succeeded r = false -> db' = db)
        /\ (succeeded (isTeacher user db) = false -> files' = files)
        /\ (succeeded (isTeacher user db) = true ->
            forall file,
              part = Some file ->
              In (part_mimetype file) allowedTypes ->
              part_tooLarge file = false ->
              files' = mkFiles (gridFiles files ++ [fileId]) (uploads files)))
  /\ (forall cloud user now part path examId db files,
        let '(db', files', r) :=
          postSubmission cloud user now part path examId db files in
        (succeeded r = false -> db' = db)
        /\ (succeeded (isStudent user db) = false -> files' = files)
        /\ (succeeded (isStudent user db) = true ->
            forall file,
              part = Some file ->
              In (part_mimetype file) allowedTypes ->
              part_tooLarge file = false ->
              files' = mkFiles (gridFiles files) (uploads files ++ [path]))).
Proof.
  split; [|split].
  - intros act db.
    destruct act as [r|user now title duration file]; simpl.
    + destruct r; simpl; through_routes;
        first [ destruct (isStudent user db) eqn:Hs
              | destruct (isTeacher user db) eqn:Ht ];
        simpl; try reflexivity;
        repeat branch; simpl; intros Hf; try reflexivity; try discriminate.
      all: exfalso; apply (isStudent_known user db);
        [rewrite Hs; reflexivity | assumption].
    + unfold createExamRoute, guarded, createExam.
      repeat branch; simpl; intros Hf; try reflexivity; discriminate.
  - intros user now part fileId title duration db files. unfold postExam.
    destruct (isTeacher user db) eqn:Ht; simpl.
    2: { split; [reflexivity|]. split; [reflexivity | discriminate]. }
    destruct (single examFileFilter fileId part) as [|stored|err] eqn:Hup.
    + pose proof (createExam_refused now (id user) title duration None db)
        as Hr.
      destruct (createExam now (id user) title duration None db) as [db' r].
      split; [exact Hr|]. split; [discriminate|].
      intros _ file -> Hin Hsize.
      rewrite single_stored in Hup; [discriminate| |exact Hsize].
      unfold examFileFilter.
      rewrite (proj2 (allowed_type_spec _) Hin). reflexivity.
    + pose proof (createExam_refused now (id user) title duration
                    (Some stored) db) as Hr.
      destruct (createExam now (id user) title duration (Some stored) db)
        as [db' r].
      split; [exact Hr|]. split; [discriminate|].
      intros _ file -> Hin Hsize.
      rewrite single_stored in Hup; [inversion Hup; reflexivity| |exact Hsize].
      unfold examFileFilter.
      rewrite (proj2 (allowed_type_spec _) Hin). reflexivity.
    + split; [reflexivity|]. split; [discriminate|].
      intros _ file -> Hin Hsize.
      rewrite single_stored in Hup; [discriminate| |exact Hsize].
      unfold examFileFilter.
      rewrite (proj2 (allowed_type_spec _) Hin). reflexivity.
  - intros cloud user now part path examId db files. unfold postSubmission.
    destruct (isStudent user db) eqn:Hs; simpl.
    2: { split; [reflexivity|]. split; [reflexivity | discriminate]. }
    assert (Hknown : findOne (userById (id user)) (students db) <> None)
      by (apply isStudent_known; rewrite Hs; reflexivity).
    destruct (single answerFileFilter path part) as [|stored|err] eqn:Hup.
    + pose proof (submit_refused cloud now (id user) examId None db Hknown)
        as Hr.
      destruct (submit cloud now (id user) examId None db) as [db' r].
      split; [exact Hr|]. split; [discriminate|].
      intros _ file -> Hin Hsize.
      rewrite single_stored in Hup; [discriminate| |exact Hsize].
      unfold answerFileFilter.
      rewrite (proj2 (allowed_type_spec _) Hin). reflexivity.
    + pose proof (submit_refused cloud now (id user) examId (Some stored) db
                    Hknown) as Hr.
      destruct (submit cloud now (id user) examId (Some stored) db)
        as [db' r].
      split; [exact Hr|]. split; [discriminate|].
      intros _ file -> Hin Hsize.
      rewrite single_stored in Hup; [inversion Hup; reflexivity| |exact Hsize].
      unfold answerFileFilter.
      rewrite (proj2 (allowed_type_spec _) Hin). reflexivity.
    + split; [reflexivity|]. split; [discriminate|].
      intros _ file -> Hin Hsize.
      rewrite single_stored in Hup; [discriminate| |exact Hsize].
      unfold answerFileFilter.
      rewrite (proj2 (allowed_type_spec _) Hin). reflexivity.
Qed.

Lemma refused_requests_change_no_document_witness :
  accepted (Write (PostStart Sample.asStudentS 9000 (Some 1000)))
           Scenario.sat = false
  /\ perform (Write (PostStart Sample.asStudentS 9000 (Some 1000)))
             Scenario.sat = Scenario.sat
  /\ postExam Sample.asTeacherA 0 (Some (mkPart "application/pdf" false)) 7
              "Geometry" (Some 0%Z) Scenario.users (mkFiles [] [])
     = (Scenario.users, mkFiles [7] [], Fail 400 "Validation failed")
  /\ postSubmission Sample.cloud Sample.asStudentS 3000
                    (Some (mkPart "image/png" false)) "uploads/answer_3000.png"
                    (Some 1000) Scenario.sat (mkFiles [7] [])
     = (Scenario.sat, mkFiles [7] ["uploads/answer_3000.png"],
        Fail 400 "You have already submitted answers for this exam")
  /\ postExam Sample.asStudentS 0 (Some (mkPart "application/pdf" false)) 7
              "Geometry" (Some 45%Z) Scenario.users (mkFiles [] [])
     = (Scenario.users, mkFiles [] [],
        Fail 403 "Access denied. Teacher role required.").
Proof.
  split; [reflexivity|].
  split.
  { apply (proj1 refused_requests_change_no_document). reflexivity. }
  repeat split.
Defined.

(** ** The attempt timer across calls *)

(** X5.  A first [start] on an exam creates the attempt with the whole
    duration in seconds, between 60 and 18000; a status read at any later
    time then reports that total less the whole seconds since the start,
    never below 0, and reports [expired] exactly when nothing is left. *)
Theorem fresh_attempt_counts_down db now later s e exam :
  wellFormed db ->
  findOne (examById e) (exams db) = Some exam ->
  findOne (submissionOf s e) (submissions db) = None ->
  findOne (attemptOf s e) (attempts db) = None ->
  let total := (Exam.duration exam * 60)%Z in
  let elapsed := ((later - now) / 1000)%Z in
  let '(db1, r1) := start now s (Some e) db in
  r1 = Ok 200 (Json.mkStarted (nextId db) e total ExamAttempt.started now now)
  /\ (60 <= total <= 18000)%Z
  /\ snd (getStatus later s e db1)
     = Ok 200 (Some (Json.mkCurrent (nextId db) e
                       (Z.max 0 (total - elapsed))
                       (if (total - elapsed <=? 0)%Z
                        then ExamAttempt.expired else ExamAttempt.started)
                       now now false)).
Proof.
  intros WF He Hs Ha total elapsed.
  unfold start. rewrite He, Hs, Ha.
  pose proof (findOne_inserted now s e total ExamAttempt.started db Ha)
    as Hfound.
  simpl in Hfound |- *.
  split; [reflexivity|]. split.
  - apply find_some in He. destruct He as [He _].
    pose proof (wf_durations _ WF exam He). unfold total. lia.
  - match goal with |- snd (getStatus _ _ _ ?d) = _ =>
      assert (Hget := getStatus_found later s e d _ Hfound) end.
    rewrite Hget. cbv zeta. simpl. fold total. fold elapsed.
    assert (Hb : (Z.max 0 (total - elapsed) <=? 0)%Z
                 = (total - elapsed <=? 0)%Z).
    { destruct (Z.leb_spec (total - elapsed) 0), 
               (Z.leb_spec (Z.max 0 (total - elapsed)) 0); auto; lia. }
    rewrite Hb. destruct (total - elapsed <=? 0)%Z; reflexivity.
Qed.

Lemma fresh_attempt_counts_down_witness :
  wellFormed Scenario.created
  /\ let total := (45 * 60)%Z in
     let elapsed := ((61000 - 1000) / 1000)%Z in
     let '(db1, r1) := start 1000 3 (Some 1000) Scenario.created in
     r1 = Ok 200 (Json.mkStarted 1001 1000 total ExamAttempt.started
                                 1000 1000)
     /\ (60 <= total <= 18000)%Z
     /\ snd (getStatus 61000 3 1000 db1)
        = Ok 200 (Some (Json.mkCurrent 1001 1000
                          (Z.max 0 (total - elapsed))
                          (if (total - elapsed <=? 0)%Z
                           then ExamAttempt.expired else ExamAttempt.started)
                          1000 1000 false)).
Proof.
  assert (WF : wellFormed Scenario.created)
    by apply built_wellFormed, performAll_apiBuilt, emptyStore_apiBuilt.
  split; [exact WF|].
  exact (fresh_attempt_counts_down Scenario.created 1000 61000 3 1000
           (Exam.mk 1000 "Geometry" (Some 7) None 45 1 true 0)
           WF eq_refl eq_refl eq_refl).
Defined.

(** X6.  Starting again on an attempt that ran out gives no time back: once
    a status read has expired the attempt, [start] resumes it with status
    [started] and 0 seconds, and the next status read expires it again. *)
Theorem expired_attempt_resumes_without_time db now1 now2 now3 s e a :
  wellFormed db ->
  examExists e db ->
  findOne (submissionOf s e) (submissions db) = None ->
  findOne (attemptOf s e) (attempts db) = Some a ->
  ExamAttempt.isCompleted a = false ->
  ExamAttempt.status a <> ExamAttempt.completed ->
  (ExamAttempt.timeRemaining a
   - (now1 - ExamAttempt.startedAt a) / 1000 <= 0)%Z ->
  (now1 <= now3)%Z ->
  let db1 := fst (getStatus now1 s e db) in
  let '(db2, r2) := start now2 s (Some e) db1 in
  r2 = Ok 200 (Json.mkStarted (ExamAttempt._id a) e 0 ExamAttempt.started
                              (ExamAttempt.startedAt a) now2)
  /\ snd (getStatus now3 s e db2)
     = Ok 200 (Some (Json.mkCurrent (ExamAttempt._id a) e 0
                       ExamAttempt.expired (ExamAttempt.startedAt a) now2
                       false)).
Proof.
  intros WF Hexam Hs Ha Hc Hst Hout Hnow db1.
  destruct (findOne (examById e) (exams db)) as [exam|] eqn:He;
    [|contradiction Hexam].
  destruct (find_decompose _ _ _ Ha) as (_ & _ & _ & Pa & _).
  pose proof Pa as Pe. apply attemptOf_pair in Pe.
  unfold attemptPair in Pe. injection Pe as Hsid Heid.
  pose proof (wf_time_left _ WF a (proj1 (find_some _ _ Ha))) as Htr.
  set (a1 := ExamAttempt.set_timeRemaining 0
               (ExamAttempt.set_status ExamAttempt.expired a)).
  assert (E1 : db1 = saveAttempt a1 db).
  { unfold db1. rewrite (getStatus_found _ _ _ _ _ Ha). cbv zeta.
    replace (Z.max 0 _ <=? 0)%Z with true by (symmetry; apply Z.leb_le; lia).
    destruct (ExamAttempt.status_eqb _ _) eqn:Eq;
      [apply status_eqb_eq in Eq; contradiction|].
    reflexivity. }
  assert (F1 : findOne (attemptOf s e) (attempts db1) = Some a1)
    by (rewrite E1; apply (findOne_saved _ db a); auto).
  assert (WF1 : wellFormed db1).
  { rewrite E1. apply (saveAttempt_evolves (attemptOf s e) db a a1); auto.
    repeat split; auto. simpl. lia. }
  assert (He1 : findOne (examById e) (exams db1) = Some exam)
    by (rewrite E1; exact He).
  assert (Hs1 : findOne (submissionOf s e) (submissions db1) = None)
    by (rewrite E1; exact Hs).
  destruct (start_resume now2 s e db1 exam a1 WF1 He1 Hs1 F1 Hc)
    as [Hstart F2].
  rewrite Hstart. split.
  - unfold startedJson. simpl. rewrite Heid. reflexivity.
  - rewrite (getStatus_found _ _ _ _ _ F2). cbv zeta. simpl.
    assert (Hel : (0 <= (now3 - ExamAttempt.startedAt a) / 1000)%Z).
    { apply elapsed_nonneg.
      assert (H0 : (0 <= (now1 - ExamAttempt.startedAt a) / 1000)%Z) by lia.
      apply (proj1 (elapsed_nonneg _ _)) in H0. lia. }
    replace (Z.max 0 (- ((now3 - ExamAttempt.startedAt a) / 1000)))
      with 0%Z by lia.
    simpl. rewrite Heid, Hc. reflexivity.
Qed.

Lemma expired_attempt_resumes_without_time_witness :
  wellFormed Sample.started
  /\ let db1 := fst (getStatus 3700000 3 10 Sample.started) in
     let '(db2, r2) := start 3800000 3 (Some 10) db1 in
     r2 = Ok 200 (Json.mkStarted 100 10 0 ExamAttempt.started 0 3800000)
     /\ snd (getStatus 3900000 3 10 db2)
        = Ok 200 (Some (Json.mkCurrent 100 10 0 ExamAttempt.expired 0
                          3800000 false)).
Proof.
  split; [exact sample_started_wellFormed|].
  apply (expired_attempt_resumes_without_time Sample.started
           3700000 3800000 3900000 3 10
           (ExamAttempt.mk 100 3 10 0 0 3600 ExamAttempt.started false)
           sample_started_wellFormed).
  - simpl. discriminate.
  - reflexivity.
  - reflexivity.
  - reflexivity.
  - simpl. discriminate.
  - vm_compute. discriminate.
  - vm_compute. discriminate.
Defined.

(** X7.  Completing is idempotent: a second [complete] of the same attempt
    by its owner succeeds again and leaves the store as the first one
    left it. *)
Theorem complete_twice db s i a :
  wellFormed db ->
  findOne (attemptOwnedBy i s) (attempts db) = Some a ->
  complete s i (fst (complete s i db)) = complete s i db.
Proof.
  intros WF Ha.
  destruct (find_decompose _ _ _ Ha) as (_ & _ & _ & Pa & _).
  set (a' := ExamAttempt.set_isCompleted true
               (ExamAttempt.set_status ExamAttempt.completed a)).
  assert (E : complete s i db
              = (saveAttempt a' db, Ok 200 "Exam attempt marked as completed"))
    by (unfold complete; rewrite Ha; reflexivity).
  assert (F : findOne (attemptOwnedBy i s) (attempts (saveAttempt a' db))
              = Some a')
    by (apply (findOne_saved _ db a); auto).
  assert (WF' : wellFormed (saveAttempt a' db)).
  { apply (saveAttempt_evolves (attemptOwnedBy i s) db a a'); auto.
    repeat split; auto. }
  rewrite E. simpl fst. unfold complete at 1. rewrite F.
  change (ExamAttempt.set_isCompleted true
            (ExamAttempt.set_status ExamAttempt.completed a')) with a'.
  rewrite (saveAttempt_same _ _ _ WF' F). reflexivity.
Qed.

Lemma complete_twice_witness :
  wellFormed Sample.started
  /\ complete 3 100 (fst (complete 3 100 Sample.started))
     = (Sample.finished, Ok 200 "Exam attempt marked as completed").
Proof.
  split; [exact sample_started_wellFormed|].
  rewrite (complete_twice Sample.started 3 100 _
             sample_started_wellFormed eq_refl).
  reflexivity.
Defined.

(** ** Cancelling, activating and what the exam routes show *)

Lemma owned_exam_at db i t exam b :
  wellFormed db ->
  findOne (examOwnedBy i t) (exams db) = Some exam ->
  exists l1 l2,
    exams db = l1 ++ exam :: l2
    /\ updateOne Exam._id i (Exam.set_isActive b) (exams db)
       = l1 ++ Exam.set_isActive b exam :: l2
    /\ forall x, In x l1 -> examOwnedBy i t x = false.
Proof.
  intros WF Hfind. unfold findOne in Hfind.
  destruct (find_decompose _ _ _ Hfind) as (l1 & l2 & Hl & Pe & Hl1).
  exists l1, l2. split; [exact Hl|]. split; [|exact Hl1].
  apply examOwnedBy_spec in Pe. destruct Pe as [Hi _].
  rewrite Hl. apply updateOne_at; [exact Hi|].
  rewrite <- Hl. apply WF.
Qed.

Lemma with_exams_same db : with_exams (exams db) db = db.
Proof. destruct db; reflexivity. Qed.

Lemma set_isActive_back e b :
  Exam.set_isActive (Exam.isActive e) (Exam.set_isActive b e) = e.
Proof. destruct e; reflexivity. Qed.

(** Switching the flag of an owned exam and back restores the store. *)
Lemma toggle_back db t i exam :
  wellFormed db ->
  findOne (examOwnedBy i t) (exams db) = Some exam ->
  let b := Exam.isActive exam in
  let db' := with_exams
               (updateOne Exam._id i (Exam.set_isActive (negb b)) (exams db))
               db in
  findOne (examOwnedBy i t) (exams db')
  = Some (Exam.set_isActive (negb b) exam)
  /\ with_exams (updateOne Exam._id i (Exam.set_isActive b) (exams db')) db'
     = db.
Proof.
  intros WF Hfind b db'.
  destruct (owned_exam_at db i t exam (negb b) WF Hfind)
    as (l1 & l2 & Hl & Hl' & Hl1).
  pose proof (proj1 (find_some _ _ Hfind)) as Hin.
  pose proof (proj2 (find_some _ _ Hfind)) as Pe.
  assert (F : findOne (examOwnedBy i t) (exams db')
              = Some (Exam.set_isActive (negb b) exam)).
  { unfold db'. simpl. rewrite Hl'. apply find_compose; [exact Pe | exact Hl1]. }
  split; [exact F|].
  assert (Hsame : updateOne Exam._id i (Exam.set_isActive b) (exams db')
                  = exams db).
  { unfold db'. simpl. rewrite Hl'.
    apply examOwnedBy_spec in Pe. destruct Pe as [Hi _].
    rewrite (updateOne_at Exam._id i).
    - replace (Exam.set_isActive b (Exam.set_isActive (negb b) exam))
        with exam by (unfold b; symmetry; apply set_isActive_back).
      symmetry. exact Hl.
    - exact Hi.
    - pose proof (wf_exam_ids _ WF) as ND. rewrite Hl in ND.
      rewrite map_app in *. exact ND. }
  rewrite Hsame. unfold db'. destruct db; reflexivity.
Qed.

(** X8.  Cancelling and activating undo each other: after a cancel that
    succeeded, the same teacher's activate succeeds and the store is back
    exactly as it was, and likewise after an activate that succeeded. *)
Theorem cancel_and_activate_undo_each_other db user i :
  wellFormed db ->
  (succeeded (snd (cancelRoute user i db)) = true ->
   succeeded (snd (activateRoute user i (fst (cancelRoute user i db)))) = true
   /\ fst (activateRoute user i (fst (cancelRoute user i db))) = db)
  /\ (succeeded (snd (activateRoute user i db)) = true ->
      succeeded (snd (cancelRoute user i (fst (activateRoute user i db))))
      = true
      /\ fst (cancelRoute user i (fst (activateRoute user i db))) = db).
Proof.
  intros WF. unfold cancelRoute, activateRoute, guarded, isTeacher.
  destruct (negb (role user =? "teacher")%string);
    [split; discriminate|].
  destruct (findOne (userById (id user)) (teachers db)) eqn:Ht;
    [|split; discriminate].
  unfold cancel, activate.
  destruct (findOne (examOwnedBy i (id user)) (exams db)) as [exam|] eqn:Ho;
    [|split; discriminate].
  destruct (toggle_back db (id user) i exam WF Ho) as [F Back].
  destruct (Exam.isActive exam) eqn:Hact; simpl in F, Back |- *.
  - split; [intros _|discriminate].
    rewrite Ht. rewrite F. simpl. rewrite Back. auto.
  - split; [discriminate|intros _].
    rewrite Ht. rewrite F. simpl. rewrite Back. auto.
Qed.

Lemma cancel_and_activate_undo_each_other_witness :
  wellFormed Sample.db0
  /\ succeeded (snd (cancelRoute Sample.asTeacherA 10 Sample.db0)) = true
  /\ fst (activateRoute Sample.asTeacherA 10 Sample.cancelled) = Sample.db0.
Proof.
  split; [exact sample_wellFormed|]. split; [reflexivity|].
  apply (cancel_and_activate_undo_each_other Sample.db0 Sample.asTeacherA 10
           sample_wellFormed).
  reflexivity.
Defined.

(** The listing succeeds on a well-formed store, element by element from
    the sorted matches. *)
Lemma listExams_rows user db :
  wellFormed db ->
  exists json,
    listExams user db = Ok 200 json
    /\ Forall2 (fun e j => examJson db e = Some j)
         (sortNewestFirst (filter (matchesQuery (listQuery user)) (exams db)))
         json.
Proof.
  intros WF. unfold listExams.
  set (found := sortNewestFirst _).
  destruct (mapThrowing_total (examJson db) found) as (json & Hjson & HF).
  { intros e He. unfold examJson.
    apply (Permutation_in _ (sortNewestFirst_perm _)) in He.
    apply filter_In in He.
    pose proof (wf_creators _ WF e (proj1 He)) as Hc.
    destruct (findOne _ (teachers db)); [eexists; reflexivity | contradiction]. }
  exists json. rewrite Hjson. auto.
Qed.

Lemma exam_of_id_is_found db i e :
  wellFormed db -> In e (exams db) -> Exam._id e = i ->
  findOne (examById i) (exams db) = Some e.
Proof.
  intros WF Hin Hid.
  destruct (findOne (examById i) (exams db)) as [x|] eqn:Hx.
  - f_equal. apply find_some in Hx. destruct Hx as [Hxin Px].
    unfold examById in Px. apply Nat.eqb_eq in Px.
    apply (NoDup_map_eq Exam._id (exams db)); auto; [apply WF | congruence].
  - pose proof (proj1 (find_absent _ _) Hx e Hin) as H.
    unfold examById in H. rewrite Hid, Nat.eqb_refl in H. discriminate.
Qed.

(** X9.  A cancelled exam is hidden: after a cancel that succeeded, the
    listing of any student and of any teacher (its creator too) succeeds
    without that exam, and its file, when the exam carries no legacy URL,
    is refused with 403 without a look at the bucket. *)
Theorem cancelled_exam_is_hidden db user i :
  wellFormed db ->
  succeeded (snd (cancelRoute user i db)) = true ->
  let db' := fst (cancelRoute user i db) in
  (forall viewer,
     role viewer = "student" \/ role viewer = "teacher" ->
     exists json,
       listExams viewer db' = Ok 200 json
       /\ ~ In i (map ExamJson.id json))
  /\ (forall cast bucket fileId oid exam,
        String.prefix "http" fileId = false ->
        cast fileId = Some oid ->
        findOne (examByFile oid fileId) (exams db') = Some exam ->
        Exam._id exam = i ->
        legacyUrl exam = None ->
        serveFile cast bucket fileId db'
        = (Refused 403 "Access denied: This exam is not currently active",
           [ExamFindOne])).
Proof.
  intros WF Hok db'.
  assert (WF' : wellFormed db')
    by (apply (serve_evolves (PutCancel user i)); exact WF).
  assert (Hflag : activeFlag i db' = Some false).
  { unfold db', cancelRoute, guarded in *.
    destruct (isTeacher user db); [|discriminate].
    unfold cancel in *.
    destruct (findOne (examOwnedBy i (id user)) (exams db)) as [exam|] eqn:Ho;
      [|discriminate].
    destruct (negb (Exam.isActive exam)); [discriminate|].
    simpl. rewrite activeFlag_setActive, Nat.eqb_refl.
    apply find_some in Ho. destruct Ho as [Hin Ho].
    apply examOwnedBy_spec in Ho. destruct Ho as [Hi _].
    unfold activeFlag.
    rewrite (exam_of_id_is_found db i exam WF Hin Hi). reflexivity. }
  assert (Hoff : forall e, In e (exams db') -> Exam._id e = i ->
                           Exam.isActive e = false).
  { intros e Hin Hid. unfold activeFlag in Hflag.
    rewrite (exam_of_id_is_found db' i e WF' Hin Hid) in Hflag.
    simpl in Hflag. congruence. }
  split.
  - intros viewer Hrole.
    destruct (listExams_rows viewer db' WF') as (json & Hjson & HF).
    exists json. split; [exact Hjson|].
    rewrite (examJson_ids _ _ _ HF). intros Hin.
    apply in_map_iff in Hin. destruct Hin as (e & Hid & Hin).
    apply (Permutation_in _ (sortNewestFirst_perm _)) in Hin.
    apply filter_In in Hin. destruct Hin as [Hin Hm].
    specialize (Hoff e Hin Hid).
    unfold matchesQuery, listQuery in Hm.
    destruct Hrole as [Hr|Hr]; rewrite Hr in Hm; simpl in Hm;
      rewrite Hoff in Hm; discriminate.
  - intros cast bucket fileId oid exam Hp Hc He Hid Hu.
    unfold serveFile. rewrite Hp, Hc, He, Hu.
    rewrite (Hoff exam (proj1 (find_some _ _ He)) Hid). reflexivity.
Qed.

Lemma cancelled_exam_is_hidden_witness :
  wellFormed Sample.db0
  /\ succeeded (snd (cancelRoute Sample.asTeacherA 10 Sample.db0)) = true
  /\ listExams Sample.asStudentS Sample.cancelled = Ok 200 []
  /\ serveFile Sample.cast (Some Sample.bucket) Sample.fileKey
               Sample.cancelled
     = (Refused 403 "Access denied: This exam is not currently active",
        [ExamFindOne]).
Proof.
  split; [exact sample_wellFormed|]. split; [reflexivity|].
  destruct (cancelled_exam_is_hidden Sample.db0 Sample.asTeacherA 10
              sample_wellFormed eq_refl) as [Hlist Hfile].
  split.
  - destruct (Hlist Sample.asStudentS (or_introl eq_refl))
      as (json & Hjson & _).
    reflexivity.
  - apply (Hfile Sample.cast (Some Sample.bucket) Sample.fileKey 20
                 (Exam.set_isActive false Sample.examE));
      reflexivity.
Defined.

Lemma insertNewestFirst_sorted e l :
  StronglySorted (fun a b => (Exam.createdAt b <= Exam.createdAt a)%Z) l ->
  StronglySorted (fun a b => (Exam.createdAt b <= Exam.createdAt a)%Z)
                 (insertNewestFirst e l).
Proof.
  induction l as [|x l IH]; simpl; intros HS.
  - constructor; constructor.
  - inversion HS as [|? ? HS' HF]; subst.
    destruct (Z.ltb_spec (Exam.createdAt x) (Exam.createdAt e)) as [Hlt|Hge].
    + constructor; [exact HS|]. constructor; [lia|].
      eapply Forall_impl; [|exact HF]. simpl. intros y Hy. lia.
    + constructor; [apply IH; exact HS'|].
      apply (Permutation_Forall (Permutation_sym (insertNewestFirst_perm e l))).
      constructor; [lia | exact HF].
Qed.

Lemma sortNewestFirst_sorted l :
  StronglySorted (fun a b => (Exam.createdAt b <= Exam.createdAt a)%Z)
                 (sortNewestFirst l).
Proof.
  induction l as [|x l IH]; simpl; [constructor|].
  apply insertNewestFirst_sorted, IH.
Qed.

Lemma examJson_createdAt db l json :
  Forall2 (fun e j => examJson db e = Some j) l json ->
  map ExamJson.createdAt json = map Exam.createdAt l.
Proof.
  induction 1 as [|e j l json Hj _ IH]; simpl; [reflexivity|].
  rewrite IH. f_equal.
  unfold examJson in Hj. destruct (findOne _ _); [|discriminate].
  inversion Hj. reflexivity.
Qed.

Lemma StronglySorted_map {A B} (f : A -> B) (R : B -> B -> Prop) l :
  StronglySorted (fun a b => R (f a) (f b)) l -> StronglySorted R (map f l).
Proof.
  induction 1 as [|x l HS IH HF]; simpl; constructor; [exact IH|].
  rewrite Forall_forall in *. intros y Hy.
  apply in_map_iff in Hy. destruct Hy as (a & <- & Ha). apply HF, Ha.
Qed.

(** X10.  On a well-formed store the exam listing comes newest first: its
    [createdAt] values never increase along the list, for every role. *)
Theorem listExams_newest_first user db :
  wellFormed db ->
  exists json,
    listExams user db = Ok 200 json
    /\ StronglySorted (fun a b => (b <= a)%Z) (map ExamJson.createdAt json).
Proof.
  intros WF.
  destruct (listExams_rows user db WF) as (json & Hjson & HF).
  exists json. split; [exact Hjson|].
  rewrite (examJson_createdAt _ _ _ HF).
  apply (StronglySorted_map Exam.createdAt (fun a b => (b <= a)%Z)).
  apply sortNewestFirst_sorted.
Qed.

Lemma listExams_newest_first_witness :
  wellFormed Scenario.library
  /\ map Exam.createdAt (exams Scenario.library) = [0; 50; 20]%Z
  /\ exists json,
       listExams Sample.asStudentS Scenario.library = Ok 200 json
       /\ map ExamJson.createdAt json = [50; 20; 0]%Z
       /\ map ExamJson.title json = ["Sets"; "Logic"; "Geometry"]
       /\ StronglySorted (fun a b => (b <= a)%Z)
                         (map ExamJson.createdAt json).
Proof.
  assert (WF : wellFormed Scenario.library)
    by apply built_wellFormed, performAll_apiBuilt, emptyStore_apiBuilt.
  split; [exact WF|]. split; [reflexivity|].
  destruct (listExams_newest_first Sample.asStudentS Scenario.library WF)
    as (json & Hjson & Hsorted).
  exists json. split; [exact Hjson|].
  assert (E : listExams Sample.asStudentS Scenario.library
              = Ok 200
                  [ExamJson.mk 1001 "Sets" (Some (inl 8)) 30 Sample.teacherB
                               50 true;
                   ExamJson.mk 1002 "Logic" (Some (inl 9)) 60 Sample.teacherA
                               20 true;
                   ExamJson.mk 1000 "Geometry" (Some (inl 7)) 45
                               Sample.teacherA 0 true])
    by reflexivity.
  rewrite E in Hjson. injection Hjson as <-.
  split; [reflexivity|]. split; [reflexivity | exact Hsorted].
Defined.

(** ** What the file endpoint never does *)

(** X11.  The file endpoint reads the bucket only for a key that does not
    begin with [http], denotes an ObjectId and belongs to an exam that is
    found and active.  It opens a download stream only for the id the key
    denotes, after it has found a file under that id in the initialised
    bucket, and then its calls were exactly the exam lookup, [getBucket],
    [bucket.find] and [openDownloadStream], in that order.  And whenever
    it pipes, it has made those four calls, and what it pipes is the
    first file the bucket holds under that id, with the content type and
    the name of that file and a cache lifetime of 3600 seconds. *)
Theorem serveFile_reads_bucket_only_for_active cast bucket fileId db :
  let answer := fst (serveFile cast bucket fileId db) in
  let calls := snd (serveFile cast bucket fileId db) in
  (In GetBucket calls ->
   exists oid exam,
     String.prefix "http" fileId = false
     /\ cast fileId = Some oid
     /\ findOne (examByFile oid fileId) (exams db) = Some exam
     /\ Exam.isActive exam = true)
  /\ (forall file,
        In (OpenDownloadStream file) calls ->
        cast fileId = Some file
        /\ calls = [ExamFindOne; GetBucket; BucketFind file;
                    OpenDownloadStream file]
        /\ exists files stored others exam,
             bucket = Some files
             /\ filter (gridFileById file) files = stored :: others
             /\ GridFile._id stored = file
             /\ findOne (examByFile file fileId) (exams db) = Some exam
             /\ Exam.isActive exam = true)
  /\ (forall contentType disposition cache file,
        answer = Piped contentType disposition cache file ->
        In (OpenDownloadStream file) calls
        /\ cache = "public, max-age=3600"
        /\ exists files stored others exam,
             bucket = Some files
             /\ filter (gridFileById file) files = stored :: others
             /\ findOne (examByFile file fileId) (exams db) = Some exam
             /\ contentType
                = orDefault (GridFile.contentType stored) "application/pdf"
             /\ disposition
                = ("inline; filename=" ++ doubleQuote
                     ++ orDefault (GridFile.filename stored)
                                  (Exam.title exam ++ ".pdf")
                     ++ doubleQuote)%string).
Proof.
  cbv zeta. unfold serveFile.
  destruct (String.prefix "http" fileId) eqn:Hp; simpl.
  { split; [intros [] | split; [intros file [] | discriminate]]. }
  destruct (cast fileId) as [oid|] eqn:Hc; simpl.
  2: { split; [intros [] | split; [intros file [] | discriminate]]. }
  destruct (findOne (examByFile oid fileId) (exams db)) as [exam|] eqn:He;
    simpl.
  2: { split; [intros [H|[]]; discriminate|].
       split; [intros file [H|[]]; discriminate | discriminate]. }
  destruct (Exam.isActive exam) eqn:Ha; simpl.
  2: { split; [intros [H|[]]; discriminate|].
       split; [intros file [H|[]]; discriminate | discriminate]. }
  split; [intros _; exists oid, exam; auto|].
  destruct bucket as [files|]; simpl.
  2: { split; [|discriminate].
       intros file [H|[H|[]]]; discriminate. }
  destruct (filter (gridFileById oid) files) as [|stored others] eqn:Hf;
    simpl.
  { split; [|discriminate].
    intros file [H|[H|[H|[]]]]; discriminate. }
  assert (Hid : GridFile._id stored = oid).
  { assert (Hin : In stored (filter (gridFileById oid) files))
      by (rewrite Hf; left; reflexivity).
    apply filter_In in Hin. destruct Hin as [_ Hid].
    unfold gridFileById in Hid. apply Nat.eqb_eq in Hid. exact Hid. }
  split.
  - intros file [H|[H|[H|[H|[]]]]]; try discriminate.
    inversion H; subst file.
    split; [reflexivity|]. split; [reflexivity|].
    exists files, stored, others, exam. auto 10.
  - intros contentType disposition cache file H. inversion H; subst.
    split; [right; right; right; left; reflexivity|].
    split; [reflexivity|].
    exists files, stored, others, exam. auto 10.
Qed.

Lemma serveFile_reads_bucket_only_for_active_witness :
  fst (serveFile Sample.cast (Some Sample.bucket) Sample.fileKey Sample.db0)
  = Piped "application/pdf"
          ("inline; filename=" ++ doubleQuote ++ "exam_1000_algebra.pdf"
             ++ doubleQuote)%string
          "public, max-age=3600" 20
  /\ In (OpenDownloadStream 20)
        (snd (serveFile Sample.cast (Some Sample.bucket) Sample.fileKey
                        Sample.db0))
  /\ snd (serveFile Sample.cast (Some Sample.bucket) Sample.fileKey
                    Sample.db0)
     = [ExamFindOne; GetBucket; BucketFind 20; OpenDownloadStream 20].
Proof.
  assert (H : fst (serveFile Sample.cast (Some Sample.bucket) Sample.fileKey
                             Sample.db0)
              = Piped "application/pdf"
                      ("inline; filename=" ++ doubleQuote
                         ++ "exam_1000_algebra.pdf" ++ doubleQuote)%string
                      "public, max-age=3600" 20)
    by reflexivity.
  pose proof (serveFile_reads_bucket_only_for_active
                Sample.cast (Some Sample.bucket) Sample.fileKey Sample.db0)
    as (_ & Hstream & Hpiped).
  pose proof (proj1 (Hpiped _ _ _ _ H)) as Hopened.
  split; [exact H|]. split; [exact Hopened|].
  exact (proj1 (proj2 (Hstream 20 Hopened))).
Defined.

(** X12.  In a store built through the API the file endpoint redirects
    nowhere but to the request's own key, and then only when the key
    begins with [http]: no stored exam sends the browser elsewhere, and a
    key whose exam is not active is refused with 403. *)
Theorem api_store_never_redirects_elsewhere cast bucket fileId db :
  apiBuilt db ->
  (forall url,
     fst (serveFile cast bucket fileId db) = Redirect url ->
     url = fileId /\ String.prefix "http" fileId = true)
  /\ (forall oid exam,
        String.prefix "http" fileId = false ->
        cast fileId = Some oid ->
        findOne (examByFile oid fileId) (exams db) = Some exam ->
        Exam.isActive exam = false ->
        serveFile cast bucket fileId db
        = (Refused 403 "Access denied: This exam is not currently active",
           [ExamFindOne])).
Proof.
  intros B.
  assert (Hno : forall oid exam,
            findOne (examByFile oid fileId) (exams db) = Some exam ->
            legacyUrl exam = None).
  { intros oid exam He. reflexivity. }
  split.
  - intros url. unfold serveFile.
    destruct (String.prefix "http" fileId); simpl.
    { intros H. inversion H. auto. }
    destruct (cast fileId) as [oid|]; simpl; [|discriminate].
    destruct (findOne (examByFile oid fileId) (exams db)) as [exam|] eqn:He;
      simpl; [|discriminate].
    destruct (negb (Exam.isActive exam)); simpl; [discriminate|].
    destruct bucket as [files|]; simpl; [|discriminate].
    destruct (filter (gridFileById oid) files); simpl; discriminate.
  - intros oid exam Hp Hc He Ha. unfold serveFile.
    rewrite Hp, Hc, He, (Hno oid exam He), Ha. reflexivity.
Qed.

Lemma api_store_never_redirects_elsewhere_witness :
  apiBuilt Scenario.sat
  /\ forall url,
       fst (serveFile Sample.cast (Some Sample.bucket)
                      "https://elsewhere.test/x.pdf" Scenario.sat)
       = Redirect url ->
       url = "https://elsewhere.test/x.pdf"
       /\ String.prefix "http" "https://elsewhere.test/x.pdf" = true.
Proof.
  split; [exact scenario_apiBuilt|].
  exact (proj1 (api_store_never_redirects_elsewhere
                  Sample.cast (Some Sample.bucket)
                  "https://elsewhere.test/x.pdf" Scenario.sat
                  scenario_apiBuilt)).
Defined.

(** ** Reading one exam *)

Lemma serve_teachers r db : teachers (serve r db) = teachers db.
Proof. destruct r; simpl; through_routes; keeps_field. Qed.

Lemma getExam_setActive i j b db :
  getExam i
    (with_exams (updateOne Exam._id j (Exam.set_isActive b) (exams db)) db)
  = getExam i db.
Proof.
  unfold getExam, findOne at 1 3. simpl. rewrite find_examById_updateOne.
  destruct (j =? i); [|reflexivity].
  destruct (find (examById i) (exams db)); reflexivity.
Qed.

Lemma getExam_same_collections i db db' :
  exams db' = exams db -> teachers db' = teachers db ->
  getExam i db' = getExam i db.
Proof. unfold getExam. intros -> ->. reflexivity. Qed.

Lemma serve_getExam r i db : getExam i (serve r db) = getExam i db.
Proof.
  pose proof (serve_teachers r db) as Ht.
  destruct (serve_exams r db) as [E|(j & b & E)].
  - apply getExam_same_collections; assumption.
  - rewrite <- (getExam_setActive i j b db).
    apply getExam_same_collections; [exact E | exact Ht].
Qed.

Lemma find_append {A} (p : A -> bool) (l l' : list A) :
  find p (l ++ l')
  = match find p l with Some x => Some x | None => find p l' end.
Proof.
  induction l as [|x l IH]; simpl; [reflexivity|].
  destruct (p x); auto.
Qed.

Lemma createExam_getExam user now title duration file i db :
  i < nextId db ->
  getExam i (fst (createExamRoute user now title duration file db))
  = getExam i db.
Proof.
  intros Hi. unfold createExamRoute, guarded, createExam.
  repeat branch; simpl; try reflexivity.
  match goal with H : insertExam _ _ _ _ _ _ = _ |- _ => inversion H end.
  unfold getExam, findOne. simpl. rewrite find_append.
  destruct (find (examById i) (exams db)); [reflexivity|].
  simpl. unfold examById at 1. simpl.
  destruct (Nat.eqb_spec (nextId db) i); [lia | reflexivity].
Qed.

Lemma createExam_nextId user now title duration file db :
  nextId db <= nextId (fst (createExamRoute user now title duration file db)).
Proof.
  unfold createExamRoute, guarded, createExam.
  repeat branch; simpl; try lia.
  match goal with H : insertExam _ _ _ _ _ _ = _ |- _ => inversion H end.
  simpl. lia.
Qed.

(** X13.  What GET /api/exams/:id answers for an id the store has already
    given out is fixed: no sequence of requests, cancelling and activating
    included, changes it.  The route reads no active flag, so a cancelled
    exam is still shown there. *)
Theorem exam_details_are_fixed acts db i :
  i < nextId db ->
  getExam i (performAll acts db) = getExam i db.
Proof.
  revert db. induction acts as [|a acts IH]; intros db Hi; [reflexivity|].
  unfold performAll in *. simpl.
  destruct a as [r | user now title duration file]; simpl.
  - rewrite IH; [apply serve_getExam|].
    pose proof (serve_nextId r db). lia.
  - rewrite IH; [apply createExam_getExam; exact Hi|].
    pose proof (createExam_nextId user now title duration file db). lia.
Qed.

Lemma exam_details_are_fixed_witness :
  1000 < nextId Scenario.created
  /\ succeeded (getExam 1000 Scenario.created) = true
  /\ getExam 1000
       (performAll [Write (PutCancel Sample.asTeacherA 1000);
                    PostExam Sample.asTeacherB 5 "Sets" (Some 30%Z) (Some 8)]
                   Scenario.created)
     = getExam 1000 Scenario.created.
Proof.
  assert (H : 1000 < nextId Scenario.created) by (vm_compute; lia).
  split; [exact H|]. split; [reflexivity|].
  exact (exam_details_are_fixed _ Scenario.created 1000 H).
Defined.

(** ** The submissions of an exam *)

Lemma insertLatestFirst_perm s l :
  Permutation (insertLatestFirst s l) (s :: l).
Proof.
  induction l as [|x l IH]; simpl; [reflexivity|].
  destruct (Submission.submittedAt x <? Submission.submittedAt s)%Z;
    [reflexivity|].
  rewrite IH. apply perm_swap.
Qed.

Lemma sortLatestFirst_perm l : Permutation (sortLatestFirst l) l.
Proof.
  induction l as [|x l IH]; simpl; [reflexivity|].
  rewrite insertLatestFirst_perm. constructor. exact IH.
Qed.

Lemma insertLatestFirst_sorted s l :
  StronglySorted
    (fun a b => (Submission.submittedAt b <= Submission.submittedAt a)%Z) l ->
  StronglySorted
    (fun a b => (Submission.submittedAt b <= Submission.submittedAt a)%Z)
    (insertLatestFirst s l).
Proof.
  induction l as [|x l IH]; simpl; intros HS.
  - constructor; constructor.
  - inversion HS as [|? ? HS' HF]; subst.
    destruct (Z.ltb_spec (Submission.submittedAt x) (Submission.submittedAt s))
      as [Hlt|Hge].
    + constructor; [exact HS|]. constructor; [lia|].
      eapply Forall_impl; [|exact HF]. simpl. intros y Hy. lia.
    + constructor; [apply IH; exact HS'|].
      apply (Permutation_Forall
               (Permutation_sym (insertLatestFirst_perm s l))).
      constructor; [lia | exact HF].
Qed.

Lemma sortLatestFirst_sorted l :
  StronglySorted
    (fun a b => (Submission.submittedAt b <= Submission.submittedAt a)%Z)
    (sortLatestFirst l).
Proof.
  induction l as [|x l IH]; simpl; [constructor|].
  apply insertLatestFirst_sorted, IH.
Qed.

(** A row shows the submission's own id, URL, time and status, and the
    student whose id the submission carries. *)
Lemma submissionRowJson_fields db s row :
  submissionRowJson db s = Some row ->
  SubmissionRowJson.id row = Submission._id s
  /\ User._id (SubmissionRowJson.student row) = Submission.studentId s
  /\ SubmissionRowJson.answerUrl row = Submission.answerUrl s
  /\ SubmissionRowJson.submittedAt row = Submission.submittedAt s
  /\ SubmissionRowJson.status row = Submission.status s.
Proof.
  unfold submissionRowJson.
  destruct (findOne _ _) as [student|] eqn:Hs; [|discriminate].
  intros H. inversion H. simpl.
  apply find_some in Hs. destruct Hs as [_ Hs].
  unfold userById in Hs. apply Nat.eqb_eq in Hs. auto.
Qed.

Lemma rows_map {B} db (f : SubmissionRowJson.t -> B) (g : Submission.t -> B)
    l rows :
  (forall s row, submissionRowJson db s = Some row -> f row = g s) ->
  Forall2 (fun s row => submissionRowJson db s = Some row) l rows ->
  map f rows = map g l.
Proof.
  intros Hfg. induction 1 as [|s row l rows Hrow _ IH]; simpl; [reflexivity|].
  rewrite IH, (Hfg s row Hrow). reflexivity.
Qed.

Lemma NoDup_map_filter {A B} (f : A -> B) (p : A -> bool) l :
  NoDup (map f l) -> NoDup (map f (filter p l)).
Proof.
  induction l as [|x l IH]; simpl; intros H; [constructor|].
  inversion H as [|? ? Hx Hl]; subst.
  destruct (p x); simpl; [constructor|]; auto.
  intros Hin. apply Hx. apply in_map_iff in Hin.
  destruct Hin as (y & Hy & Hin). apply filter_In in Hin.
  apply in_map_iff. exists y. tauto.
Qed.

Lemma NoDup_map_fst {A} (f : A -> ObjectId * ObjectId) (e : ObjectId) l :
  (forall x, In x l -> snd (f x) = e) ->
  NoDup (map f l) -> NoDup (map (fun x => fst (f x)) l).
Proof.
  induction l as [|x l IH]; simpl; intros He H; [constructor|].
  inversion H as [|? ? Hx Hl]; subst.
  constructor; [|apply IH; auto].
  intros Hin. apply Hx. apply in_map_iff in Hin.
  destruct Hin as (y & Hy & Hin). apply in_map_iff. exists y.
  split; [|exact Hin].
  pose proof (He x (or_introl eq_refl)) as E1.
  pose proof (He y (or_intror Hin)) as E2.
  destruct (f x), (f y). simpl in *. congruence.
Qed.

Lemma owned_exam_found db i t exam :
  wellFormed db ->
  findOne (examById i) (exams db) = Some exam ->
  findOne (examOwnedBy i t) (exams db)
  = if Exam.createdBy exam =? t then Some exam else None.
Proof.
  intros WF He.
  destruct (findOne (examOwnedBy i t) (exams db)) as [owned|] eqn:Ho.
  - pose proof (owned_exam_is_the_exam db i t exam owned WF He Ho) as E.
    subst owned. apply find_some in Ho. destruct Ho as [_ Ho].
    apply examOwnedBy_spec in Ho. destruct Ho as [_ Ho].
    rewrite Ho, Nat.eqb_refl. reflexivity.
  - destruct (Nat.eqb_spec (Exam.createdBy exam) t) as [E|N]; [|reflexivity].
    apply find_some in He. destruct He as [Hin He].
    unfold examById in He. apply Nat.eqb_eq in He.
    pose proof (proj1 (find_absent _ _) Ho exam Hin) as H.
    assert (examOwnedBy i t exam = true)
      by (apply examOwnedBy_spec; auto).
    congruence.
Qed.

Lemma listSubmissionsForExam_rows db t e exam :
  apiBuilt db ->
  findOne (examById e) (exams db) = Some exam ->
  Exam.createdBy exam = t ->
  exists rows,
    listSubmissionsForExam t e db
    = Ok 200 (SubmissionListJson.mk e (Exam.title exam)
                (Exam.duration exam) (Exam.createdAt exam) rows)
    /\ Forall2 (fun s row => submissionRowJson db s = Some row)
         (sortLatestFirst (filter (submissionForExam e) (submissions db)))
         rows.
Proof.
  intros [WF _ _ Hknown] He Hmine.
  assert (Hid : Exam._id exam = e).
  { apply find_some in He. destruct He as [_ He].
    unfold examById in He. apply Nat.eqb_eq in He. exact He. }
  unfold listSubmissionsForExam.
  rewrite (owned_exam_found db e t exam WF He), Hmine, Nat.eqb_refl.
  set (matching := filter (submissionForExam e) (submissions db)).
  destruct (mapThrowing_total (submissionRowJson db)
              (sortLatestFirst matching)) as (rows & Hrows & HF).
  { intros s Hs.
    apply (Permutation_in _ (sortLatestFirst_perm _)) in Hs.
    apply filter_In in Hs. unfold submissionRowJson.
    pose proof (Hknown s (proj1 Hs)) as Hk.
    destruct (findOne (userById (Submission.studentId s)) (students db));
      [eexists; reflexivity | contradiction]. }
  exists rows. rewrite Hrows, Hid. auto.
Qed.

(** X14.  The submissions of an exam go to its creator only.  In a store
    built through the API, for an exam that exists: a teacher who did not
    create it is answered without success; its creator is answered 200
    with the exam's id, title, duration and creation time and one row per
    submission of that exam and no other row, latest first, no student
    twice. *)
Theorem submissions_go_to_the_creator db user e exam :
  apiBuilt db ->
  findOne (examById e) (exams db) = Some exam ->
  (Exam.createdBy exam <> id user ->
   succeeded (listSubmissionsRoute user e db) = false)
  /\ (succeeded (isTeacher user db) = true ->
      Exam.createdBy exam = id user ->
      exists rows,
        listSubmissionsRoute user e db
        = Ok 200 (SubmissionListJson.mk e (Exam.title exam)
                    (Exam.duration exam) (Exam.createdAt exam) rows)
        /\ Permutation
             (map SubmissionRowJson.id rows)
             (map Submission._id
                  (filter (submissionForExam e) (submissions db)))
        /\ StronglySorted (fun a b => (b <= a)%Z)
             (map SubmissionRowJson.submittedAt rows)
        /\ NoDup (map (fun row => User._id (SubmissionRowJson.student row))
                      rows)).
Proof.
  intros B He. pose proof (built_wellFormed _ B) as WF.
  split.
  - intros Hother. unfold listSubmissionsRoute, listSubmissionsForExam.
    rewrite (owned_exam_found db e (id user) exam WF He).
    destruct (isTeacher user db); [|reflexivity].
    destruct (Nat.eqb_spec (Exam.createdBy exam) (id user));
      [contradiction | reflexivity].
  - intros Ht Hmine. unfold listSubmissionsRoute.
    destruct (isTeacher user db); [|discriminate].
    destruct (listSubmissionsForExam_rows db (id user) e exam B He Hmine)
      as (rows & Hrows & HF).
    set (matching := filter (submissionForExam e) (submissions db)) in *.
    exists rows. split; [exact Hrows|].
    split; [|split].
    + rewrite (rows_map db SubmissionRowJson.id Submission._id _ _
                 (fun s row H => proj1 (submissionRowJson_fields db s row H))
                 HF).
      apply Permutation_map, sortLatestFirst_perm.
    + rewrite (rows_map db SubmissionRowJson.submittedAt
                 Submission.submittedAt _ _
                 (fun s row H =>
                    proj1 (proj2 (proj2 (proj2
                      (submissionRowJson_fields db s row H))))) HF).
      apply (StronglySorted_map Submission.submittedAt
               (fun a b => (b <= a)%Z)).
      apply sortLatestFirst_sorted.
    + rewrite (rows_map db
                 (fun row => User._id (SubmissionRowJson.student row))
                 Submission.studentId _ _
                 (fun s row H =>
                    proj1 (proj2 (submissionRowJson_fields db s row H))) HF).
      apply (Permutation_NoDup
               (Permutation_map Submission.studentId
                  (Permutation_sym (sortLatestFirst_perm matching)))).
      apply (NoDup_map_fst submissionPair e).
      * intros s Hs. apply filter_In in Hs. destruct Hs as [_ Hs].
        unfold submissionForExam in Hs. apply Nat.eqb_eq in Hs. exact Hs.
      * apply NoDup_map_filter, WF.
Qed.

Lemma submissions_go_to_the_creator_witness :
  apiBuilt Scenario.sat
  /\ findOne (examById 1000) (exams Scenario.sat)
     = Some (Exam.mk 1000 "Geometry" (Some 7) None 45 1 true 0)
  /\ succeeded (listSubmissionsRoute Sample.asTeacherB 1000 Scenario.sat)
     = false
  /\ exists rows,
       listSubmissionsRoute Sample.asTeacherA 1000 Scenario.sat
       = Ok 200 (SubmissionListJson.mk 1000 "Geometry" 45 0 rows)
       /\ Permutation
            (map SubmissionRowJson.id rows)
            (map Submission._id
                 (filter (submissionForExam 1000)
                         (submissions Scenario.sat)))
       /\ StronglySorted (fun a b => (b <= a)%Z)
            (map SubmissionRowJson.submittedAt rows)
       /\ NoDup (map (fun row => User._id (SubmissionRowJson.student row))
                     rows).
Proof.
  split; [exact scenario_apiBuilt|]. split; [reflexivity|].
  split.
  - apply (proj1 (submissions_go_to_the_creator Scenario.sat
                    Sample.asTeacherB 1000 _ scenario_apiBuilt eq_refl)).
    simpl. lia.
  - apply (proj2 (submissions_go_to_the_creator Scenario.sat
                    Sample.asTeacherA 1000 _ scenario_apiBuilt eq_refl));
      reflexivity.
Defined.

Lemma Forall2_In_left {A B} (R : A -> B -> Prop) l l' x :
  Forall2 R l l' -> In x l -> exists y, In y l' /\ R x y.
Proof.
  induction 1 as [|a b l l' Hab _ IH]; simpl; intros Hin; [contradiction|].
  destruct Hin as [<-|Hin].
  - exists b. auto.
  - destruct (IH Hin) as (y & Hy & Hxy). exists y. auto.
Qed.

(** X15.  An answer that was accepted reaches the exam's creator: after a
    submission answered with 201, the listing of the exam's submissions
    for the teacher who created the exam succeeds and has a row with the
    id, the student, the URL and the time of the 201 answer, in status
    [submitted]. *)
Theorem accepted_answer_reaches_the_creator
    cloud user now e file db db' json teacher :
  apiBuilt db ->
  submitRoute cloud user now (Some e) file db = (db', Ok 201 json) ->
  succeeded (isTeacher teacher db') = true ->
  (exists exam,
     findOne (examById e) (exams db) = Some exam
     /\ Exam.createdBy exam = id teacher) ->
  exists detail,
    listSubmissionsRoute teacher e db' = Ok 200 detail
    /\ In (SubmissionRowJson.mk (SubmissionJson.id json)
             (SubmissionJson.student json) (SubmissionJson.answerUrl json)
             (SubmissionJson.submittedAt json) Submission.submitted)
          (SubmissionListJson.submissions detail).
Proof.
  intros B Hsub Ht (exam & He & Hmine).
  assert (B' : apiBuilt db').
  { replace db' with (serve (PostSubmission cloud user now (Some e) file) db)
      by (simpl; rewrite Hsub; reflexivity).
    apply serve_apiBuilt, B. }
  assert (Hexams : exams db' = exams db).
  { replace db' with (fst (submitRoute cloud user now (Some e) file db))
      by (rewrite Hsub; reflexivity).
    apply guarded_exams, submit_exams. }
  unfold submitRoute, guarded in Hsub.
  destruct (isStudent user db); [|inversion Hsub].
  unfold submit in Hsub.
  destruct file as [path|]; [|inversion Hsub].
  rewrite He in Hsub.
  destruct (findOne (submissionOf (id user) e) (submissions db));
    [inversion Hsub|].
  destruct (cloud path) as [url|]; [|inversion Hsub].
  destruct (trim url) as [|c rest] eqn:Hurl; [inversion Hsub|].
  unfold insertSubmission in Hsub. cbv zeta in Hsub.
  match type of Hsub with
  | context [findOne ?p ?l] => destruct (findOne p l) as [student|] eqn:Hst
  end; [|inversion Hsub].
  injection Hsub as Hdb Hjson. subst db' json. simpl.
  set (s := Submission.mk (nextId db) (id user) e (String c rest) now
                          Submission.submitted) in *.
  match goal with
  | |- context [listSubmissionsRoute teacher e ?d] => set (db' := d) in *
  end.
  change (exams db') with (exams db) in Hexams.
  destruct (listSubmissionsForExam_rows db' (id teacher) e exam B' He Hmine)
    as (rows & Hrows & HF).
  unfold listSubmissionsRoute.
  destruct (isTeacher teacher db'); [|discriminate].
  eexists. split; [exact Hrows|]. simpl.
  assert (Hin : In s (sortLatestFirst
                        (filter (submissionForExam e) (submissions db')))).
  { apply (Permutation_in _ (Permutation_sym (sortLatestFirst_perm _))).
    apply filter_In. split.
    - simpl. apply in_or_app. right. left. reflexivity.
    - unfold submissionForExam. simpl. apply Nat.eqb_refl. }
  destruct (Forall2_In_left _ _ _ s HF Hin) as (row & Hrow & Hs).
  unfold submissionRowJson in Hs. simpl in Hs, Hst.
  rewrite Hst in Hs. inversion Hs. subst row. exact Hrow.
Qed.

Lemma accepted_answer_reaches_the_creator_witness :
  apiBuilt Scenario.created
  /\ exists detail,
       listSubmissionsRoute Sample.asTeacherA 1000
         (fst (submitRoute Sample.cloud Sample.asStudentS 2000 (Some 1000)
                           (Some "geo.pdf") Scenario.created))
       = Ok 200 detail
       /\ In (SubmissionRowJson.mk 1001 Sample.studentS
                "https://res.cloudinary.com/demo/geo.pdf" 2000
                Submission.submitted)
             (SubmissionListJson.submissions detail).
Proof.
  assert (B : apiBuilt Scenario.created)
    by (apply performAll_apiBuilt, emptyStore_apiBuilt).
  split; [exact B|].
  apply (accepted_answer_reaches_the_creator Sample.cloud Sample.asStudentS
           2000 1000 (Some "geo.pdf") Scenario.created _ _
           Sample.asTeacherA B eq_refl eq_refl).
  eexists. split; reflexivity.
Defined.

(** ** Stored answer URLs *)

Lemma trimStart_clean s :
  match trimStart s with
  | String c _ => isWhiteSpace c = false
  | EmptyString => True
  end.
Proof.
  induction s as [|c s IH]; simpl; [exact I|].
  destruct (isWhiteSpace c) eqn:Hc; [exact IH | exact Hc].
Qed.

Lemma trimStart_of_clean s :
  match s with
  | String c _ => isWhiteSpace c = false
  | EmptyString => True
  end ->
  trimStart s = s.
Proof. destruct s as [|c s]; simpl; [reflexivity|]. intros ->. reflexivity. Qed.

Lemma trimStart_suffix s : exists dropped, s = (dropped ++ trimStart s)%string.
Proof.
  induction s as [|c s IH]; simpl.
  - exists EmptyString. reflexivity.
  - destruct (isWhiteSpace c).
    + destruct IH as [dropped IH]. exists (String c dropped).
      simpl. rewrite <- IH. reflexivity.
    + exists EmptyString. reflexivity.
Qed.

Lemma list_ascii_of_string_append a b :
  list_ascii_of_string (a ++ b)%string
  = list_ascii_of_string a ++ list_ascii_of_string b.
Proof. induction a as [|c a IH]; simpl; [reflexivity|]. rewrite IH. reflexivity. Qed.

Lemma string_of_list_ascii_append l l' :
  string_of_list_ascii (l ++ l')
  = (string_of_list_ascii l ++ string_of_list_ascii l')%string.
Proof. induction l as [|c l IH]; simpl; [reflexivity|]. rewrite IH. reflexivity. Qed.

Lemma reverse_append a b :
  reverse (a ++ b)%string = (reverse b ++ reverse a)%string.
Proof.
  unfold reverse.
  rewrite list_ascii_of_string_append, rev_app_distr,
    string_of_list_ascii_append.
  reflexivity.
Qed.

Lemma reverse_involutive s : reverse (reverse s) = s.
Proof.
  unfold reverse.
  rewrite list_ascii_of_string_of_list_ascii, rev_involutive.
  apply string_of_list_ascii_of_string.
Qed.

Lemma trim_clean_head s :
  match trim s with
  | String c _ => isWhiteSpace c = false
  | EmptyString => True
  end.
Proof.
  unfold trim.
  pose proof (trimStart_clean s) as Hhead.
  destruct (trimStart_suffix (reverse (trimStart s))) as [dropped Hd].
  apply (f_equal reverse) in Hd.
  rewrite reverse_involutive, reverse_append in Hd.
  destruct (reverse (trimStart (reverse (trimStart s)))) as [|c rest];
    [exact I|].
  rewrite Hd in Hhead. exact Hhead.
Qed.

Lemma trim_idempotent s : trim (trim s) = trim s.
Proof.
  pose proof (trim_clean_head s) as Hhead.
  unfold trim at 1. rewrite (trimStart_of_clean _ Hhead).
  unfold trim. rewrite reverse_involutive.
  rewrite (trimStart_of_clean _ (trimStart_clean _)). reflexivity.
Qed.

(** What a request may add to the submissions is one document whose URL is
    a trimmed upload URL that is not empty. *)
Lemma serve_submission_urls r db :
  submissions (serve r db) = submissions db
  \/ exists s url,
       submissions (serve r db) = submissions db ++ [s]
       /\ Submission.answerUrl s = trim url
       /\ trim url <> EmptyString
       /\ Submission.status s = Submission.submitted.
Proof.
  destruct r; simpl; through_routes; repeat branch; simpl;
    try solve [left; reflexivity];
    match goal with
    | H : insertAttempt _ _ _ _ _ _ = _ |- _ =>
        inversion H; simpl; left; reflexivity
    | H : insertSubmission _ _ _ _ _ = _, E : trim ?u = String _ _ |- _ =>
        inversion H; simpl; right; eexists; exists u;
        rewrite E; repeat split; discriminate
    end.
Qed.

Lemma createExam_submissions user now title duration file db :
  submissions (fst (createExamRoute user now title duration file db))
  = submissions db.
Proof.
  unfold createExamRoute, guarded, createExam.
  repeat branch; simpl; try reflexivity.
  match goal with H : insertExam _ _ _ _ _ _ = _ |- _ => inversion H end.
  reflexivity.
Qed.

(** X16.  In every store built through the API from an empty one, each
    submission carries a URL that is not empty and has no white space at
    either end (trimming it again changes nothing), and is in status
    [submitted]: nothing in the API grades a submission or marks it
    late. *)
Theorem stored_answers_are_trimmed ss ts n acts s :
  In s (submissions (performAll acts (emptyStore ss ts n))) ->
  Submission.answerUrl s <> EmptyString
  /\ trim (Submission.answerUrl s) = Submission.answerUrl s
  /\ Submission.status s = Submission.submitted.
Proof.
  set (good := fun x => Submission.answerUrl x <> EmptyString
                        /\ trim (Submission.answerUrl x)
                           = Submission.answerUrl x
                        /\ Submission.status x = Submission.submitted).
  assert (Hstep : forall a db,
            (forall x, In x (submissions db) -> good x) ->
            forall x, In x (submissions (perform a db)) -> good x).
  { intros a db Hgood x Hx.
    destruct a as [r | user now title duration file]; simpl in Hx.
    - destruct (serve_submission_urls r db)
        as [E|(y & url & E & Hurl & Hne & Hst)]; rewrite E in Hx.
      + apply Hgood, Hx.
      + apply in_app_iff in Hx. destruct Hx as [Hx|[<-|[]]].
        * apply Hgood, Hx.
        * unfold good. rewrite Hurl, trim_idempotent. auto.
    - rewrite createExam_submissions in Hx. apply Hgood, Hx. }
  assert (Hall : forall acts db,
            (forall x, In x (submissions db) -> good x) ->
            forall x, In x (submissions (performAll acts db)) -> good x).
  { clear acts s. induction acts as [|a acts IH]; intros db Hgood;
      [exact Hgood|].
    unfold performAll. simpl. apply IH, Hstep, Hgood. }
  intros Hs. apply (Hall acts (emptyStore ss ts n)); [|exact Hs].
  intros x [].
Qed.

Lemma stored_answers_are_trimmed_witness :
  In (Submission.mk 1002 3 1000 "https://res.cloudinary.com/demo/geo.pdf"
                    2000 Submission.submitted)
     (submissions Scenario.sat)
  /\ trim "https://res.cloudinary.com/demo/geo.pdf"
     = "https://res.cloudinary.com/demo/geo.pdf".
Proof.
  assert (H : In (Submission.mk 1002 3 1000
                    "https://res.cloudinary.com/demo/geo.pdf"
                    2000 Submission.submitted)
                 (submissions Scenario.sat))
    by (left; reflexivity).
  split; [exact H|].
  exact (proj1 (proj2
    (stored_answers_are_trimmed
       [Sample.studentS] [Sample.teacherA; Sample.teacherB] 1000
       [PostExam Sample.asTeacherA 0 "  Geometry " (Some 45%Z) (Some 7);
        Write (PostStart Sample.asStudentS 1000 (Some 1000));
        Write (PostSubmission Sample.cloud Sample.asStudentS 2000 (Some 1000)
                              (Some "geo.pdf"));
        Write (PutComplete Sample.asStudentS 1001)]
       _ H))).
Defined.

(** ** Uploads that are turned away *)

Lemma prefix_append needle post : String.prefix needle (needle ++ post) = true.
Proof.
  induction needle as [|c needle IH]; simpl.
  - destruct post; reflexivity.
  - rewrite IH. destruct (Ascii.ascii_dec c c); [reflexivity | contradiction].
Qed.

Lemma includes_unfold needle hay :
  includes needle hay
  = String.prefix needle hay
    || match hay with
       | EmptyString => false
       | String _ rest => includes needle rest
       end.
Proof. destruct hay; reflexivity. Qed.

Lemma includes_append needle pre post :
  includes needle (pre ++ needle ++ post) = true.
Proof.
  induction pre as [|c pre IH]; simpl.
  - rewrite includes_unfold, prefix_append. reflexivity.
  - rewrite IH. apply orb_true_r.
Qed.

(** X17.  Both uploads accept exactly the four listed types.  A file that
    either filter turns away is answered 400 by the error handler, with
    the message for answer uploads also when it was an exam upload: the
    handler's test for exam uploads looks for a phrase that the exam
    filter's message does not contain.  And whatever else it says, an
    error whose message contains the phrase of the filters is answered
    400, never 500. *)
Theorem rejected_upload_is_a_client_error :
  (forall mimetype,
     (answerFileFilter mimetype = None <-> In mimetype allowedTypes)
     /\ (examFileFilter mimetype = None <-> In mimetype allowedTypes))
  /\ (forall mimetype err,
        answerFileFilter mimetype = Some err
        \/ examFileFilter mimetype = Some err ->
        errorHandler err
        = (400, "Only PDF, JPG, and PNG files are allowed for answer uploads."))
  /\ (forall code pre post,
        fst (errorHandler
               (mkError code
                  (pre ++ "Only PDF, JPG, and PNG files are allowed" ++ post)))
        = 400).
Proof.
  split; [|split].
  - intros mimetype. rewrite <- allowed_type_spec.
    unfold answerFileFilter, examFileFilter.
    destruct (existsb _ _); split; split; congruence.
  - intros mimetype err.
    unfold answerFileFilter, examFileFilter.
    destruct (existsb _ _); intros [H|H]; try discriminate;
      inversion H; reflexivity.
  - intros given pre post. unfold errorHandler. cbn [message code].
    destruct (match given with Some c => _ | None => _ end); [reflexivity|].
    destruct (includes "Only PDF files are allowed" _); [reflexivity|].
    rewrite includes_append. reflexivity.
Qed.

Lemma rejected_upload_is_a_client_error_witness :
  examFileFilter "text/html"
  = Some (mkError None
            "Only PDF, JPG, and PNG files are allowed for exam uploads")
  /\ errorHandler
       (mkError None
          "Only PDF, JPG, and PNG files are allowed for exam uploads")
     = (400, "Only PDF, JPG, and PNG files are allowed for answer uploads.").
Proof.
  split; [reflexivity|].
  exact (proj1 (proj2 rejected_upload_is_a_client_error) "text/html" _
               (or_intror eq_refl)).
Defined.

(** ** Creating an exam *)

(** X18.  An exam that was created is there for everyone.  When POST
    /api/exams answers 201 in a store built through the API, the requester
    is a teacher, the stored title is the trimmed one and has 1 to 100
    characters, the duration is the one sent and lies within 1 to 300, the
    id is one no exam had before; the exam is active, GET /api/exams/:id
    then shows it with that title, duration and the requester as creator,
    and the listing of every student contains it. *)
Theorem created_exam_is_published db user now title duration file db' json :
  apiBuilt db ->
  createExamRoute user now title duration file db = (db', Ok 201 json) ->
  let i := ExamCreatedJson.id json in
  role user = "teacher"
  /\ ExamCreatedJson.title json = trim title
  /\ 1 <= String.length (trim title) <= 100
  /\ duration = Some (ExamCreatedJson.duration json)
  /\ (1 <= ExamCreatedJson.duration json <= 300)%Z
  /\ ExamCreatedJson.createdBy json = id user
  /\ ExamCreatedJson.examFileId json = file
  /\ findOne (examById i) (exams db) = None
  /\ activeFlag i db' = Some true
  /\ (exists teacher,
        findOne (userById (id user)) (teachers db) = Some teacher
        /\ getExam i db'
           = Ok 200 (ExamDetailJson.mk i (trim title)
                       (option_map inl file)
                       (ExamCreatedJson.duration json) teacher now))
  /\ (forall student,
        role student = "student" ->
        exists shown,
          listExams student db' = Ok 200 shown
          /\ In i (map ExamJson.id shown)).
Proof.
  intros B Hc i.
  assert (B' : apiBuilt db').
  { replace db' with (fst (createExamRoute user now title duration file db))
      by (rewrite Hc; reflexivity).
    apply createExam_apiBuilt, B. }
  assert (Hrole : role user = "teacher").
  { apply (isTeacher_role user db). unfold createExamRoute, guarded in Hc.
    destruct (isTeacher user db); [reflexivity | inversion Hc]. }
  unfold createExamRoute, guarded, isTeacher in Hc.
  rewrite Hrole in Hc. simpl in Hc.
  destruct (findOne (userById (id user)) (teachers db)) as [teacher|] eqn:Ht;
    [|inversion Hc].
  unfold createExam in Hc.
  destruct duration as [d|]; [|inversion Hc].
  destruct (negb _) eqn:Hvalid in Hc; [inversion Hc|].
  destruct file as [f|]; [|inversion Hc].
  apply negb_false_iff in Hvalid.
  apply andb_true_iff in Hvalid. destruct Hvalid as [Hvalid Hmax].
  apply andb_true_iff in Hvalid. destruct Hvalid as [Htitle Hmin].
  apply andb_true_iff in Htitle. destruct Htitle as [Hlo Hhi].
  apply Nat.leb_le in Hlo, Hhi. apply Z.leb_le in Hmin, Hmax.
  unfold insertExam in Hc. cbv zeta in Hc.
  injection Hc as Hdb Hjson. subst db' json. subst i. simpl.
  set (e := Exam.mk (nextId db) (trim title) (Some f) None d (id user)
                    true now) in *.
  assert (Hnone : findOne (examById (nextId db)) (exams db) = None).
  { apply find_absent. intros x Hx. unfold examById.
    pose proof (built_exam_fresh _ B x Hx).
    destruct (Nat.eqb_spec (Exam._id x) (nextId db)); [lia | reflexivity]. }
  assert (Hfound : findOne (examById (nextId db)) (exams db ++ [e]) = Some e).
  { unfold findOne in *. rewrite find_append, Hnone. simpl.
    unfold examById. simpl. rewrite Nat.eqb_refl. reflexivity. }
  repeat match goal with |- _ /\ _ => split end;
    try reflexivity; try lia; try assumption.
  - unfold activeFlag. simpl. rewrite Hfound. reflexivity.
  - exists teacher. split; [reflexivity|].
    unfold getExam. simpl. rewrite Hfound. simpl. rewrite Ht. reflexivity.
  - intros student Hs.
    match goal with
    | |- context [listExams student ?d] => set (db' := d) in *
    end.
    destruct (listExams_rows student db' (built_wellFormed _ B'))
      as (shown & Hshown & HF).
    exists shown. split; [exact Hshown|].
    rewrite (examJson_ids _ _ _ HF).
    apply in_map_iff. exists e. split; [reflexivity|].
    apply (Permutation_in _ (Permutation_sym (sortNewestFirst_perm _))).
    apply filter_In. split.
    + simpl. apply in_or_app. right. left. reflexivity.
    + unfold matchesQuery, listQuery. rewrite Hs. reflexivity.
Qed.

Lemma created_exam_is_published_witness :
  apiBuilt Scenario.users
  /\ getExam 1000 Scenario.created
     = Ok 200 (ExamDetailJson.mk 1000 "Geometry" (Some (inl 7)) 45
                 Sample.teacherA 0)
  /\ exists shown,
       listExams Sample.asStudentS Scenario.created = Ok 200 shown
       /\ In 1000 (map ExamJson.id shown).
Proof.
  assert (B : apiBuilt Scenario.users) by apply emptyStore_apiBuilt.
  split; [exact B|].
  destruct (created_exam_is_published Scenario.users Sample.asTeacherA 0
              "  Geometry " (Some 45%Z) (Some 7) _ _ B eq_refl)
    as (_ & _ & _ & _ & _ & _ & _ & _ & _ & Hget & Hlist).
  split.
  - destruct Hget as (teacher & Ht & Hget). reflexivity.
  - exact (Hlist Sample.asStudentS eq_refl).
Defined.

(** ** The saved time, read back *)

(** X19.  The time a client saves is not the time it reads back.  After
    PUT .../time stored [t] seconds on an attempt, the status read of the
    attempt's exam reports the clamped [t] less the whole seconds since
    the attempt was started (not since the save), never below 0; so once
    the clock has reached the start it reports at most what was saved,
    and nothing at all when the attempt is older than [t] seconds. *)
Theorem saved_time_is_read_back_less_elapsed db now later s i t a :
  wellFormed db ->
  findOne (attemptOwnedBy i s) (attempts db) = Some a ->
  let saved := Z.max 0 t in
  let elapsed := ((later - ExamAttempt.startedAt a) / 1000)%Z in
  exists current,
    snd (getStatus later s (ExamAttempt.examId a)
                   (fst (updateTime now s i t db)))
    = Ok 200 (Some current)
    /\ Json.c_id current = i
    /\ Json.c_timeRemaining current = Z.max 0 (saved - elapsed)
    /\ Json.c_lastAccessedAt current = now
    /\ ((ExamAttempt.startedAt a <= later)%Z ->
        (Json.c_timeRemaining current <= saved)%Z)
    /\ ((saved <= elapsed)%Z -> Json.c_timeRemaining current = 0%Z).
Proof.
  intros WF Ha saved elapsed.
  destruct (find_decompose _ _ _ Ha) as (_ & _ & _ & Pa & _).
  apply attemptOwnedBy_spec in Pa. destruct Pa as [Hid Hs].
  set (timed := ExamAttempt.set_lastAccessedAt now
                  (ExamAttempt.set_timeRemaining saved a)).
  set (a' := if (ExamAttempt.timeRemaining timed <=? 0)%Z
             then ExamAttempt.set_status ExamAttempt.expired timed
             else timed).
  assert (E : fst (updateTime now s i t db) = saveAttempt a' db)
    by (unfold updateTime; rewrite Ha; reflexivity).
  assert (Hfields : ExamAttempt._id a' = ExamAttempt._id a
                    /\ ExamAttempt.studentId a' = ExamAttempt.studentId a
                    /\ ExamAttempt.examId a' = ExamAttempt.examId a
                    /\ ExamAttempt.startedAt a' = ExamAttempt.startedAt a
                    /\ ExamAttempt.lastAccessedAt a' = now
                    /\ ExamAttempt.timeRemaining a' = saved
                    /\ ExamAttempt.isCompleted a' = ExamAttempt.isCompleted a).
  { unfold a'. destruct (_ <=? 0)%Z; simpl; auto 10. }
  destruct Hfields as (Fid & Fs & Fe & Fstart & Flast & Ftime & Fdone).
  assert (Hp : persists a a').
  { unfold persists. rewrite Fid, Fs, Fe, Ftime, Fdone.
    repeat split; auto. intros _. unfold saved. lia. }
  assert (WF' : wellFormed (saveAttempt a' db))
    by (apply (saveAttempt_evolves (attemptOwnedBy i s) db a a'); auto).
  assert (Hin : In a' (attempts (saveAttempt a' db))).
  { destruct (saveAttempt_at _ db a a' (wf_attempt_ids _ WF) Ha Fid)
      as (l1 & l2 & _ & -> & _). apply in_or_app. right. left. reflexivity. }
  assert (Hfound : findOne (attemptOf s (ExamAttempt.examId a))
                           (attempts (saveAttempt a' db)) = Some a').
  { apply findOne_member; auto. apply attemptOf_pair.
    unfold attemptPair. rewrite Fs, Fe, Hs. reflexivity. }
  rewrite E, (getStatus_found later s _ _ a' Hfound). cbv zeta.
  rewrite Ftime, Fstart. fold elapsed.
  eexists. split; [reflexivity|]. simpl.
  assert (Hkeep : forall b : bool,
            ExamAttempt._id
              (if b then ExamAttempt.set_timeRemaining 0
                           (ExamAttempt.set_status ExamAttempt.expired a')
               else a') = i
            /\ ExamAttempt.lastAccessedAt
                 (if b then ExamAttempt.set_timeRemaining 0
                              (ExamAttempt.set_status ExamAttempt.expired a')
                  else a') = now).
  { intros []; simpl; rewrite ?Fid, ?Flast; auto. }
  split; [apply Hkeep|]. split; [reflexivity|].
  split; [apply Hkeep|]. split.
  - intros Hclock. apply elapsed_nonneg in Hclock. fold elapsed in Hclock.
    unfold saved in *. lia.
  - intros Hold. lia.
Qed.

Lemma saved_time_is_read_back_less_elapsed_witness :
  wellFormed Sample.started
  /\ exists current,
       snd (getStatus 600000 3 10
                      (fst (updateTime 600000 3 100 3000 Sample.started)))
       = Ok 200 (Some current)
       /\ Json.c_timeRemaining current = 2400%Z.
Proof.
  split; [exact sample_started_wellFormed|].
  destruct (saved_time_is_read_back_less_elapsed Sample.started
              600000 600000 3 100 3000 _ sample_started_wellFormed eq_refl)
    as (current & Hget & _ & Htime & _).
  exists current. split; [exact Hget | exact Htime].
Defined.

(** ** Who may write what *)

Lemma toggle_keeps_attempts user i db :
  (attempts (fst (cancelRoute user i db)) = attempts db
   /\ submissions (fst (cancelRoute user i db)) = submissions db)
  /\ (attempts (fst (activateRoute user i db)) = attempts db
      /\ submissions (fst (activateRoute user i db)) = submissions db).
Proof.
  unfold cancelRoute, activateRoute, guarded, cancel, activate.
  repeat branch; simpl; auto.
Qed.

(** X20.  A request that is accepted comes from a stored user in the role
    of its route, and writes only on that role's side: either a stored
    student, and then the exams are as before, or a stored teacher, and
    then the attempts and the submissions are as before.  No other role,
    an admin included, has any writing request accepted. *)
Theorem accepted_requests_come_from_known_users act db :
  accepted act db = true ->
  (role (actor act) = "student"
   /\ findOne (userById (id (actor act))) (students db) <> None
   /\ exams (perform act db) = exams db)
  \/ (role (actor act) = "teacher"
      /\ findOne (userById (id (actor act))) (teachers db) <> None
      /\ attempts (perform act db) = attempts db
      /\ submissions (perform act db) = submissions db).
Proof.
  destruct act as [r | user now title duration file]; simpl.
  - destruct r; simpl; intros Hok.
    1-5: left;
      assert (Hs : succeeded (isStudent user db) = true)
        by (revert Hok;
            unfold startRoute, getStatusRoute, updateTimeRoute,
              completeRoute, submitRoute, guarded;
            destruct (isStudent user db); [reflexivity | discriminate]);
      split; [exact (isStudent_role user db Hs)|];
      split; [exact (isStudent_known user db Hs)|];
      apply guarded_exams;
      auto using start_exams, getStatus_exams, updateTime_exams,
        complete_exams, submit_exams.
    all: right;
      assert (Ht : succeeded (isTeacher user db) = true)
        by (revert Hok; unfold cancelRoute, activateRoute, guarded;
            destruct (isTeacher user db); [reflexivity | discriminate]);
      split; [exact (isTeacher_role user db Ht)|];
      split; [exact (isTeacher_known user db Ht)|];
      apply toggle_keeps_attempts.
  - intros Hok. right.
    assert (Ht : succeeded (isTeacher user db) = true)
      by (revert Hok; unfold createExamRoute, guarded;
          destruct (isTeacher user db); [reflexivity | discriminate]).
    split; [exact (isTeacher_role user db Ht)|].
    split; [exact (isTeacher_known user db Ht)|].
    destruct (createExam_others user now title duration file db)
      as (Ea & Es & _).
    auto.
Qed.

Lemma accepted_requests_come_from_known_users_witness :
  accepted (Write (PutCancel Sample.asTeacherA 1000)) Scenario.sat = true
  /\ attempts (perform (Write (PutCancel Sample.asTeacherA 1000))
                       Scenario.sat)
     = attempts Scenario.sat.
Proof.
  split; [reflexivity|].
  destruct (accepted_requests_come_from_known_users
              (Write (PutCancel Sample.asTeacherA 1000)) Scenario.sat
              eq_refl) as [(Hrole & _)|(_ & _ & Ha & _)].
  - discriminate Hrole.
  - exact Ha.
Defined.
